(** * goproxy request helpers: a shallow embedding

  The development follows the two packages of the repository:
  [request] (the [BaseRequest] wrapper around an HTTP request, with its
  tenant look-ups) and [helpers] (the proxy filters that the interception
  engine calls at each stage of an exchange).

  Go values are modelled as the code has them: strings are byte strings
  ([string]), [http.Header] is a finite map from canonical keys to value
  lists, the session table [requestData] is a finite map from [int64]
  session numbers to requests, a nil-able pointer is an [option], and a
  run-time panic is the [Panic] outcome of the [result] type. *)

From Stdlib Require Import ZArith Ascii String DecimalString List Lia Bool.
From stdpp Require Import base option list gmap strings.

Local Open Scope Z_scope.
Local Open Scope stdpp_scope.

(** ** Outcomes of Go code that may panic *)

Inductive result (A : Type) : Type :=
| Ok (a : A)
| Panic (msg : string).
Arguments Ok {A} a.
Arguments Panic {A} msg.

(** ** The functions of Go's [strings] and [strconv] that the code calls *)

Module GoStrings.

(** [len(s)]: the number of bytes. *)
Definition len (s : string) : Z := Z.of_nat (String.length s).

(** [s[i]] for an index in range. *)
Definition byteAt (s : string) (i : nat) : option ascii := String.get i s.

(** [s[n:]]. *)
Fixpoint drop (n : nat) (s : string) : string :=
  match n, s with
  | O, _ => s
  | S _, EmptyString => EmptyString
  | S k, String _ s' => drop k s'
  end.

(** [s[:n]]. *)
Fixpoint take (n : nat) (s : string) : string :=
  match n, s with
  | O, _ => EmptyString
  | S _, EmptyString => EmptyString
  | S k, String c s' => String c (take k s')
  end.

(** [strings.HasPrefix(s, prefix)]. *)
Fixpoint HasPrefix (s prefix : string) {struct prefix} : bool :=
  match prefix with
  | EmptyString => true
  | String p prefix' =>
      match s with
      | EmptyString => false
      | String c s' => if Ascii.eqb c p then HasPrefix s' prefix' else false
      end
  end.

(** [strings.Index(s, substr)]: the byte offset of the first occurrence,
    [None] for Go's [-1]. *)
Fixpoint Index (s substr : string) : option nat :=
  if HasPrefix s substr then Some O
  else match s with
       | EmptyString => None
       | String _ s' => option_map S (Index s' substr)
       end.

(** [strings.Contains(s, substr)]. *)
Definition Contains (s substr : string) : bool :=
  match Index s substr with Some _ => true | None => false end.

(** [strings.Replace(s, old, new, 1)]: the first occurrence of [old]
    replaced; [s] itself when [old == new] or [old] does not occur; an empty
    [old] matches at the start of [s]. *)
Definition Replace1 (s old new : string) : string :=
  if String.eqb old new then s
  else match Index s old with
       | None => s
       | Some i => take i s +:+ new +:+ drop (i + String.length old) s
       end.

(** [strings.TrimPrefix(s, prefix)]. *)
Definition TrimPrefix (s prefix : string) : string :=
  if HasPrefix s prefix then drop (String.length prefix) s else s.

(** [strings.Split(s, sep)] for a non-empty separator: [skip] counts the
    bytes of a separator still to be passed over, [cur] is the piece being
    collected. *)
Fixpoint splitFrom (s sep : string) (skip : nat) (cur : string) : list string :=
  match s with
  | EmptyString => [cur]
  | String c s' =>
      match skip with
      | S k => splitFrom s' sep k cur
      | O =>
          if HasPrefix s sep
          then cur :: splitFrom s' sep (String.length sep - 1) EmptyString
          else splitFrom s' sep O (cur +:+ String c EmptyString)
      end
  end.

Definition Split (s sep : string) : list string := splitFrom s sep O EmptyString.

(** [strconv.Itoa(n)]: the decimal representation. *)
Definition Itoa (n : Z) : string := NilZero.string_of_int (Z.to_int n).

End GoStrings.

Import GoStrings.

(** ** The parts of [net/http] and [net/url] that the code touches *)

Module Http.

Definition isLower (c : ascii) : bool :=
  (97 <=? nat_of_ascii c)%nat && (nat_of_ascii c <=? 122)%nat.
Definition isUpper (c : ascii) : bool :=
  (65 <=? nat_of_ascii c)%nat && (nat_of_ascii c <=? 90)%nat.

(** [textproto.CanonicalMIMEHeaderKey] on keys made of letters, digits and
    hyphens: upper case at the start and after a hyphen, lower case
    elsewhere. *)
Fixpoint canonicalFrom (upper : bool) (s : string) : string :=
  match s with
  | EmptyString => EmptyString
  | String c s' =>
      let c' :=
        if upper && isLower c then ascii_of_nat (nat_of_ascii c - 32)
        else if negb upper && isUpper c then ascii_of_nat (nat_of_ascii c + 32)
        else c in
      String c' (canonicalFrom (Ascii.eqb c' "-"%char) s')
  end.

Definition CanonicalMIMEHeaderKey (s : string) : string := canonicalFrom true s.

(** [http.Header], a [map[string][]string]. *)
Abbreviation Header := (gmap string (list string)).

(** [h.Get(key)]: the first value under the canonical key, or [""]. *)
Definition Get (h : Header) (key : string) : string :=
  match h !! CanonicalMIMEHeaderKey key with
  | Some (v :: _) => v
  | _ => ""
  end.

(** [h.Set(key, value)]. *)
Definition Set_ (h : Header) (key value : string) : Header :=
  <[CanonicalMIMEHeaderKey key := [value]]> h.

(** [h.Add(key, value)]. *)
Definition Add (h : Header) (key value : string) : Header :=
  <[CanonicalMIMEHeaderKey key := default [] (h !! CanonicalMIMEHeaderKey key) ++ [value]]> h.

(** [h.Del(key)]. *)
Definition Del (h : Header) (key : string) : Header :=
  delete (CanonicalMIMEHeaderKey key) h.

(** [url.URL]: the fields that [RequestURI] and the filters read or
    write. *)
Record URL : Type := mkURL {
  Scheme : string;
  Opaque : string;
  UHost : string;
  Path : string;
  RawPath : string;
  ForceQuery : bool;
  RawQuery : string
}.

Definition isDigit (c : ascii) : bool :=
  (48 <=? nat_of_ascii c)%nat && (nat_of_ascii c <=? 57)%nat.

(** [shouldEscape(c, encodePath)]: letters, digits and the marks
    [-], [_], [.], [~] are kept; of the reserved bytes only [?] is
    escaped; every other byte is escaped. *)
Definition shouldEscape (c : ascii) : bool :=
  if isLower c || isUpper c || isDigit c then false
  else if existsb (Ascii.eqb c) (list_ascii_of_string "-_.~") then false
  else if existsb (Ascii.eqb c) (list_ascii_of_string "$&+,/:;=?@") then Ascii.eqb c "?"%char
  else true.

Definition upperhex (n : nat) : ascii :=
  default "0"%char (String.get n "0123456789ABCDEF").

(** [escape(s, encodePath)]: a byte to escape becomes [%] and its two
    upper-case hexadecimal digits. *)
Fixpoint escape (s : string) : string :=
  match s with
  | EmptyString => EmptyString
  | String c s' =>
      if shouldEscape c
      then String "%"%char
             (String (upperhex (nat_of_ascii c / 16))
                (String (upperhex (nat_of_ascii c mod 16)) (escape s')))
      else String c (escape s')
  end.

(** [validEncoded(s, encodePath)]. *)
Definition validEncoded (s : string) : bool :=
  forallb (fun c => existsb (Ascii.eqb c) (list_ascii_of_string "!$&'()*+,;=:@[]%")
                    || negb (shouldEscape c))
    (list_ascii_of_string s).

Definition ishex (c : ascii) : bool :=
  isDigit c
  || ((97 <=? nat_of_ascii c)%nat && (nat_of_ascii c <=? 102)%nat)
  || ((65 <=? nat_of_ascii c)%nat && (nat_of_ascii c <=? 70)%nat).

Definition unhex (c : ascii) : nat :=
  if isDigit c then nat_of_ascii c - 48
  else if (97 <=? nat_of_ascii c)%nat && (nat_of_ascii c <=? 102)%nat
       then nat_of_ascii c - 97 + 10
       else if (65 <=? nat_of_ascii c)%nat && (nat_of_ascii c <=? 70)%nat
            then nat_of_ascii c - 65 + 10
            else 0.

(** [unescape(s, encodePath)]: [None] is the [EscapeError] of a [%] that is
    not followed by two hexadecimal digits. *)
Fixpoint unescape (s : string) : option string :=
  match s with
  | EmptyString => Some EmptyString
  | String c s' =>
      if Ascii.eqb c "%"%char
      then match s' with
           | String a (String b rest) =>
               if ishex a && ishex b
               then option_map (String (ascii_of_nat (unhex a * 16 + unhex b))) (unescape rest)
               else None
           | _ => None
           end
      else option_map (String c) (unescape s')
  end.

(** [u.EscapedPath()]: [RawPath] when it is a valid encoding of [Path],
    otherwise the escaped [Path]. *)
Definition EscapedPath (u : URL) : string :=
  if negb (String.eqb (RawPath u) "") && validEncoded (RawPath u)
     && match unescape (RawPath u) with
        | Some p => String.eqb p (Path u)
        | None => false
        end
  then RawPath u
  else if String.eqb (Path u) "*" then "*" else escape (Path u).

(** [u.RequestURI()]: the opaque part, or the escaped path, ["/"] when it is
    empty; followed by [?] and the query when there is one or when
    [ForceQuery] is set. *)
Definition RequestURI (u : URL) : string :=
  let result :=
    if String.eqb (Opaque u) ""
    then if String.eqb (EscapedPath u) "" then "/" else EscapedPath u
    else if HasPrefix (Opaque u) "//" then Scheme u +:+ ":" +:+ Opaque u else Opaque u in
  if ForceQuery u || negb (String.eqb (RawQuery u) "")
  then result +:+ "?" +:+ RawQuery u
  else result.

(** [http.Request]; [Body] is the byte content of the body reader. *)
Record Request : Type := mkRequest {
  Method : string;
  Url_ : URL;
  ReqHeader : Header;
  Host : string;
  RemoteAddr : string;
  ReqURI : string;
  ReqBody : string
}.

(** [http.Response]. *)
Record Response : Type := mkResponse {
  StatusCode : Z;
  RespHeader : Header;
  RespBody : string
}.

Definition setRespHeader (resp : Response) (h : Header) : Response :=
  mkResponse (StatusCode resp) h (RespBody resp).

Definition setReqHeader (r : Request) (h : Header) : Request :=
  mkRequest (Method r) (Url_ r) h (Host r) (RemoteAddr r) (ReqURI r) (ReqBody r).

Definition StatusOK : Z := 200.
Definition StatusServiceUnavailable : Z := 503.

End Http.

Import Http.

(** ** The records of the [models] package that the code reads *)

Module Models.

Record Environment : Type := mkEnvironment {
  EnvId : string;
  Slug : string;
  Url : string;
  Ssl : bool;
  ProjectId : string;
  ApiId : string;
  Running : bool
}.

Record Api : Type := mkApi { ApiIdent : string }.
Record Project : Type := mkProject { ProjectIdent : string }.
Record User : Type := mkUser { UserIdent : string }.

(** The zero values [models.Environment{}], [models.Api{}],
    [models.Project{}]. *)
Definition zeroEnvironment : Environment :=
  mkEnvironment "" "" "" false "" "" false.
Definition zeroApi : Api := mkApi "".
Definition zeroProject : Project := mkProject "".

(** The capture record that [models.NewRequest] builds from its
    arguments: tenant identity, the request with its body, the response with
    its body. *)
Record SLRequest : Type := mkSLRequest {
  SLUser : option User;
  SLApi : Api;
  SLEnv : Environment;
  SLReq : Request;
  SLReqBody : string;
  SLResp : Response;
  SLRespBody : string
}.

End Models.

Import Models.

(** ** The world the filters run in *)

(** The tenant store behind the [gorm] connection. Rows are kept in primary
    key order, so [First] is the first matching row. [CreateError] is the
    answer of the store to an insertion of a capture record, and
    [CurrentUser] the user look-up of the [routers] package. *)
Record DB : Type := mkDB {
  environments : list Environment;
  apis : list Api;
  projects : list Project;
  requests : list SLRequest;
  CreateError : SLRequest -> option string;
  CurrentUser : string -> option User
}.

(** The look-ups that reach the store, in the order they are issued. *)
Inductive Query : Type :=
| EnvBySlug (slug : string)
| EnvByHost (host : string)
| ApiById (id : string)
| ProjectById (id : string)
| UserByToken (token : string).

(** The values kept in the package-level LRU cache (an [interface{}]). *)
Inductive CacheVal : Type :=
| CEnvironment (e : Environment)
| CApi (a : Api)
| CProject (p : Project).

(** [request.BaseRequest]. [HttpRequest] is a pointer: the address of the
    request in the heap, shared with the filter argument [r] and with
    [ctx.Req]. The record carries the [project] and [user] fields of
    request.go and the [api] field of its earlier revision, whose [GetApi] the
    filters call. The attempt log and the user-data bag, which no filter
    touches, are left out. *)
Record BaseRequest : Type := mkBaseRequest {
  HttpRequest : positive;
  ReqHeaders : Header;
  Id : Z;
  Body : string;
  Skip : bool;
  env : option Environment;
  project : option Project;
  api : option Api;
  user : option User
}.

Definition setSkip (br : BaseRequest) (b : bool) : BaseRequest :=
  mkBaseRequest (HttpRequest br) (ReqHeaders br) (Id br) (Body br) b
    (env br) (project br) (api br) (user br).

Definition setUser (br : BaseRequest) (u : option User) : BaseRequest :=
  mkBaseRequest (HttpRequest br) (ReqHeaders br) (Id br) (Body br) (Skip br)
    (env br) (project br) (api br) u.

(** The closure of a goroutine that [SaveStopLightRequest] starts: the
    variables it captures. [CaptureTask] is the closure of helpers.go,
    [CaptureTaskCtx] the one of the later revision, which also captures the
    no-context header and the dashboard flag. *)
Inductive Task : Type :=
| CaptureTask (baseRequest : BaseRequest) (env : Environment)
    (resp : Response) (respBody : string)
| CaptureTaskCtx (baseRequest : BaseRequest) (noContext : string)
    (isDashboardRequest : bool) (resp : Response) (respBody : string).

(** An event handed to the socket hub by [BroadcastEvent]. *)
Record Event : Type := mkEvent {
  EvName : string;
  EvModel : string;
  EvData : SLRequest;
  EvFromDashboard : bool
}.

(** The state shared by the filters: the store, the LRU cache (most recent
    first), the heap of [http.Request] objects, the session table
    [requestData], and what the code emits: look-ups, log lines, hub events
    and started goroutines. *)
Record World : Type := mkWorld {
  db : DB;
  cache : list (string * CacheVal);
  heap : gmap positive Request;
  requestData : gmap Z BaseRequest;
  queries : list Query;
  logs : list string;
  broadcasts : list Event;
  spawned : list Task
}.

Definition setDb (w : World) (d : DB) : World :=
  mkWorld d (cache w) (heap w) (requestData w) (queries w) (logs w) (broadcasts w) (spawned w).
Definition setCache (w : World) (c : list (string * CacheVal)) : World :=
  mkWorld (db w) c (heap w) (requestData w) (queries w) (logs w) (broadcasts w) (spawned w).
Definition setHeap (w : World) (h : gmap positive Request) : World :=
  mkWorld (db w) (cache w) h (requestData w) (queries w) (logs w) (broadcasts w) (spawned w).
Definition setRequestData (w : World) (m : gmap Z BaseRequest) : World :=
  mkWorld (db w) (cache w) (heap w) m (queries w) (logs w) (broadcasts w) (spawned w).
Definition setQueries (w : World) (q : list Query) : World :=
  mkWorld (db w) (cache w) (heap w) (requestData w) q (logs w) (broadcasts w) (spawned w).
Definition setLogs (w : World) (l : list string) : World :=
  mkWorld (db w) (cache w) (heap w) (requestData w) (queries w) l (broadcasts w) (spawned w).
Definition setBroadcasts (w : World) (b : list Event) : World :=
  mkWorld (db w) (cache w) (heap w) (requestData w) (queries w) (logs w) b (spawned w).
Definition setSpawned (w : World) (t : list Task) : World :=
  mkWorld (db w) (cache w) (heap w) (requestData w) (queries w) (logs w) (broadcasts w) t.

(** ** The monad of the filters: state passing over [World], with panics *)

Definition M (A : Type) : Type := World -> result (A * World).

Definition ret {A : Type} (a : A) : M A := fun w => Ok (a, w).

Definition bind {A B : Type} (m : M A) (k : A -> M B) : M B :=
  fun w => match m w with
           | Ok (a, w') => k a w'
           | Panic msg => Panic msg
           end.

Definition panic {A : Type} (msg : string) : M A := fun _ => Panic msg.

Definition gets {A : Type} (f : World -> A) : M A := fun w => Ok (f w, w).

Definition modify (f : World -> World) : M unit := fun w => Ok (tt, f w).

Definition lift {A : Type} (r : result A) : M A :=
  fun w => match r with Ok a => Ok (a, w) | Panic msg => Panic msg end.

Declare Scope go_scope.
Delimit Scope go_scope with go.
Notation "x ← y ; z" := (bind y (fun x => z))
  (at level 20, y at level 100, z at level 200, only parsing) : go_scope.
Notation "' x ← y ; z" := (bind y (fun x => z))
  (at level 20, x pattern, y at level 100, z at level 200, only parsing) : go_scope.
Local Open Scope go_scope.

Definition nilDeref : string := "invalid memory address or nil pointer dereference".

(** [*p] for a request pointer. *)
Definition deref (p : positive) : M Request :=
  fun w => match heap w !! p with
           | Some r => Ok (r, w)
           | None => Panic nilDeref
           end.

(** [*p = r]. *)
Definition store (p : positive) (r : Request) : M unit :=
  modify (fun w => setHeap w (<[p := r]> (heap w))).

(** [log.Println]. *)
Definition Println (line : string) : M unit :=
  modify (fun w => setLogs w (logs w ++ [line])).

(** A look-up sent to the store. *)
Definition issue (q : Query) : M unit :=
  modify (fun w => setQueries w (queries w ++ [q])).

(** [go f()]. *)
Definition spawn (t : Task) : M unit :=
  modify (fun w => setSpawned w (spawned w ++ [t])).

(** ** The LRU cache of capacity 128 ([lru.New(128)]) *)

Definition cacheSize : nat := 128.

Definition cacheRemove (key : string) (c : list (string * CacheVal)) : list (string * CacheVal) :=
  filter (fun kv => negb (String.eqb (fst kv) key)) c.

Definition cacheFind (key : string) (c : list (string * CacheVal)) : option CacheVal :=
  option_map snd (List.find (fun kv => String.eqb (fst kv) key) c).

(** [cache.Get(key)]: a hit moves the entry to the front. *)
Definition cacheGet (key : string) : M (option CacheVal) :=
  fun w => match cacheFind key (cache w) with
           | Some v => Ok (Some v, setCache w ((key, v) :: cacheRemove key (cache w)))
           | None => Ok (None, w)
           end.

(** [cache.Add(key, value)]: the entry goes to the front; the oldest one is
    evicted beyond the capacity. *)
Definition cacheAdd (key : string) (v : CacheVal) : M unit :=
  modify (fun w => setCache w (List.firstn cacheSize ((key, v) :: cacheRemove key (cache w)))).

(** ** Package [request] (src/request/request.go) *)

Module Request.

(** [NewBaseRequest]: the headers are copied, the body is read and put
    back; [env], [project], [api] and [user] start as nil. *)
Definition NewBaseRequest (r : positive) (id : Z) : M BaseRequest :=
  rq ← deref r;
  ret (mkBaseRequest r (ReqHeader rq) id (ReqBody rq) false None None None None).

(** [slugFromUrl]: [url[0]] and [parts[1]] are checked index expressions. *)
Definition slugFromUrl (url : string) : result string :=
  let parts := Split url "/" in
  match byteAt url 0 with
  | None => Panic "index out of range"
  | Some c =>
      if Ascii.eqb c "/"%char
      then match parts !! 1%nat with
           | Some identifier => Ok identifier
           | None => Panic "index out of range"
           end
      else match parts !! 0%nat with
           | Some identifier => Ok identifier
           | None => Panic "index out of range"
           end
  end.

(** [Where("slug = ? AND running = ?", identifier, true).First(&env)]. *)
Definition firstBySlug (identifier : string) (d : DB) : option Environment :=
  List.find (fun e => String.eqb (Slug e) identifier && Bool.eqb (Running e) true)
    (environments d).

(** [Where("url = ? AND running = ?", identifier, true).First(&env)]. *)
Definition firstByUrl (identifier : string) (d : DB) : option Environment :=
  List.find (fun e => String.eqb (Url e) identifier && Bool.eqb (Running e) true)
    (environments d).

(** [requestEnvFromPath]: the cache is disabled here, every call reaches
    the store. A miss leaves the zero environment. *)
Definition requestEnvFromPath (br : BaseRequest) : M Environment :=
  rq ← deref (HttpRequest br);
  identifier ← lift (slugFromUrl (RequestURI (Url_ rq)));
  _ ← issue (EnvBySlug identifier);
  d ← gets db;
  ret (default zeroEnvironment (firstBySlug identifier d)).

(** [requestEnvFromHost]. *)
Definition requestEnvFromHost (br : BaseRequest) : M Environment :=
  rq ← deref (HttpRequest br);
  let identifier := UHost (Url_ rq) in
  _ ← issue (EnvByHost identifier);
  d ← gets db;
  ret (default zeroEnvironment (firstByUrl identifier d)).

(** [GetEnvironment]. The receiver is returned with the result, as for
    every method with a pointer receiver; no field of it is assigned. *)
Definition GetEnvironment (br : BaseRequest) : M (Environment * BaseRequest) :=
  match env br with
  | Some e => ret (e, br)
  | None =>
      e ← requestEnvFromPath br;
      if String.eqb (EnvId e) ""
      then e' ← requestEnvFromHost br; ret (e', br)
      else ret (e, br)
  end.

(** [GetUser]: the user is fetched once and kept in [br.user]. *)
Definition GetUser (br : BaseRequest) : M (option User * BaseRequest) :=
  match user br with
  | Some u => ret (Some u, br)
  | None =>
      let header := Get (ReqHeaders br) "X-StopLight-Authorization" in
      _ ← issue (UserByToken header);
      d ← gets db;
      let u := CurrentUser d header in
      ret (u, setUser br u)
  end.

(** [Where("id = ?", identifier, true).First(&project)]. *)
Definition firstProject (identifier : string) (d : DB) : option Project :=
  List.find (fun p => String.eqb (ProjectIdent p) identifier) (projects d).

(** [Where("id = ?", identifier, true).First(&api)]. *)
Definition firstApi (identifier : string) (d : DB) : option Api :=
  List.find (fun a => String.eqb (ApiIdent a) identifier) (apis d).

(** [GetProject]: the header first, the environment second. *)
Definition GetProject (br : BaseRequest) : M (Project * BaseRequest) :=
  match project br with
  | Some p => ret (p, br)
  | None =>
      let header := Get (ReqHeaders br) "X-StopLight-Project" in
      '(identifier, br) ←
         (if String.eqb header ""
          then '(e, br') ← GetEnvironment br; ret (ProjectId e, br')
          else ret (header, br));
      if negb (String.eqb identifier "")
      then
        existing ← cacheGet identifier;
        match existing with
        | Some (CProject p) => ret (p, br)
        | Some _ => panic "interface conversion"
        | None =>
            _ ← issue (ProjectById identifier);
            d ← gets db;
            let p := default zeroProject (firstProject identifier d) in
            _ ← cacheAdd identifier (CProject p);
            ret (p, br)
        end
      else ret (zeroProject, br)
  end.

(** [GetApi] (earlier revision of request.go): the environment first, the
    [X-StopLight-Api] header second. *)
Definition GetApi (br : BaseRequest) : M (Api * BaseRequest) :=
  match api br with
  | Some a => ret (a, br)
  | None =>
      '(e, br) ← GetEnvironment br;
      identifier ←
        (if negb (String.eqb (ApiId e) "")
         then ret (ApiId e)
         else rq ← deref (HttpRequest br); ret (Get (ReqHeader rq) "X-StopLight-Api"));
      if negb (String.eqb identifier "")
      then
        existing ← cacheGet identifier;
        match existing with
        | Some (CApi a) => ret (a, br)
        | Some _ => panic "interface conversion"
        | None =>
            _ ← issue (ApiById identifier);
            d ← gets db;
            let a := default zeroApi (firstApi identifier d) in
            _ ← cacheAdd identifier (CApi a);
            ret (a, br)
        end
      else ret (zeroApi, br)
  end.

Section Origin.

(** [url.Parse], of the standard library: [None] is the nil URL that comes
    with a parse error. *)
Variable url_Parse : string -> option URL.

(** [GetOrigin]: the override header, then the environment, then the URL
    of the request itself. *)
Definition GetOrigin (br : BaseRequest) : M (option URL * BaseRequest) :=
  let targetUrl := Get (ReqHeaders br) "X-StopLight-Url-Host" in
  if String.eqb targetUrl ""
  then
    '(e, br) ← GetEnvironment br;
    if String.eqb (Slug e) ""
    then rq ← deref (HttpRequest br); ret (Some (Url_ rq), br)
    else
      let targetUrl := if Ssl e then "https://" +:+ Url e else "http://" +:+ Url e in
      ret (url_Parse targetUrl, br)
  else ret (url_Parse targetUrl, br).

End Origin.

End Request.

(** ** Package [request], the revision with the cache in front of the
    environment look-ups (src/unnamed/part_003) *)

Module RequestCached.

(** [requestEnvFromPath]: the cache, then the store; what the store
    answers, a miss included, is put in the cache. *)
Definition requestEnvFromPath (br : BaseRequest) : M Environment :=
  rq ← deref (HttpRequest br);
  identifier ← lift (Request.slugFromUrl (RequestURI (Url_ rq)));
  existing ← cacheGet identifier;
  match existing with
  | Some (CEnvironment e) => ret e
  | Some _ => panic "interface conversion"
  | None =>
      _ ← issue (EnvBySlug identifier);
      d ← gets db;
      let e := default zeroEnvironment (Request.firstBySlug identifier d) in
      _ ← cacheAdd identifier (CEnvironment e);
      ret e
  end.

(** [requestEnvFromHost]. *)
Definition requestEnvFromHost (br : BaseRequest) : M Environment :=
  rq ← deref (HttpRequest br);
  let identifier := UHost (Url_ rq) in
  existing ← cacheGet identifier;
  match existing with
  | Some (CEnvironment e) => ret e
  | Some _ => panic "interface conversion"
  | None =>
      _ ← issue (EnvByHost identifier);
      d ← gets db;
      let e := default zeroEnvironment (Request.firstByUrl identifier d) in
      _ ← cacheAdd identifier (CEnvironment e);
      ret e
  end.

(** [GetEnvironment]: as in request.go, no field of the receiver is
    assigned. *)
Definition GetEnvironment (br : BaseRequest) : M (Environment * BaseRequest) :=
  match env br with
  | Some e => ret (e, br)
  | None =>
      e ← requestEnvFromPath br;
      if String.eqb (EnvId e) ""
      then e' ← requestEnvFromHost br; ret (e', br)
      else ret (e, br)
  end.

End RequestCached.

(** ** The parts of the [goproxy] engine that the filters use *)

(** [goproxy.ProxyCtx]: the session number and the request of the exchange. *)
Record ProxyCtx : Type := mkProxyCtx {
  Session : Z;
  Req : positive
}.

Definition ContentTypeText : string := "text/plain".

(** Modelled from the spec: [goproxy.NewResponse] is not among the sources.
    It is the synthetic response of the spec, with the given content type,
    status and body and no other header. *)
Definition NewResponse (r : positive) (contentType : string) (status : Z) (body : string) : Response :=
  mkResponse status (Add ∅ "Content-Type" contentType) body.

(** [models.NewRequest]: the capture record of its arguments. *)
Definition NewRequest (u : option User) (a : Api) (e : Environment) (rq : Request)
    (body : string) (resp : Response) (respBody : string) : SLRequest :=
  mkSLRequest u a e rq body resp respBody.

(** [dbConnection.Create(slrequest)]: the error of the store, or the record
    inserted. *)
Definition Create (slrequest : SLRequest) : M (option string) :=
  fun w =>
    match CreateError (db w) slrequest with
    | Some err => Ok (Some err, w)
    | None =>
        let d := db w in
        Ok (None, setDb w (mkDB (environments d) (apis d) (projects d)
                             (requests d ++ [slrequest]) (CreateError d) (CurrentUser d)))
    end.

(** [BroadcastEvent] of the socket hub. *)
Definition BroadcastEvent (ev : Event) : M unit :=
  modify (fun w => setBroadcasts w (broadcasts w ++ [ev])).

(** [requestData[session]]: nil when the session is absent. *)
Definition lookupSession (session : Z) : M (option BaseRequest) :=
  gets (fun w => requestData w !! session).

(** The effect, on the table entry, of a method call through the pointer
    [requestData[session]]. *)
Definition putBase (session : Z) (br : BaseRequest) : M unit :=
  modify (fun w => setRequestData w (<[session := br]> (requestData w))).

(** ** Package [helpers] (src/helpers/helpers.go) *)

Module Helpers.

Definition allowedCorsMethods : string :=
  "GET,POST,PUT,PATCH,DELETE,COPY,HEAD,OPTIONS,LINK,UNLINK,PURGE,LOCK,UNLOCK,PROPFIND".

(** [SetupRequest]. *)
Definition SetupRequest (r : positive) (ctx : ProxyCtx) : M (positive * option Response) :=
  baseReq ← Request.NewBaseRequest r (Session ctx);
  _ ← putBase (Session ctx) baseReq;
  ret (r, None).

(** [PreflightCorsSupport]. *)
Definition PreflightCorsSupport (r : positive) (ctx : ProxyCtx) : M (positive * option Response) :=
  rq ← deref r;
  if String.eqb (Method rq) "OPTIONS"
  then
    let resp := NewResponse r ContentTypeText StatusOK "" in
    let h := Set_ (RespHeader resp) "Access-Control-Allow-Credentials" "true" in
    let h := Set_ h "Access-Control-Allow-Headers" (Get (ReqHeader rq) "Access-Control-Request-Headers") in
    let h := Set_ h "Access-Control-Allow-Methods" allowedCorsMethods in
    let h := Set_ h "Access-Control-Allow-Origin" "*" in
    let h := Set_ h "Access-Control-Expose-Headers" "Content-Length" in
    data ← lookupSession (Session ctx);
    match data with
    | None => panic nilDeref
    | Some br =>
        _ ← putBase (Session ctx) (setSkip br true);
        ret (r, Some (setRespHeader resp h))
    end
  else
    data ← lookupSession (Session ctx);
    match data with
    | None => panic nilDeref
    | Some br =>
        '(e, br) ← Request.GetEnvironment br;
        _ ← putBase (Session ctx) br;
        if String.eqb (Slug e) ""
        then ret (r, None)
        else
          let h := Set_ (ReqHeader rq) "Access-Control-Allow-Credentials" "true" in
          let h := Set_ h "Access-Control-Allow-Headers" (Get h "Access-Control-Request-Headers") in
          let h := Set_ h "Access-Control-Allow-Methods" allowedCorsMethods in
          let h := Set_ h "Access-Control-Allow-Origin" "*" in
          let h := Set_ h "Access-Control-Expose-Headers" "Content-Length" in
          _ ← store r (setReqHeader rq h);
          ret (r, None)
    end.

(** [urlWithoutEnvironment]. *)
Definition urlWithoutEnvironment (env : Environment) (url : string) : string :=
  let newUrl := Replace1 url (Slug env) "" in
  if (1 <? len newUrl) && bool_decide (byteAt newUrl 1 = Some "/"%char)
  then TrimPrefix newUrl "/"
  else if len newUrl =? 0 then "/" else newUrl.

Section Clean.

Variable url_Parse : string -> option URL.

(** [CleanRequest]: the request is retargeted in place. *)
Definition CleanRequest (r : positive) (ctx : ProxyCtx) : M (positive * option Response) :=
  data ← lookupSession (Session ctx);
  match data with
  | None => panic nilDeref
  | Some br =>
      '(e, br) ← Request.GetEnvironment br;
      '(u, br) ← Request.GetOrigin url_Parse br;
      _ ← putBase (Session ctx) br;
      rq ← deref r;
      match u with
      | None => panic nilDeref
      | Some u =>
          let url := mkURL (Scheme u) (Opaque (Url_ rq)) (UHost u)
                       (urlWithoutEnvironment e (Path (Url_ rq)))
                       (RawPath (Url_ rq)) (ForceQuery (Url_ rq)) (RawQuery (Url_ rq)) in
          _ ← store r (mkRequest (Method rq) url (ReqHeader rq) (UHost u) (RemoteAddr rq) ""
                         (ReqBody rq));
          ret (r, None)
      end
  end.

End Clean.

(** [PostflightCorsSupport]. *)
Definition PostflightCorsSupport (resp : option Response) (ctx : ProxyCtx) : M (option Response) :=
  data ← lookupSession (Session ctx);
  match resp, data with
  | None, _ => ret resp
  | Some _, None => ret resp
  | Some rsp, Some br =>
      '(e, br) ← Request.GetEnvironment br;
      _ ← putBase (Session ctx) br;
      if String.eqb (Slug e) ""
      then ret resp
      else
        creq ← deref (Req ctx);
        let h := Set_ (RespHeader rsp) "Access-Control-Allow-Credentials" "true" in
        let h := Set_ h "Access-Control-Allow-Headers" (Get (ReqHeader creq) "Access-Control-Request-Headers") in
        let h := Set_ h "Access-Control-Allow-Methods" allowedCorsMethods in
        let h := Set_ h "Access-Control-Allow-Origin" "*" in
        ret (Some (setRespHeader rsp h))
  end.

(** [SetupResponse]. *)
Definition SetupResponse (resp : option Response) (ctx : ProxyCtx) : M (option Response) :=
  data ← lookupSession (Session ctx);
  match resp, data with
  | None, _ => ret resp
  | Some _, None => ret resp
  | Some rsp, Some br =>
      if Skip br
      then ret resp
      else
        creq ← deref (Req ctx);
        let xff := Get (RespHeader rsp) "X-Forwarded-For" in
        let xff := if negb (String.eqb xff "")
                   then xff +:+ ", " +:+ RemoteAddr creq
                   else RemoteAddr creq in
        let h := Set_ (RespHeader rsp) "X-Forwarded-For" xff in
        let h := Set_ h "X-StopLight-Request" "true" in
        ret (Some (setRespHeader rsp h))
  end.

(** [isValidResponse]. [strconv.Itoa] is never empty, so its byte 0 is in
    range. *)
Definition isValidResponse (req : Request) (resp : option Response) : bool :=
  if String.eqb (Get (ReqHeader req) "X-StopLight-Ignore") "true"
  then false
  else
    match resp with
    | None => true
    | Some rsp =>
        let isAjax := Get (ReqHeader req) "X-Requested-With" in
        let contentType := Get (RespHeader rsp) "Content-Type" in
        let isGet := String.eqb (Method req) "GET" in
        let isStopLightRequest := Get (ReqHeader req) "X-StopLight-Api" in
        let validStatusCode :=
          (StatusCode rsp =? 304)
          || bool_decide (byteAt (Itoa (StatusCode rsp)) 0 = Some "2"%char) in
        negb (String.eqb isStopLightRequest "") || negb isGet || negb (String.eqb isAjax "")
        || negb validStatusCode || Contains contentType "json" || Contains contentType "xml"
    end.

(** The body of the goroutine of [SaveStopLightRequest]. *)
Definition capture (baseRequest : BaseRequest) (env : Environment) (resp : Response)
    (respBody : string) : M unit :=
  '(a, baseRequest) ← Request.GetApi baseRequest;
  rq ← deref (HttpRequest baseRequest);
  let slrequest := NewRequest None a env rq (Body baseRequest) resp respBody in
  err ← Create slrequest;
  match err with
  | Some e => Println e
  | None => BroadcastEvent (mkEvent "request.create" "request" slrequest false)
  end.

(** [SaveStopLightRequest]. The goroutine is recorded in [spawned] with the
    variables it captures; reading the response body is taken to succeed. *)
Definition SaveStopLightRequest (resp : option Response) (ctx : ProxyCtx) : M (option Response) :=
  data ← lookupSession (Session ctx);
  match data with
  | None => ret resp
  | Some baseRequest =>
      if Skip baseRequest
      then ret resp
      else
        '(a, baseRequest) ← Request.GetApi baseRequest;
        _ ← putBase (Session ctx) baseRequest;
        if String.eqb (ApiIdent a) ""
        then ret resp
        else
          rq ← deref (HttpRequest baseRequest);
          let valid := isValidResponse rq resp in
          '(e, baseRequest) ← Request.GetEnvironment baseRequest;
          _ ← putBase (Session ctx) baseRequest;
          if valid
          then
            let rsp :=
              match resp with
              | None => NewResponse (Req ctx) ContentTypeText StatusServiceUnavailable
                          "Service not available. Is the server running?"
              | Some rsp => rsp
              end in
            let respBody := RespBody rsp in
            _ ← spawn (CaptureTask baseRequest e rsp respBody);
            ret (Some rsp)
          else ret resp
  end.

(** [Cleanup]. *)
Definition Cleanup (resp : option Response) (ctx : ProxyCtx) : M (option Response) :=
  creq ← deref (Req ctx);
  let h := Del (ReqHeader creq) "X-StopLight-Url-Host" in
  let h := Del h "X-StopLight-Api" in
  _ ← store (Req ctx) (setReqHeader creq h);
  _ ← modify (fun w => setRequestData w (delete (Session ctx) (requestData w)));
  ret resp.

End Helpers.

(** ** Package [helpers], the revision with the dashboard directive
    (src/unnamed/part_001) *)

Module HelpersDashboard.

(** [isValidResponse]: the relevance decision on the request wrapper. The
    wrapper is returned with the decision, as [GetApi] is called through it. *)
Definition isValidResponse (baseRequest : option BaseRequest) (resp : option Response)
    : M (bool * option BaseRequest) :=
  match baseRequest with
  | None => ret (false, None)
  | Some br =>
      if Skip br
      then ret (false, Some br)
      else
        req ← deref (HttpRequest br);
        if String.eqb (Get (ReqHeader req) "X-StopLight-Ignore") "true"
        then ret (false, Some br)
        else
          let isStopLightRequest := Get (ReqHeader req) "X-StopLight-Dashboard" in
          '(a, br) ← Request.GetApi br;
          if String.eqb isStopLightRequest "true"
          then ret (true, Some br)
          else if negb (String.eqb (ApiIdent a) "")
          then
            match resp with
            | None => ret (true, Some br)
            | Some rsp =>
                req ← deref (HttpRequest br);
                let isAjax := Get (ReqHeader req) "X-Requested-With" in
                let acceptType := Get (ReqHeader req) "Accept" in
                let contentType := Get (RespHeader rsp) "Content-Type" in
                let typeString := acceptType +:+ contentType in
                let isGet := String.eqb (Method req) "GET" in
                _ ← Println isAjax;
                let validStatusCode :=
                  (StatusCode rsp =? 304)
                  || bool_decide (byteAt (Itoa (StatusCode rsp)) 0 = Some "2"%char) in
                ret (negb isGet || negb (String.eqb isAjax "") || negb validStatusCode
                     || ((Contains typeString "json" || Contains typeString "xml")
                         && negb (Contains typeString "html")),
                     Some br)
            end
          else ret (false, Some br)
  end.

(** The body of the goroutine of [SaveStopLightRequest]. *)
Definition capture (baseRequest : BaseRequest) (noContext : string)
    (isDashboardRequest : bool) (resp : Response) (respBody : string) : M unit :=
  '(u, baseRequest) ← Request.GetUser baseRequest;
  '(a, e, baseRequest) ←
     (if String.eqb noContext "true"
      then ret (zeroApi, zeroEnvironment, baseRequest)
      else
        '(a, baseRequest) ← Request.GetApi baseRequest;
        '(e, baseRequest) ← Request.GetEnvironment baseRequest;
        ret (a, e, baseRequest));
  rq ← deref (HttpRequest baseRequest);
  let slrequest := NewRequest u a e rq (Body baseRequest) resp respBody in
  err ← Create slrequest;
  match err with
  | Some e => Println e
  | None => BroadcastEvent (mkEvent "request.create" "request" slrequest isDashboardRequest)
  end.

(** [SaveStopLightRequest]. *)
Definition SaveStopLightRequest (resp : option Response) (ctx : ProxyCtx) : M (option Response) :=
  data ← lookupSession (Session ctx);
  '(valid, data) ← isValidResponse data resp;
  match data with
  | None => ret resp
  | Some baseRequest =>
      _ ← putBase (Session ctx) baseRequest;
      if valid
      then
        let rsp :=
          match resp with
          | None => NewResponse (Req ctx) ContentTypeText StatusServiceUnavailable
                      "Service not available. Is the server running?"
          | Some rsp => rsp
          end in
        let respBody := RespBody rsp in
        let noContext := Get (ReqHeaders baseRequest) "X-StopLight-No-Context" in
        let isDashboardRequest :=
          String.eqb (Get (ReqHeaders baseRequest) "X-StopLight-Dashboard") "true" in
        _ ← spawn (CaptureTaskCtx baseRequest noContext isDashboardRequest rsp respBody);
        ret (Some rsp)
      else ret resp
  end.

(** [Cleanup]. *)
Definition Cleanup (resp : option Response) (ctx : ProxyCtx) : M (option Response) :=
  creq ← deref (Req ctx);
  let h := Del (ReqHeader creq) "X-StopLight-Dashboard" in
  let h := Del h "X-StopLight-Api" in
  let h := Del h "X-StopLight-Url-Host" in
  let h := Del h "X-StopLight-No-Context" in
  let h := Del h "X-StopLight-Authorization" in
  _ ← store (Req ctx) (setReqHeader creq h);
  _ ← modify (fun w => setRequestData w (delete (Session ctx) (requestData w)));
  ret resp.

End HelpersDashboard.

(** ** Package [helpers], the [proxyHelper] revision (src/unnamed/part_002):
    the session table is the [requestData] field of the helper, and the
    tenant of the relevance decision is the project *)

Module ProxyHelper.

(** [isValidResponse]. *)
Definition isValidResponse (baseRequest : option BaseRequest) (resp : option Response)
    : M (bool * option BaseRequest) :=
  match baseRequest with
  | None => ret (false, None)
  | Some br =>
      if Skip br
      then ret (false, Some br)
      else
        req ← deref (HttpRequest br);
        if String.eqb (Get (ReqHeader req) "X-StopLight-Ignore") "true"
        then ret (false, Some br)
        else
          let isStopLightRequest := Get (ReqHeader req) "X-StopLight-Dashboard" in
          '(p, br) ← Request.GetProject br;
          if String.eqb isStopLightRequest "true"
          then ret (true, Some br)
          else if negb (String.eqb (ProjectIdent p) "")
          then
            match resp with
            | None => ret (true, Some br)
            | Some rsp =>
                req ← deref (HttpRequest br);
                let isAjax := Get (ReqHeader req) "X-Requested-With" in
                let acceptType := Get (ReqHeader req) "Accept" in
                let contentType := Get (RespHeader rsp) "Content-Type" in
                let typeString := acceptType +:+ contentType in
                let isGet := String.eqb (Method req) "GET" in
                _ ← Println isAjax;
                let validStatusCode :=
                  (StatusCode rsp =? 304)
                  || bool_decide (byteAt (Itoa (StatusCode rsp)) 0 = Some "2"%char) in
                ret (negb isGet || negb (String.eqb isAjax "") || negb validStatusCode
                     || ((Contains typeString "json" || Contains typeString "xml")
                         && negb (Contains typeString "html")),
                     Some br)
            end
          else ret (false, Some br)
  end.

(** [proxyHelper.Cleanup]. *)
Definition Cleanup (resp : option Response) (ctx : ProxyCtx) : M (option Response) :=
  creq ← deref (Req ctx);
  let h := Del (ReqHeader creq) "X-StopLight-Dashboard" in
  let h := Del h "X-StopLight-Project" in
  let h := Del h "X-StopLight-Url-Host" in
  let h := Del h "X-StopLight-No-Context" in
  let h := Del h "X-StopLight-Authorization" in
  _ ← store (Req ctx) (setReqHeader creq h);
  _ ← modify (fun w => setRequestData w (delete (Session ctx) (requestData w)));
  ret resp.

End ProxyHelper.

(** ** Running a goroutine that was started *)

Definition runTask (t : Task) : M unit :=
  match t with
  | CaptureTask br e resp respBody => Helpers.capture br e resp respBody
  | CaptureTaskCtx br noContext isDashboardRequest resp respBody =>
      HelpersDashboard.capture br noContext isDashboardRequest resp respBody
  end.

(** ** Vocabulary of the statements *)

(** What a tenant look-up leaves alone: everything but the trace of look-ups
    and the cache. *)
Definition frame (w w' : World) : Prop :=
  db w' = db w /\ heap w' = heap w /\ requestData w' = requestData w
  /\ logs w' = logs w /\ broadcasts w' = broadcasts w /\ spawned w' = spawned w.

(** The environment that the path-first, host-second look-up finds in a
    store, and the look-ups it takes. *)
Definition pathThenHost (d : DB) (slug host : string) : Environment :=
  let e := default zeroEnvironment (Request.firstBySlug slug d) in
  if String.eqb (EnvId e) "" then default zeroEnvironment (Request.firstByUrl host d) else e.

Definition lookupsOf (d : DB) (slug host : string) : list Query :=
  let e := default zeroEnvironment (Request.firstBySlug slug d) in
  if String.eqb (EnvId e) "" then [EnvBySlug slug; EnvByHost host] else [EnvBySlug slug].

(** A header that already carries the four values that
    [PostflightCorsSupport] sets, for the requested headers [requested]. *)
Definition carriesCors (h : Header) (requested : string) : Prop :=
  h !! "Access-Control-Allow-Credentials" = Some ["true"]
  /\ h !! "Access-Control-Allow-Headers" = Some [requested]
  /\ h !! "Access-Control-Allow-Methods" = Some [Helpers.allowedCorsMethods]
  /\ h !! "Access-Control-Allow-Origin" = Some ["*"].

(** ** A small deployment, for the examples *)

Module Demo.

Definition acme : Environment :=
  mkEnvironment "e1" "acme" "api.internal:9000" false "p1" "a1" true.
Definition beta : Environment :=
  mkEnvironment "e2" "beta" "beta.internal" true "p2" "a2" true.

(** A store that accepts every capture record, and one that refuses them. *)
Definition store : DB :=
  mkDB [acme; beta] [mkApi "a1"; mkApi "a2"] [mkProject "p1"; mkProject "p2"] []
    (fun _ => None) (fun _ => None).
Definition brokenStore : DB :=
  mkDB [acme; beta] [mkApi "a1"; mkApi "a2"] [mkProject "p1"; mkProject "p2"] []
    (fun _ => Some "connection refused") (fun _ => None).

(** A stand-in for [url.Parse] on the targets [scheme://host]. *)
Definition parse (s : string) : option URL :=
  if HasPrefix s "https://" then Some (mkURL "https" "" (drop 8 s) "" "" false "")
  else if HasPrefix s "http://" then Some (mkURL "http" "" (drop 7 s) "" "" false "")
  else None.

Definition request (method path : string) (h : Header) : Request :=
  mkRequest method (mkURL "http" "" "proxy.local" path "" false "") h "proxy.local"
    "10.0.0.1:4711" path "".

(** [GET /acme/widgets], without headers. *)
Definition widgets : Request := request "GET" "/acme/widgets" ∅.

(** A response that carries the CORS values for a request that asks for
    no headers. *)
Definition corsResponse : Response :=
  mkResponse 200
    (Set_ (Set_ (Set_ (Set_ ∅ "Access-Control-Allow-Credentials" "true")
                   "Access-Control-Allow-Headers" "")
             "Access-Control-Allow-Methods" Helpers.allowedCorsMethods)
       "Access-Control-Allow-Origin" "*")
    "".

(** A page and a JSON document, both with status 200. *)
Definition htmlResponse : Response :=
  mkResponse 200 {["Content-Type" := ["text/html"]]} "<html></html>".
Definition jsonResponse : Response :=
  mkResponse 200 {["Content-Type" := ["application/json"]]} "{}".

(** [GET /acme/widgets] from a script, and from a client that accepts JSON. *)
Definition ajaxWidgets : Request :=
  request "GET" "/acme/widgets" {["X-Requested-With" := ["XMLHttpRequest"]]}.
Definition jsonWidgets : Request :=
  request "GET" "/acme/widgets" {["Accept" := ["application/json"]]}.

(** The world after the tenant look-ups of a request for [acme]. *)
Definition resolved (w : World) : World :=
  setCache (setQueries w [EnvBySlug "acme"; ApiById "a1"]) [("a1", CApi (mkApi "a1"))].

(** A world with one request object, at address 1, and no session yet. *)
Definition world (d : DB) (rq : Request) : World :=
  mkWorld d [] {[1%positive := rq]} ∅ [] [] [] [].

(** The context of session 7 on the request at address 1. *)
Definition ctx : ProxyCtx := mkProxyCtx 7 1.

(** The wrapper of session 7 as [NewBaseRequest] makes it. *)
Definition base (rq : Request) (skip : bool) : BaseRequest :=
  mkBaseRequest 1 (ReqHeader rq) 7 (ReqBody rq) skip None None None None.

Definition worldWith (d : DB) (rq : Request) (skip : bool) : World :=
  setRequestData (world d rq) {[7 := base rq skip]}.

End Demo.

(** ** Package [request]: the attempt log and the user-data bag
    (src/request/request.go) *)

Module RequestState.

(** [BaseAttempt]. *)
Record BaseAttempt : Type := mkBaseAttempt {
  Error : option string;
  Duration : Z;
  AttemptResponse : option Response
}.

Definition GetResponse (ba : BaseAttempt) : option Response := AttemptResponse ba.
Definition GetError (ba : BaseAttempt) : option string := Error ba.
Definition GetDuration (ba : BaseAttempt) : Z := Duration ba.

(** A value of the interface [Attempt]: nil, or a [*BaseAttempt]. *)
Abbreviation Attempt := (option BaseAttempt).

(** [sync.RWMutex]: held by a writer, or by a number of readers;
    [pending] says that a [Lock] call has announced itself and waits for
    the readers to leave. *)
Record RWMutex : Type := mkRWMutex {
  writer : bool;
  readers : nat;
  pending : bool
}.

(** How a call that takes the mutex goes on: it has the mutex, or it waits,
    and the mutex is as the waiting call leaves it. *)
Inductive acquired : Type :=
| Taken (m : RWMutex)
| Waiting (m : RWMutex).

(** [m.Lock()]: the call waits behind a writer that holds the mutex or is
    pending; with readers only it becomes the pending writer and waits for
    them to leave. *)
Definition Lock (m : RWMutex) : acquired :=
  if writer m || pending m then Waiting m
  else if Nat.eqb (readers m) 0 then Taken (mkRWMutex true 0 false)
  else Waiting (mkRWMutex false (readers m) true).

(** [m.Unlock()]: [None] is the fatal error of unlocking a mutex that no
    writer has locked or announced. *)
Definition Unlock (m : RWMutex) : option RWMutex :=
  if writer m then Some (mkRWMutex false (readers m) (pending m))
  else if pending m then Some (mkRWMutex false (readers m) false)
  else None.

(** [m.RLock()]: the call waits while a writer holds the mutex or is
    pending. *)
Definition RLock (m : RWMutex) : acquired :=
  if writer m || pending m then Waiting m
  else Taken (mkRWMutex false (S (readers m)) false).

(** [m.RUnlock()]: [None] is the fatal error of a mutex without readers;
    the last reader to leave hands the mutex to the pending writer. *)
Definition RUnlock (m : RWMutex) : option RWMutex :=
  match readers m with
  | O => None
  | S n =>
      if pending m && Nat.eqb n 0
      then Some (mkRWMutex true 0 false)
      else Some (mkRWMutex (writer m) n (pending m))
  end.

Section Bag.

(** The values of [interface{}] kept in the bag, and the nil one. *)
Variable V : Type.
Variable nilValue : V.

(** The fields of [BaseRequest] that the filters leave alone: the attempt
    log, the mutex of the bag and the bag, nil until the first
    [SetUserData]. *)
Record Fields : Type := mkFields {
  Attempts : list Attempt;
  userDataMutex : RWMutex;
  userData : option (gmap string V)
}.

(** The fields as [NewBaseRequest] leaves them. *)
Definition newFields : Fields := mkFields [] (mkRWMutex false 0 false) None.

(** How a method of the bag goes on: it returns, it waits for the mutex,
    which it leaves as the waiting call of [Lock] or [RLock] does, or the
    run time stops the program. *)
Inductive outcome (A : Type) : Type :=
| Returns (a : A) (st : Fields)
| Waits (st : Fields)
| Fatal (msg : string).

Definition setMutex (st : Fields) (m : RWMutex) : Fields :=
  mkFields (Attempts st) m (userData st).

(** The deferred [Unlock] and [RUnlock], run when the method returns. *)
Definition deferUnlock {A : Type} (a : A) (st : Fields) : outcome A :=
  match Unlock (userDataMutex st) with
  | Some m => Returns A a (setMutex st m)
  | None => Fatal A "sync: Unlock of unlocked RWMutex"
  end.

Definition deferRUnlock {A : Type} (a : A) (st : Fields) : outcome A :=
  match RUnlock (userDataMutex st) with
  | Some m => Returns A a (setMutex st m)
  | None => Fatal A "sync: RUnlock of unlocked RWMutex"
  end.

(** [AddAttempt]. *)
Definition AddAttempt (st : Fields) (a : Attempt) : Fields :=
  mkFields (Attempts st ++ [a]) (userDataMutex st) (userData st).

(** [GetAttempts]. *)
Definition GetAttempts (st : Fields) : list Attempt := Attempts st.

(** [GetLastAttempt]: [Attempts[len-1]] is a checked index expression. *)
Definition GetLastAttempt (st : Fields) : result Attempt :=
  if Nat.eqb (length (Attempts st)) 0
  then Ok None
  else match Attempts st !! (length (Attempts st) - 1)%nat with
       | Some a => Ok a
       | None => Panic "index out of range"
       end.

(** [SetUserData]. *)
Definition SetUserData (st : Fields) (key : string) (baton : V) : outcome unit :=
  match Lock (userDataMutex st) with
  | Waiting m => Waits unit (setMutex st m)
  | Taken m =>
      let st := setMutex st m in
      let bag := match userData st with
                 | None => ∅
                 | Some bag => bag
                 end in
      deferUnlock tt (mkFields (Attempts st) (userDataMutex st) (Some (<[key := baton]> bag)))
  end.

(** [GetUserData]. *)
Definition GetUserData (st : Fields) (key : string) : outcome (V * bool) :=
  match RLock (userDataMutex st) with
  | Waiting m => Waits (V * bool) (setMutex st m)
  | Taken m =>
      let st := setMutex st m in
      match userData st with
      | None => deferRUnlock (nilValue, false) st
      | Some bag =>
          match bag !! key with
          | Some i => deferRUnlock (i, true) st
          | None => deferRUnlock (nilValue, false) st
          end
      end
  end.

(** [DeleteUserData]. *)
Definition DeleteUserData (st : Fields) (key : string) : outcome unit :=
  match Lock (userDataMutex st) with
  | Waiting m => Waits unit (setMutex st m)
  | Taken m =>
      let st := setMutex st m in
      match userData st with
      | None => deferUnlock tt st
      | Some bag =>
          deferUnlock tt (mkFields (Attempts st) (userDataMutex st) (Some (delete key bag)))
      end
  end.

End Bag.

End RequestState.

(** ** Package [request], the revision with the cache: [GetApi] on the
    cached environment look-up (src/unnamed/part_003) *)

Module RequestApi.

(** [GetApi]: the environment first, the [X-StopLight-Api] header second. *)
Definition GetApi (br : BaseRequest) : M (Api * BaseRequest) :=
  match api br with
  | Some a => ret (a, br)
  | None =>
      '(e, br) ← RequestCached.GetEnvironment br;
      identifier ←
        (if negb (String.eqb (ApiId e) "")
         then ret (ApiId e)
         else rq ← deref (HttpRequest br); ret (Get (ReqHeader rq) "X-StopLight-Api"));
      if negb (String.eqb identifier "")
      then
        existing ← cacheGet identifier;
        match existing with
        | Some (CApi a) => ret (a, br)
        | Some _ => panic "interface conversion"
        | None =>
            _ ← issue (ApiById identifier);
            d ← gets db;
            let a := default zeroApi (Request.firstApi identifier d) in
            _ ← cacheAdd identifier (CApi a);
            ret (a, br)
        end
      else ret (zeroApi, br)
  end.

End RequestApi.

(** ** Package [helpers], the first revision (src/unnamed/part_002, first
    file): the filters that differ from helpers.go *)

Module HelpersFirst.

(** The closure of the goroutine of [SaveStopLightRequest]. *)
Record Capture : Type := mkCapture {
  capBase : BaseRequest;
  capEnv : Environment;
  capResp : Response;
  capRespBody : string
}.

Section Clean.

Variable url_Parse : string -> option URL.

(** [CleanRequest]: nothing is done without an environment. *)
Definition CleanRequest (r : positive) (ctx : ProxyCtx) : M (positive * option Response) :=
  data ← lookupSession (Session ctx);
  match data with
  | None => panic nilDeref
  | Some br =>
      '(e, br) ← Request.GetEnvironment br;
      _ ← putBase (Session ctx) br;
      if String.eqb (Slug e) ""
      then ret (r, None)
      else
        let targetUrl := if Ssl e then "https://" +:+ Url e else "http://" +:+ Url e in
        match url_Parse targetUrl with
        | None => panic nilDeref
        | Some u =>
            rq ← deref r;
            let url := mkURL (Scheme u) (Opaque (Url_ rq)) (UHost u)
                         (Helpers.urlWithoutEnvironment e (Path (Url_ rq)))
                         (RawPath (Url_ rq)) (ForceQuery (Url_ rq)) (RawQuery (Url_ rq)) in
            let h := Add (ReqHeader rq) "StopLight-Request" "true" in
            let h := Add h "Host" (UHost url) in
            _ ← store r (mkRequest (Method rq) url h (UHost u) (RemoteAddr rq) "" (ReqBody rq));
            ret (r, None)
        end
  end.

End Clean.

(** [PostflightCorsSupport]: the skip flag is read first, through the
    pointer of the table. *)
Definition PostflightCorsSupport (resp : option Response) (ctx : ProxyCtx) : M (option Response) :=
  data ← lookupSession (Session ctx);
  match data with
  | None => panic nilDeref
  | Some br =>
      if Skip br
      then ret resp
      else
        '(e, br) ← Request.GetEnvironment br;
        _ ← putBase (Session ctx) br;
        if String.eqb (Slug e) ""
        then ret resp
        else
          match resp with
          | None => ret resp
          | Some rsp =>
              creq ← deref (Req ctx);
              let h := Set_ (RespHeader rsp) "Access-Control-Allow-Credentials" "true" in
              let h := Set_ h "Access-Control-Allow-Headers"
                         (Get (ReqHeader creq) "Access-Control-Request-Headers") in
              let h := Set_ h "Access-Control-Allow-Methods"
                         "GET, POST, OPTIONS, DELETE, PUT, PATCH" in
              let h := Set_ h "Access-Control-Allow-Origin" "*" in
              ret (Some (setRespHeader rsp h))
          end
  end.

(** [isValidResponse]. *)
Definition isValidResponse (req : Request) (resp : option Response) : bool :=
  if String.eqb (Get (ReqHeader req) "StopLight-Ignore") "true"
  then false
  else
    match resp with
    | None => true
    | Some rsp =>
        let isAjax := Get (ReqHeader req) "X-Requested-With" in
        let contentType := Get (RespHeader rsp) "Content-Type" in
        let isGet := String.eqb (Method req) "GET" in
        let validStatusCode :=
          (StatusCode rsp =? 304)
          || bool_decide (byteAt (Itoa (StatusCode rsp)) 0 = Some "2"%char) in
        negb isGet || negb (String.eqb isAjax "") || negb validStatusCode
        || Contains contentType "json" || Contains contentType "xml"
    end.

(** The body of the goroutine: the record has the environment only. *)
Definition capture (c : Capture) : M unit :=
  rq ← deref (HttpRequest (capBase c));
  let slrequest := NewRequest None zeroApi (capEnv c) rq (Body (capBase c))
                     (capResp c) (capRespBody c) in
  err ← Create slrequest;
  match err with
  | Some e => Println e
  | None => BroadcastEvent (mkEvent "request.create" "request" slrequest false)
  end.

(** [SaveStopLightRequest]: the session is deleted on return, by the
    deferred [delete], once the skip flag has been found unset. The closure
    of the goroutine that was started, if any, comes with the response. *)
Definition SaveStopLightRequest (resp : option Response) (ctx : ProxyCtx)
    : M (option Response * option Capture) :=
  data ← lookupSession (Session ctx);
  match data with
  | None => panic nilDeref
  | Some baseRequest =>
      if Skip baseRequest
      then ret (resp, None)
      else
        rq ← deref (HttpRequest baseRequest);
        let valid := isValidResponse rq resp in
        '(e, baseRequest) ← Request.GetEnvironment baseRequest;
        '(out, started) ←
           (if valid && negb (String.eqb (Slug e) "")
            then
              let rsp :=
                match resp with
                | None => NewResponse (Req ctx) ContentTypeText StatusServiceUnavailable
                            "Service not available. Is the server running?"
                | Some rsp => rsp
                end in
              ret (Some rsp, Some (mkCapture baseRequest e rsp (RespBody rsp)))
            else ret (resp, None));
        _ ← modify (fun w => setRequestData w (delete (Session ctx) (requestData w)));
        ret (out, started)
  end.

End HelpersFirst.

(** ** More sample values, for the examples *)

Module Sample.

(** A response that went through another proxy already. *)
Definition forwarded : Response :=
  mkResponse 200 (Set_ ∅ "X-Forwarded-For" "192.0.2.1") "ok".

(** A plain text with status 200. *)
Definition plainResponse : Response :=
  mkResponse 200 {["Content-Type" := ["text/plain"]]} "ok".

(** [GET /acme/widgets] with a control header and an ordinary one. *)
Definition controlled : Request :=
  Demo.request "GET" "/acme/widgets"
    (Set_ (Set_ ∅ "X-StopLight-Api" "a2") "Accept" "text/plain").


(** [GET /nobody/x]: no environment has this slug or this host. *)
Definition nobody : Request := Demo.request "GET" "/nobody/x" ∅.

(** [GET /acme/widgets] with an override header that is no URL. *)
Definition badOverride : Request :=
  Demo.request "GET" "/acme/widgets" (Set_ ∅ "X-StopLight-Url-Host" "not a url").

(** [GET /acme/widgets?x=1]. *)
Definition widgetsQuery : Request :=
  mkRequest "GET" (mkURL "http" "" "proxy.local" "/acme/widgets" "" false "x=1") ∅ "proxy.local"
    "10.0.0.1:4711" "/acme/widgets?x=1" "".

(** [GET /nobody/x] from the dashboard. *)
Definition dashboard : Request :=
  Demo.request "GET" "/nobody/x" (Set_ ∅ "X-StopLight-Dashboard" "true").

(** The world after the look-ups of a request that no environment matches. *)
Definition unresolved (w : World) : World :=
  setQueries w [EnvBySlug "nobody"; EnvByHost "proxy.local"].

(** [GET /acme/widgets] that asks for a capture without tenant context. *)
Definition noContext : Request :=
  Demo.request "GET" "/acme/widgets" (Set_ ∅ "X-StopLight-No-Context" "true").



End Sample.

(** ** More vocabulary *)

(** A session whose skip flag is set. *)
Definition flagged (w : World) (s : Z) : Prop :=
  exists br, requestData w !! s = Some br /\ Skip br = true.

(** The names under which the CORS headers are kept. *)
Definition corsKeys : list string :=
  ["Access-Control-Allow-Credentials"; "Access-Control-Allow-Headers";
   "Access-Control-Allow-Methods"; "Access-Control-Allow-Origin";
   "Access-Control-Expose-Headers"].

(** * Properties *)

(** ** Byte strings *)

Section StringFacts.

Implicit Types s t pre post : string.

Lemma append_nil t : "" +:+ t = t.
Proof. reflexivity. Qed.

Lemma append_cons c s t : String c s +:+ t = String c (s +:+ t).
Proof. reflexivity. Qed.

Lemma append_empty_r s : s +:+ "" = s.
Proof.
  induction s as [|c s IH]; [reflexivity |].
  now rewrite append_cons, IH.
Qed.

Lemma length_append s t :
  String.length (s +:+ t) = (String.length s + String.length t)%nat.
Proof.
  induction s as [|c s IH]; [reflexivity |].
  rewrite append_cons. simpl. now rewrite IH.
Qed.

Lemma HasPrefix_append s t : HasPrefix (s +:+ t) s = true.
Proof.
  induction s as [|c s IH]; [reflexivity |].
  rewrite append_cons. simpl. now rewrite Ascii.eqb_refl.
Qed.

Lemma take_append_length s t : take (String.length s) (s +:+ t) = s.
Proof.
  induction s as [|c s IH]; [reflexivity |].
  rewrite append_cons. simpl. now rewrite IH.
Qed.

Lemma drop_append_length s t : drop (String.length s) (s +:+ t) = t.
Proof.
  induction s as [|c s IH]; [reflexivity |].
  rewrite append_cons. exact IH.
Qed.

Lemma drop_plus n m s : drop (n + m) s = drop m (drop n s).
Proof.
  revert s; induction n as [|n IH]; intros s; simpl; [reflexivity |].
  destruct s as [|c s]; [now destruct m | apply IH].
Qed.

(** A string that is a prefix of itself shifted by one byte [c] consists of
    [c]s only, so cutting it from the front leaves the byte in place. *)
Lemma drop_shifted_prefix s : forall c t,
  HasPrefix (String c (s +:+ t)) s = true ->
  drop (String.length s) (String c (s +:+ t)) = String c t.
Proof.
  induction s as [|a s IH]; intros c t H; [reflexivity |].
  rewrite append_cons in *. simpl in *.
  destruct (Ascii.eqb_spec c a) as [->|]; [| discriminate].
  apply IH, H.
Qed.

Lemma Index_unfold s sub :
  Index s sub =
  if HasPrefix s sub then Some O
  else match s with
       | EmptyString => None
       | String _ s' => option_map S (Index s' sub)
       end.
Proof. now destruct s. Qed.

Lemma Index_here s t : Index (s +:+ t) s = Some O.
Proof. now rewrite Index_unfold, HasPrefix_append. Qed.

(** [Index] finds the occurrence before which there is none. *)
Lemma Index_first pre : forall sub post,
  (forall k, (k < String.length pre)%nat ->
             HasPrefix (drop k (pre +:+ sub +:+ post)) sub = false) ->
  Index (pre +:+ sub +:+ post) sub = Some (String.length pre).
Proof.
  induction pre as [|c pre IH]; intros sub post H.
  - exact (Index_here sub post).
  - rewrite Index_unfold.
    assert (H0 := H O ltac:(simpl; lia)). simpl drop in H0. rewrite H0.
    rewrite append_cons, IH; [reflexivity |].
    intros k Hk. apply (H (S k)). simpl; lia.
Qed.

Lemma eqb_empty_false s : s <> "" -> String.eqb s "" = false.
Proof. now destruct s. Qed.

Lemma Replace1_first pre sub post :
  sub <> "" ->
  (forall k, (k < String.length pre)%nat ->
             HasPrefix (drop k (pre +:+ sub +:+ post)) sub = false) ->
  Replace1 (pre +:+ sub +:+ post) sub "" = pre +:+ post.
Proof.
  intros Hne H. unfold Replace1.
  rewrite (eqb_empty_false _ Hne), (Index_first _ _ _ H).
  rewrite take_append_length, drop_plus, drop_append_length, drop_append_length.
  reflexivity.
Qed.

Lemma Replace1_prefix sub post :
  sub <> "" -> Replace1 (sub +:+ post) sub "" = post.
Proof.
  intros Hne. apply (Replace1_first "" sub post Hne).
  simpl; intros; lia.
Qed.

Lemma Replace1_after_byte c sub post :
  sub <> "" -> Replace1 (String c (sub +:+ post)) sub "" = String c post.
Proof.
  intros Hne. unfold Replace1. rewrite (eqb_empty_false _ Hne), Index_unfold.
  destruct (HasPrefix (String c (sub +:+ post)) sub) eqn:Hp.
  - simpl take. simpl Nat.add. now rewrite drop_shifted_prefix.
  - rewrite Index_here. simpl. now rewrite drop_append_length.
Qed.

Lemma splitFrom_nonempty s : forall sep skip cur,
  exists p ps, splitFrom s sep skip cur = p :: ps.
Proof.
  induction s as [|c s IH]; intros sep skip cur; simpl; [eauto |].
  destruct skip as [|k]; [| apply IH].
  destruct (HasPrefix (String c s) sep); [eauto | apply IH].
Qed.

End StringFacts.

(** ** Path rewriting: [urlWithoutEnvironment] *)

Lemma Replace1_whole (s : string) : Replace1 s s "" = "".
Proof.
  destruct (decide (s = "")) as [->|Hne]; [reflexivity |].
  generalize (Replace1_prefix s "" Hne). now rewrite append_empty_r.
Qed.

Lemma Replace1_slug_prefix (s post : string) :
  post <> "" -> Replace1 (s +:+ post) s "" = post.
Proof.
  intros Hpost. destruct (decide (s = "")) as [->|Hne].
  - rewrite append_nil. unfold Replace1. now destruct post.
  - now apply Replace1_prefix.
Qed.

Lemma Replace1_slash_slug (s post : string) :
  Replace1 ("/" +:+ s +:+ post) s "" = "/" +:+ post.
Proof.
  destruct (decide (s = "")) as [->|Hne]; [reflexivity |].
  exact (Replace1_after_byte "/"%char s post Hne).
Qed.

Lemma Replace1_slash_whole (s : string) : Replace1 ("/" +:+ s) s "" = "/".
Proof. generalize (Replace1_slash_slug s ""). now rewrite append_empty_r. Qed.

Lemma byteAt_1_len (s : string) (c : ascii) : byteAt s 1 = Some c -> 1 < len s.
Proof.
  unfold byteAt, len. destruct s as [|a [|b s]]; simpl; try discriminate.
  intros _. lia.
Qed.

(** C4. For every environment slug [s], [urlWithoutEnvironment] maps the path
    [s] to ["/"], the paths [s/x] and [/s/x] to ["/x"], and the path [s/x/]
    to ["/x/"]; the path [/s] goes to ["/"] as well. *)
Theorem urlWithoutEnvironment_slug_paths (e : Environment) :
  Helpers.urlWithoutEnvironment e (Slug e) = "/"
  /\ Helpers.urlWithoutEnvironment e (Slug e +:+ "/x") = "/x"
  /\ Helpers.urlWithoutEnvironment e ("/" +:+ Slug e +:+ "/x") = "/x"
  /\ Helpers.urlWithoutEnvironment e (Slug e +:+ "/x/") = "/x/"
  /\ Helpers.urlWithoutEnvironment e ("/" +:+ Slug e) = "/".
Proof.
  unfold Helpers.urlWithoutEnvironment. repeat split.
  - rewrite Replace1_whole. reflexivity.
  - rewrite Replace1_slug_prefix by discriminate. reflexivity.
  - rewrite Replace1_slash_slug. reflexivity.
  - rewrite Replace1_slug_prefix by discriminate. reflexivity.
  - rewrite Replace1_slash_whole. reflexivity.
Qed.

(** The rows of the test table of the helper. *)
Example urlWithoutEnvironment_tests :
  let foo := mkEnvironment "" "foo" "" false "" "" true in
  map (Helpers.urlWithoutEnvironment foo) ["/foo"; "/foo/bar"; "foo"; "foo/bar"; "foo/bar/"]
  = ["/"; "/bar"; "/"; "/bar"; "/bar/"].
Proof. reflexivity. Qed.

(** C10, as amended. For a non-empty slug whose first occurrence in the path
    comes after a non-empty [pre], the occurrence is deleted wherever it is;
    what remains, [pre ++ post], is the result, except that its leading ["/"]
    is trimmed when its second byte is ["/"]. *)
Theorem urlWithoutEnvironment_inner_occurrence (e : Environment) (pre post : string) :
  Slug e <> "" ->
  pre <> "" ->
  (forall k, (k < String.length pre)%nat ->
             HasPrefix (drop k (pre +:+ Slug e +:+ post)) (Slug e) = false) ->
  Helpers.urlWithoutEnvironment e (pre +:+ Slug e +:+ post)
  = if bool_decide (byteAt (pre +:+ post) 1 = Some "/"%char)
    then TrimPrefix (pre +:+ post) "/"
    else pre +:+ post.
Proof.
  intros Hs Hpre Hfirst. unfold Helpers.urlWithoutEnvironment.
  rewrite (Replace1_first pre (Slug e) post Hs Hfirst).
  case_bool_decide as Hb.
  - apply byteAt_1_len in Hb. apply Z.ltb_lt in Hb. now rewrite Hb.
  - rewrite andb_false_r.
    destruct pre as [|c pre]; [congruence |].
    rewrite append_cons. unfold len. simpl String.length.
    destruct (Z.eqb_spec (Z.of_nat (S (String.length (pre +:+ post)))) 0); [lia | reflexivity].
Qed.

Lemma urlWithoutEnvironment_inner_occurrence_witness :
  Helpers.urlWithoutEnvironment (mkEnvironment "" "api" "" false "" "" true) "/v1/api/users"
  = "/v1//users".
Proof.
  apply (urlWithoutEnvironment_inner_occurrence
           (mkEnvironment "" "api" "" false "" "" true) "/v1/" "/users").
  - discriminate.
  - discriminate.
  - intros k Hk. simpl in Hk.
    destruct k as [|[|[|[|k]]]]; try reflexivity. lia.
Defined.

(** The path ["/api/users"] contains the slug ["api"] and does not start with
    it; the path with the occurrence deleted is ["//users"], the result is
    ["/users"]. *)
Lemma urlWithoutEnvironment_trims_after_deletion :
  let e := mkEnvironment "" "api" "" false "" "" true in
  Contains "/api/users" (Slug e) = true
  /\ HasPrefix "/api/users" (Slug e) = false
  /\ Replace1 "/api/users" (Slug e) "" = "//users"
  /\ Helpers.urlWithoutEnvironment e "/api/users" = "/users"
  /\ Helpers.urlWithoutEnvironment e "/api/users" <> Replace1 "/api/users" (Slug e) "".
Proof. repeat split; try reflexivity. discriminate. Qed.

(** ** Slug extraction: [slugFromUrl] *)

Lemma slugFromUrl_cons (c : ascii) (url : string) :
  exists slug, Request.slugFromUrl (String c url) = Ok slug.
Proof.
  unfold Request.slugFromUrl, byteAt, Split.
  change (String.get 0 (String c url)) with (Some c). cbv beta iota.
  destruct (Ascii.eqb c "/"%char) eqn:Hc.
  - apply Ascii.eqb_eq in Hc as ->. simpl splitFrom.
    destruct (splitFrom_nonempty url "/" O "") as (p & ps & ->). now exists p.
  - destruct (splitFrom_nonempty (String c url) "/" O "") as (p & ps & ->).
    now exists p.
Qed.

(** C7, as amended. On every non-empty path [slugFromUrl] returns a slug, and
    on ["/"] it returns the empty slug. *)
Theorem slugFromUrl_nonempty_returns (url : string) :
  url <> "" ->
  (exists slug, Request.slugFromUrl url = Ok slug)
  /\ Request.slugFromUrl "/" = Ok "".
Proof.
  intros Hne. split; [| reflexivity].
  destruct url as [|c url]; [congruence | apply slugFromUrl_cons].
Qed.

Lemma slugFromUrl_nonempty_returns_witness :
  (exists slug, Request.slugFromUrl "/foo/bar" = Ok slug)
  /\ Request.slugFromUrl "/" = Ok "".
Proof. apply (slugFromUrl_nonempty_returns "/foo/bar"). discriminate. Defined.

(** On the empty path the index expression [url[0]] is out of range. *)
Lemma slugFromUrl_empty_panics :
  Request.slugFromUrl "" = Panic "index out of range"
  /\ Request.slugFromUrl "" <> Ok "".
Proof. split; [reflexivity | discriminate]. Qed.

(** The rows of the test table of [slugFromUrl]. *)
Example slugFromUrl_tests :
  map Request.slugFromUrl ["/"; "/foo"; "/foo/bar"; "foo"; "/foo/bar/"; "/foo-bar/fee/"]
  = [Ok ""; Ok "foo"; Ok "foo"; Ok "foo"; Ok "foo"; Ok "foo-bar"].
Proof. reflexivity. Qed.

(** The request URI of a URL is never empty, so the slug extraction of
    [requestEnvFromPath] does not panic. *)
Lemma append_nonempty (s t : string) : s <> "" -> s +:+ t <> "".
Proof.
  destruct s as [|c s]; [congruence |]. intros _. rewrite append_cons. discriminate.
Qed.

Lemma RequestURI_nonempty (u : URL) : RequestURI u <> "".
Proof.
  unfold RequestURI.
  assert (H : (if String.eqb (Opaque u) ""
               then if String.eqb (EscapedPath u) "" then "/" else EscapedPath u
               else if HasPrefix (Opaque u) "//" then Scheme u +:+ ":" +:+ Opaque u
                    else Opaque u) <> "").
  { destruct (String.eqb_spec (Opaque u) "") as [_|Ho].
    - destruct (String.eqb_spec (EscapedPath u) ""); [discriminate | assumption].
    - destruct (HasPrefix (Opaque u) "//"); [| assumption].
      destruct (Scheme u) as [|c s]; [rewrite append_nil; discriminate |].
      rewrite append_cons. discriminate. }
  destruct (ForceQuery u || negb (String.eqb (RawQuery u) "")); [| exact H].
  now apply append_nonempty.
Qed.

(** [RequestURI] on paths that need escaping, on a raw path, on a forced
    query and on opaque URLs. *)
Example RequestURI_escapes :
  RequestURI (mkURL "http" "" "proxy.local" "/my env/a?b" "" false "x=1") = "/my%20env/a%3Fb?x=1"
  /\ RequestURI (mkURL "http" "" "proxy.local" "/a/b" "/a%2Fb" false "") = "/a%2Fb"
  /\ RequestURI (mkURL "http" "" "proxy.local" "/a/b" "/a%2fc" false "") = "/a/b"
  /\ RequestURI (mkURL "http" "" "proxy.local" "" "" true "") = "/?"
  /\ RequestURI (mkURL "http" "//host/p" "" "" "" false "q") = "http://host/p?q"
  /\ RequestURI (mkURL "" "host:443" "" "" "" false "") = "host:443"
  /\ RequestURI (mkURL "" "" "" "*" "" false "") = "*".
Proof. repeat split. Qed.

Lemma slugFromUrl_RequestURI (u : URL) :
  exists slug, Request.slugFromUrl (RequestURI u) = Ok slug.
Proof.
  destruct (RequestURI u) as [|c url] eqn:Hu; [now apply RequestURI_nonempty in Hu |].
  apply slugFromUrl_cons.
Qed.

(** ** Running monadic code *)

Ltac unfold_m :=
  repeat progress
    (unfold bind, ret, gets, modify, lift, panic, deref, store, issue, Println, spawn,
       lookupSession, putBase, cacheGet, cacheAdd, BroadcastEvent, Create in *).

Ltac inv_result :=
  repeat match goal with
    | H : Ok _ = Ok _ |- _ => inversion H; subst; clear H
    | H : Panic _ = Ok _ |- _ => discriminate H
    | H : (_, _) = (_, _) |- _ => inversion H; subst; clear H
    end.

Ltac step_result :=
  match goal with
  | H : Ok _ = Ok _ |- _ => inversion H; subst; clear H
  | H : Panic _ = Ok _ |- _ => discriminate H
  | H : Ok _ = Panic _ |- _ => discriminate H
  | H : context [match ?x with _ => _ end] |- _ => destruct x eqn:?
  end.

Ltac solve_frame := unfold frame in *; simpl in *; intuition congruence.

Lemma frame_refl (w : World) : frame w w.
Proof. now repeat split. Qed.

Lemma frame_trans (w1 w2 w3 : World) : frame w1 w2 -> frame w2 w3 -> frame w1 w3.
Proof. unfold frame. intuition congruence. Qed.

Lemma setQueries_twice (w : World) (q1 q2 : list Query) :
  setQueries (setQueries w q1) q2 = setQueries w q2.
Proof. reflexivity. Qed.

(** ** Environment resolution: [GetEnvironment] *)

(** With [br.env] nil, [GetEnvironment] goes to the store: by slug, then by
    host when the slug finds nothing. It returns the receiver as it got it. *)
Lemma GetEnvironment_nil (br : BaseRequest) (w : World) (rq : Request) (slug : string) :
  env br = None ->
  heap w !! HttpRequest br = Some rq ->
  Request.slugFromUrl (RequestURI (Url_ rq)) = Ok slug ->
  Request.GetEnvironment br w
  = Ok ((pathThenHost (db w) slug (UHost (Url_ rq)), br),
        setQueries w (queries w ++ lookupsOf (db w) slug (UHost (Url_ rq)))).
Proof.
  intros Henv Hrq Hslug.
  unfold Request.GetEnvironment, Request.requestEnvFromPath, Request.requestEnvFromHost.
  rewrite Henv. unfold_m. rewrite Hrq, Hslug. simpl.
  unfold pathThenHost, lookupsOf.
  destruct (String.eqb (EnvId (default zeroEnvironment (Request.firstBySlug slug (db w)))) "");
    simpl; [rewrite Hrq; simpl |]; unfold setQueries; simpl;
    now rewrite <- ?app_assoc.
Qed.

Lemma GetEnvironment_set (br : BaseRequest) (w : World) (e : Environment) :
  env br = Some e -> Request.GetEnvironment br w = Ok ((e, br), w).
Proof. intros H. unfold Request.GetEnvironment. now rewrite H. Qed.

(** Whatever [GetEnvironment] returns, the receiver is the one it got, and
    only the trace of look-ups has grown. *)
Lemma GetEnvironment_inv (br br' : BaseRequest) (w w' : World) (e : Environment) :
  Request.GetEnvironment br w = Ok ((e, br'), w') ->
  br' = br /\ frame w w' /\ cache w' = cache w
  /\ exists qs, w' = setQueries w (queries w ++ qs).
Proof.
  intros H. destruct (env br) as [e0|] eqn:Henv.
  - rewrite (GetEnvironment_set _ _ _ Henv) in H. inv_result.
    repeat split. exists []. rewrite app_nil_r. now destruct w'.
  - destruct (heap w !! HttpRequest br) as [rq|] eqn:Hrq.
    + destruct (slugFromUrl_RequestURI (Url_ rq)) as [slug Hslug].
      rewrite (GetEnvironment_nil _ _ _ _ Henv Hrq Hslug) in H. inv_result.
      repeat split. eauto.
    + unfold Request.GetEnvironment, Request.requestEnvFromPath in H.
      rewrite Henv in H. unfold_m. now rewrite Hrq in H.
Qed.

(** [GetEnvironment] returns whenever the request of the wrapper is there. *)
Lemma GetEnvironment_returns (br : BaseRequest) (w : World) (rq : Request) :
  heap w !! HttpRequest br = Some rq ->
  exists e w', Request.GetEnvironment br w = Ok ((e, br), w') /\ frame w w'.
Proof.
  intros Hrq. destruct (env br) as [e|] eqn:Henv.
  - exists e, w. split; [now apply GetEnvironment_set | apply frame_refl].
  - destruct (slugFromUrl_RequestURI (Url_ rq)) as [slug Hslug].
    eexists _, _. split; [now apply (GetEnvironment_nil br w rq slug) |].
    now repeat split.
Qed.

(** C1, what the code does. On a wrapper made by [NewBaseRequest], a call of
    [GetEnvironment] leaves [br.env] nil, and the next call returns after
    sending the slug look-up to the store again. *)
Theorem GetEnvironment_looks_up_again (r : positive) (id : Z) (w0 w w1 : World)
    (br br1 : BaseRequest) (e1 : Environment) :
  Request.NewBaseRequest r id w0 = Ok (br, w) ->
  Request.GetEnvironment br w = Ok ((e1, br1), w1) ->
  env br1 = None
  /\ exists e2 w2 slug qs,
       Request.GetEnvironment br1 w1 = Ok ((e2, br1), w2)
       /\ queries w2 = queries w1 ++ EnvBySlug slug :: qs.
Proof.
  intros Hnew Hget.
  unfold Request.NewBaseRequest in Hnew. unfold_m.
  destruct (heap w0 !! r) as [rq|] eqn:Hrq; [| discriminate]. inv_result.
  destruct (GetEnvironment_inv _ _ _ _ _ Hget) as (-> & Hfr & _ & _).
  split; [reflexivity |].
  destruct (slugFromUrl_RequestURI (Url_ rq)) as [slug Hslug].
  assert (Hrq1 : heap w1 !! r = Some rq)
    by (destruct Hfr as (_ & -> & _); exact Hrq).
  eexists _, _, slug, (tl (lookupsOf (db w1) slug (UHost (Url_ rq)))).
  split.
  - apply (GetEnvironment_nil _ w1 rq slug); [reflexivity | exact Hrq1 | exact Hslug].
  - simpl. unfold lookupsOf. destruct (String.eqb _ ""); reflexivity.
Qed.

Lemma GetEnvironment_looks_up_again_witness :
  env (Demo.base Demo.widgets false) = None
  /\ exists e2 w2 slug qs,
       Request.GetEnvironment (Demo.base Demo.widgets false)
         (setQueries (Demo.world Demo.store Demo.widgets) [EnvBySlug "acme"])
       = Ok ((e2, Demo.base Demo.widgets false), w2)
       /\ queries w2 = [EnvBySlug "acme"] ++ EnvBySlug slug :: qs.
Proof.
  apply (GetEnvironment_looks_up_again 1 7
           (Demo.world Demo.store Demo.widgets)
           (Demo.world Demo.store Demo.widgets)
           (setQueries (Demo.world Demo.store Demo.widgets) [EnvBySlug "acme"])
           (Demo.base Demo.widgets false) (Demo.base Demo.widgets false)
           Demo.acme);
    reflexivity.
Defined.

(** The sibling [GetUser] keeps what it fetched: once a user was found, the
    next call returns it without a look-up. *)
Lemma GetUser_memoizes (br br1 : BaseRequest) (w w1 : World) (u : User) :
  Request.GetUser br w = Ok ((Some u, br1), w1) ->
  user br1 = Some u /\ Request.GetUser br1 w1 = Ok ((Some u, br1), w1).
Proof.
  unfold Request.GetUser. destruct (user br) as [u0|] eqn:Hu; unfold_m; intros H.
  - inv_result. now rewrite Hu.
  - injection H as Hfound <- <-. simpl. rewrite Hfound. now split.
Qed.

Lemma bind_ok {A B : Type} (m : M A) (k : A -> M B) (w w' : World) (a : A) :
  m w = Ok (a, w') -> bind m k w = k a w'.
Proof. intros H. unfold bind. now rewrite H. Qed.

Lemma bind_panic {A B : Type} (m : M A) (k : A -> M B) (w : World) (msg : string) :
  m w = Panic msg -> bind m k w = Panic msg.
Proof. intros H. unfold bind. now rewrite H. Qed.

(** ** The rewrite target: [GetOrigin] *)

(** C5. The override header, when it is not empty, is the target; without it,
    a resolved environment gives [https://] or [http://] followed by its
    upstream host, by its TLS flag; without either, the URL of the request is
    returned. *)
Theorem GetOrigin_priority (url_Parse : string -> option URL) (br : BaseRequest) (w : World) :
  (Get (ReqHeaders br) "X-StopLight-Url-Host" <> "" ->
   Request.GetOrigin url_Parse br w
   = Ok ((url_Parse (Get (ReqHeaders br) "X-StopLight-Url-Host"), br), w))
  /\ (Get (ReqHeaders br) "X-StopLight-Url-Host" = "" ->
      forall e br' w',
        Request.GetEnvironment br w = Ok ((e, br'), w') ->
        (Slug e <> "" ->
         Request.GetOrigin url_Parse br w
         = Ok ((url_Parse ((if Ssl e then "https://" else "http://") +:+ Url e), br'), w'))
        /\ (Slug e = "" ->
            forall rq, heap w' !! HttpRequest br' = Some rq ->
                       Request.GetOrigin url_Parse br w = Ok ((Some (Url_ rq), br'), w'))).
Proof.
  unfold Request.GetOrigin. split.
  - intros Hh. now rewrite (eqb_empty_false _ Hh).
  - intros -> e br' w' Hget. rewrite String.eqb_refl.
    rewrite (bind_ok _ _ _ _ _ Hget). split.
    + intros Hs. rewrite (eqb_empty_false _ Hs). now destruct (Ssl e).
    + intros -> rq Hrq. rewrite String.eqb_refl. unfold_m. now rewrite Hrq.
Qed.

Lemma GetOrigin_priority_witness :
  Request.GetOrigin Demo.parse
    (Demo.base (Demo.request "GET" "/acme/widgets"
                     {["X-Stoplight-Url-Host" := ["http://override.local"]]}) false)
    (Demo.world Demo.store Demo.widgets)
  = Ok ((Some (mkURL "http" "" "override.local" "" "" false ""),
         Demo.base (Demo.request "GET" "/acme/widgets"
                         {["X-Stoplight-Url-Host" := ["http://override.local"]]}) false),
        Demo.world Demo.store Demo.widgets)
  /\ Request.GetOrigin Demo.parse (Demo.base Demo.widgets false)
       (Demo.world Demo.store Demo.widgets)
     = Ok ((Some (mkURL "http" "" "api.internal:9000" "" "" false ""), Demo.base Demo.widgets false),
           setQueries (Demo.world Demo.store Demo.widgets) [EnvBySlug "acme"])
  /\ Request.GetOrigin Demo.parse (Demo.base (Demo.request "GET" "/nobody/x" ∅) false)
       (Demo.world Demo.store (Demo.request "GET" "/nobody/x" ∅))
     = Ok ((Some (mkURL "http" "" "proxy.local" "/nobody/x" "" false ""),
            Demo.base (Demo.request "GET" "/nobody/x" ∅) false),
           setQueries (Demo.world Demo.store (Demo.request "GET" "/nobody/x" ∅))
             [EnvBySlug "nobody"; EnvByHost "proxy.local"]).
Proof.
  split; [| split].
  - apply (GetOrigin_priority Demo.parse). vm_compute. discriminate.
  - refine (proj1 (proj2 (GetOrigin_priority Demo.parse _ _) _ Demo.acme _ _ _) _).
    + reflexivity.
    + reflexivity.
    + discriminate.
  - refine (proj2 (proj2 (GetOrigin_priority Demo.parse _ _) _ zeroEnvironment _ _ _) _
              (Demo.request "GET" "/nobody/x" ∅) _).
    + reflexivity.
    + reflexivity.
    + reflexivity.
    + reflexivity.
Defined.

(** ** Session teardown: [Cleanup] *)

Lemma Del_twice (h : Header) (k1 k2 : string) :
  Del (Del (Del (Del h k1) k2) k1) k2 = Del (Del h k1) k2.
Proof.
  unfold Del. apply map_eq. intros i. rewrite !lookup_delete.
  repeat case_decide; reflexivity.
Qed.

Lemma setReqHeader_twice (r : Request) (h1 h2 : Header) :
  setReqHeader (setReqHeader r h1) h2 = setReqHeader r h2.
Proof. reflexivity. Qed.

(** C9. Once [Cleanup] has run for a session, the session is absent from the
    table and [Cleanup] for it runs again without error and changes nothing;
    for a session that was never in the table the first run leaves the table
    as it is. *)
Theorem Cleanup_idempotent (resp resp' r1 : option Response) (ctx : ProxyCtx) (w w1 : World) :
  Helpers.Cleanup resp ctx w = Ok (r1, w1) ->
  requestData w1 !! Session ctx = None
  /\ Helpers.Cleanup resp' ctx w1 = Ok (resp', w1)
  /\ (requestData w !! Session ctx = None -> requestData w1 = requestData w).
Proof.
  unfold Helpers.Cleanup. unfold_m.
  destruct (heap w !! Req ctx) as [creq|] eqn:Hreq; [| discriminate].
  intros H. inv_result. simpl.
  split; [apply lookup_delete_eq |]. split.
  - rewrite lookup_insert_eq. simpl. rewrite Del_twice.
    unfold setRequestData, setHeap. simpl.
    now rewrite insert_insert_eq, delete_delete_eq.
  - intros Hnone. now apply delete_id.
Qed.

Lemma Cleanup_idempotent_witness :
  requestData (setHeap (Demo.world Demo.store Demo.widgets)
                 {[1%positive := Demo.widgets]}) !! Session Demo.ctx = None
  /\ Helpers.Cleanup None Demo.ctx
       (setHeap (Demo.world Demo.store Demo.widgets) {[1%positive := Demo.widgets]})
     = Ok (None, setHeap (Demo.world Demo.store Demo.widgets)
                   {[1%positive := Demo.widgets]})
  /\ (requestData (Demo.worldWith Demo.store Demo.widgets false)
        !! Session Demo.ctx = None ->
      requestData (setHeap (Demo.world Demo.store Demo.widgets)
                     {[1%positive := Demo.widgets]})
      = requestData (Demo.worldWith Demo.store Demo.widgets false)).
Proof.
  apply (Cleanup_idempotent None None None Demo.ctx
           (Demo.worldWith Demo.store Demo.widgets false)).
  vm_compute. reflexivity.
Defined.

(** ** Tenant look-ups leave the rest of the world alone *)

Lemma GetApi_inv (br br' : BaseRequest) (w w' : World) (a : Api) :
  Request.GetApi br w = Ok ((a, br'), w') -> br' = br /\ frame w w'.
Proof.
  intros H. unfold Request.GetApi in H.
  destruct (api br) as [a0|]; [unfold_m; inv_result; split; [reflexivity | apply frame_refl] |].
  unfold bind at 1 in H.
  destruct (Request.GetEnvironment br w) as [[[e br1] w1]|] eqn:Hge; [| discriminate].
  apply GetEnvironment_inv in Hge as (-> & Hfr & _ & _).
  unfold_m. repeat step_result; (split; [reflexivity | solve_frame]).
Qed.

Lemma GetProject_inv (br br' : BaseRequest) (w w' : World) (p : Project) :
  Request.GetProject br w = Ok ((p, br'), w') -> br' = br /\ frame w w'.
Proof.
  intros H. unfold Request.GetProject in H.
  destruct (project br) as [p0|]; [unfold_m; inv_result; split; [reflexivity | apply frame_refl] |].
  unfold bind at 1 in H.
  destruct (String.eqb (Get (ReqHeaders br) "X-StopLight-Project") "").
  - unfold bind at 1 in H.
    destruct (Request.GetEnvironment br w) as [[[e br1] w1]|] eqn:Hge; [| discriminate].
    apply GetEnvironment_inv in Hge as (-> & Hfr & _ & _).
    unfold_m. repeat step_result; (split; [reflexivity | solve_frame]).
  - unfold_m. repeat step_result; (split; [reflexivity | solve_frame]).
Qed.

Lemma GetUser_inv (br br' : BaseRequest) (w w' : World) (u : option User) :
  Request.GetUser br w = Ok ((u, br'), w') ->
  HttpRequest br' = HttpRequest br /\ Body br' = Body br /\ frame w w'.
Proof.
  intros H. unfold Request.GetUser in H.
  destruct (user br) as [u0|]; unfold_m; inv_result; repeat split.
Qed.

(** ** The capture goroutine *)

(** C8. When the store answers the insertion of the capture record with an
    error, the goroutine logs the error and hands nothing to the hub; when the
    store accepts the record, the hub gets the ["request.create"] event with
    that record, and nothing is logged. *)
Theorem capture_broadcasts_only_after_persistence
    (br br1 : BaseRequest) (e : Environment) (resp : Response) (respBody : string)
    (w w1 : World) (a : Api) (rq : Request) :
  Request.GetApi br w = Ok ((a, br1), w1) ->
  heap w1 !! HttpRequest br1 = Some rq ->
  exists w',
    Helpers.capture br e resp respBody w = Ok (tt, w')
    /\ match CreateError (db w) (NewRequest None a e rq (Body br1) resp respBody) with
       | Some err =>
           logs w' = logs w ++ [err]
           /\ broadcasts w' = broadcasts w
           /\ requests (db w') = requests (db w)
       | None =>
           logs w' = logs w
           /\ broadcasts w'
              = broadcasts w
                ++ [mkEvent "request.create" "request"
                      (NewRequest None a e rq (Body br1) resp respBody) false]
           /\ requests (db w')
              = requests (db w) ++ [NewRequest None a e rq (Body br1) resp respBody]
       end.
Proof.
  intros Hapi Hrq. unfold Helpers.capture.
  rewrite (bind_ok _ _ _ _ _ Hapi).
  destruct (GetApi_inv _ _ _ _ _ Hapi) as (-> & Hdb & Hheap & _ & Hlogs & Hbr & _).
  unfold_m. rewrite Hrq, Hdb.
  destruct (CreateError (db w) _) as [err|]; eexists; (split; [reflexivity |]); simpl;
    rewrite ?Hlogs, ?Hbr, ?Hdb; auto.
Qed.

Lemma capture_broadcasts_only_after_persistence_witness :
  exists w',
    Helpers.capture (Demo.base Demo.widgets false) Demo.acme
      (mkResponse 200 ∅ "{}") "{}" (Demo.world Demo.brokenStore Demo.widgets)
    = Ok (tt, w')
    /\ logs w' = [] ++ ["connection refused"]
    /\ broadcasts w' = []
    /\ requests (db w') = [].
Proof.
  apply (capture_broadcasts_only_after_persistence
           (Demo.base Demo.widgets false) (Demo.base Demo.widgets false)
           Demo.acme (mkResponse 200 ∅ "{}") "{}"
           (Demo.world Demo.brokenStore Demo.widgets)
           (setCache (setQueries (Demo.world Demo.brokenStore Demo.widgets)
                        [EnvBySlug "acme"; ApiById "a1"])
              [("a1", CApi (mkApi "a1"))])
           (mkApi "a1") Demo.widgets);
    reflexivity.
Defined.

(** The goroutine of the later revision obeys the same rule: a run of it
    either logs one error and hands nothing to the hub, or inserts one record
    and hands the hub the event with that record. *)
Lemma capture_ctx_broadcasts_only_after_persistence
    (br : BaseRequest) (noContext : string) (dash : bool) (resp : Response)
    (respBody : string) (w w' : World) :
  HelpersDashboard.capture br noContext dash resp respBody w = Ok (tt, w') ->
  (exists slrequest err,
      CreateError (db w) slrequest = Some err
      /\ logs w' = logs w ++ [err]
      /\ broadcasts w' = broadcasts w
      /\ requests (db w') = requests (db w))
  \/ (exists slrequest,
         CreateError (db w) slrequest = None
         /\ logs w' = logs w
         /\ broadcasts w' = broadcasts w ++ [mkEvent "request.create" "request" slrequest dash]
         /\ requests (db w') = requests (db w) ++ [slrequest]).
Proof.
  unfold HelpersDashboard.capture. intros H.
  unfold bind at 1 in H.
  destruct (Request.GetUser br w) as [[[u br1] w1]|] eqn:Hu; [| discriminate].
  apply GetUser_inv in Hu as (_ & _ & Hf1).
  unfold bind at 1 in H.
  assert (Hpre : forall a e br2 w2,
             (if String.eqb noContext "true"
              then ret (zeroApi, zeroEnvironment, br1)
              else bind (Request.GetApi br1)
                     (fun '(a, b) => bind (Request.GetEnvironment b)
                                       (fun '(e, b') => ret (a, e, b')))) w1
             = Ok ((a, e, br2), w2) -> frame w1 w2).
  { intros a e br2 w2 Hp. destruct (String.eqb noContext "true").
    - unfold_m. inv_result. apply frame_refl.
    - unfold bind at 1 in Hp.
      destruct (Request.GetApi br1 w1) as [[[a' b] wa]|] eqn:Ha; [| discriminate].
      apply GetApi_inv in Ha as (-> & Hfa).
      unfold bind at 1 in Hp.
      destruct (Request.GetEnvironment br1 wa) as [[[e' b'] we]|] eqn:He; [| discriminate].
      apply GetEnvironment_inv in He as (-> & Hfe & _).
      unfold_m. inv_result. eapply frame_trans; eassumption. }
  match type of H with
  | match ?m with _ => _ end = _ => destruct m as [[[[a e] br2] w2]|] eqn:Hm; [| discriminate]
  end.
  assert (Hf2 := Hpre a e br2 w2 eq_refl).
  assert (Hf : frame w w2) by (eapply frame_trans; eassumption).
  destruct Hf as (Hdb & _ & _ & Hlogs & Hbr & _).
  unfold_m. repeat step_result; simpl; rewrite ?Hlogs, ?Hbr, ?Hdb in *.
  all: first [solve [left; eauto 10] | solve [right; eauto 10]].
Qed.

(** ** The skip flag in the post-response filters *)

Lemma putBase_same (w : World) (s : Z) (br : BaseRequest) :
  requestData w !! s = Some br ->
  setRequestData w (<[s := br]> (requestData w)) = w.
Proof.
  intros H. destruct w; unfold setRequestData; simpl in *. f_equal.
  now apply insert_id.
Qed.



(** [PostflightCorsSupport] on a context whose environment look-up finds
    nothing: the response comes back as it is. *)
Lemma PostflightCorsSupport_unresolved (resp : option Response) (ctx : ProxyCtx)
    (w w' : World) (br br' : BaseRequest) (e : Environment) :
  requestData w !! Session ctx = Some br ->
  Request.GetEnvironment br w = Ok ((e, br'), w') ->
  Slug e = "" ->
  exists w'', Helpers.PostflightCorsSupport resp ctx w = Ok (resp, w'') /\ frame w w''.
Proof.
  intros Hs Hge Hslug. unfold Helpers.PostflightCorsSupport.
  unfold bind at 1. unfold lookupSession, gets. rewrite Hs.
  destruct resp as [rsp|]; [| eexists; split; [reflexivity | apply frame_refl]].
  rewrite (bind_ok _ _ _ _ _ Hge).
  destruct (GetEnvironment_inv _ _ _ _ _ Hge) as (-> & Hfr & _ & _).
  unfold_m. rewrite Hslug. simpl.
  eexists; split; [reflexivity |].
  eapply frame_trans; [exact Hfr |].
  rewrite putBase_same; [apply frame_refl |].
  destruct Hfr as (_ & _ & -> & _). exact Hs.
Qed.


(** The response of the preflight short-circuit carries the four values. *)
Lemma PreflightCorsSupport_response (r : positive) (ctx : ProxyCtx) (w w1 : World)
    (rq : Request) (out : positive * option Response) :
  heap w !! r = Some rq ->
  Method rq = "OPTIONS" ->
  Helpers.PreflightCorsSupport r ctx w = Ok (out, w1) ->
  exists rsp br,
    out = (r, Some rsp)
    /\ StatusCode rsp = StatusOK
    /\ carriesCors (RespHeader rsp) (Get (ReqHeader rq) "Access-Control-Request-Headers")
    /\ requestData w !! Session ctx = Some br
    /\ requestData w1 !! Session ctx = Some (setSkip br true)
    /\ heap w1 = heap w.
Proof.
  intros Hrq Hm H. unfold Helpers.PreflightCorsSupport in H. unfold_m.
  rewrite Hrq, Hm in H.
  change (String.eqb "OPTIONS" "OPTIONS") with true in H. cbv iota in H.
  cbv beta in H.
  destruct (requestData w !! Session ctx) as [br|] eqn:Hs; [| discriminate].
  inv_result. eexists _, br. split; [reflexivity |].
  split; [reflexivity |]. split.
  - unfold carriesCors, Set_, NewResponse, Add. simpl RespHeader.
    vm_compute CanonicalMIMEHeaderKey.
    repeat split; now simplify_map_eq.
  - split; [reflexivity |]. split; [| reflexivity].
    simpl. apply lookup_insert_eq.
Qed.

Lemma putBase_run (s : Z) (br : BaseRequest) (w : World) :
  requestData w !! s = Some br -> putBase s br w = Ok (tt, w).
Proof. intros H. unfold putBase, modify. now rewrite (putBase_same _ _ _ H). Qed.

Lemma GetOrigin_inv (url_Parse : string -> option URL) (br br' : BaseRequest) (w w' : World)
    (u : option URL) :
  Request.GetOrigin url_Parse br w = Ok ((u, br'), w') -> br' = br /\ frame w w'.
Proof.
  intros H. unfold Request.GetOrigin in H.
  destruct (String.eqb (Get (ReqHeaders br) "X-StopLight-Url-Host") "").
  - unfold bind at 1 in H.
    destruct (Request.GetEnvironment br w) as [[[e br1] w1]|] eqn:Hge; [| discriminate].
    destruct (GetEnvironment_inv _ _ _ _ _ Hge) as (-> & Hfr & _ & _).
    destruct (String.eqb (Slug e) ""); unfold_m; repeat step_result; now split.
  - unfold_m. inv_result. split; [reflexivity | apply frame_refl].
Qed.

(** Off the preflight path [PreflightCorsSupport] leaves the session table
    as it is. *)
Lemma PreflightCorsSupport_keeps_table (r : positive) (ctx : ProxyCtx) (w w1 : World)
    (rq : Request) (out : positive * option Response) :
  heap w !! r = Some rq ->
  Method rq <> "OPTIONS" ->
  Helpers.PreflightCorsSupport r ctx w = Ok (out, w1) ->
  requestData w1 = requestData w.
Proof.
  intros Hrq Hm H. unfold Helpers.PreflightCorsSupport in H.
  unfold bind at 1 in H. unfold deref at 1 in H. rewrite Hrq in H.
  apply String.eqb_neq in Hm. rewrite Hm in H.
  unfold bind at 1 in H. unfold lookupSession, gets in H.
  destruct (requestData w !! Session ctx) as [br|] eqn:Hs; [| discriminate].
  unfold bind at 1 in H.
  destruct (Request.GetEnvironment br w) as [[[e br1] w2]|] eqn:Hge; [| discriminate].
  destruct (GetEnvironment_inv _ _ _ _ _ Hge) as (-> & Hfr & _ & _).
  assert (Hw : setRequestData w2 (<[Session ctx := br]> (requestData w2)) = w2).
  { apply putBase_same. destruct Hfr as (_ & _ & -> & _). exact Hs. }
  unfold bind at 1 in H. unfold putBase, modify in H. rewrite Hw in H.
  destruct Hfr as (_ & _ & Hrd & _).
  destruct (String.eqb (Slug e) ""); unfold_m; inv_result; [exact Hrd |].
  simpl. exact Hrd.
Qed.

Section Table.

Variable url_Parse : string -> option URL.

Lemma CleanRequest_keeps_table (r : positive) (ctx : ProxyCtx) (w w' : World)
    (out : positive * option Response) :
  Helpers.CleanRequest url_Parse r ctx w = Ok (out, w') -> requestData w' = requestData w.
Proof.
  intros H. unfold Helpers.CleanRequest in H.
  unfold bind at 1 in H. unfold lookupSession, gets in H.
  destruct (requestData w !! Session ctx) as [br|] eqn:Hs; [| discriminate].
  unfold bind at 1 in H.
  destruct (Request.GetEnvironment br w) as [[[e br1] w1]|] eqn:Hge; [| discriminate].
  destruct (GetEnvironment_inv _ _ _ _ _ Hge) as (-> & Hf1 & _ & _).
  unfold bind at 1 in H.
  destruct (Request.GetOrigin url_Parse br w1) as [[[u br2] w2]|] eqn:Hgo; [| discriminate].
  destruct (GetOrigin_inv _ _ _ _ _ _ Hgo) as (-> & Hf2).
  pose proof (frame_trans _ _ _ Hf1 Hf2) as (_ & _ & Hrd & _).
  unfold bind at 1 in H. rewrite putBase_run in H by (now rewrite Hrd).
  unfold_m. repeat step_result. simpl. exact Hrd.
Qed.

Lemma PostflightCorsSupport_keeps_table (resp out : option Response) (ctx : ProxyCtx)
    (w w' : World) :
  Helpers.PostflightCorsSupport resp ctx w = Ok (out, w') -> requestData w' = requestData w.
Proof.
  intros H. unfold Helpers.PostflightCorsSupport in H.
  unfold bind at 1 in H. unfold lookupSession, gets in H.
  destruct resp as [rsp|]; [| unfold ret in H; now inv_result].
  destruct (requestData w !! Session ctx) as [br|] eqn:Hs; [| unfold ret in H; now inv_result].
  unfold bind at 1 in H.
  destruct (Request.GetEnvironment br w) as [[[e br1] w1]|] eqn:Hge; [| discriminate].
  destruct (GetEnvironment_inv _ _ _ _ _ Hge) as (-> & (_ & _ & Hrd & _) & _ & _).
  unfold bind at 1 in H. rewrite putBase_run in H by (now rewrite Hrd).
  unfold_m. repeat step_result; exact Hrd.
Qed.

Lemma SetupResponse_keeps_world (resp out : option Response) (ctx : ProxyCtx) (w w' : World) :
  Helpers.SetupResponse resp ctx w = Ok (out, w') -> w' = w.
Proof.
  intros H. unfold Helpers.SetupResponse in H. unfold_m. now repeat step_result.
Qed.

Lemma SaveStopLightRequest_keeps_table (resp out : option Response) (ctx : ProxyCtx)
    (w w' : World) :
  Helpers.SaveStopLightRequest resp ctx w = Ok (out, w') -> requestData w' = requestData w.
Proof.
  intros H. unfold Helpers.SaveStopLightRequest in H.
  unfold bind at 1 in H. unfold lookupSession, gets in H.
  destruct (requestData w !! Session ctx) as [br|] eqn:Hs; [| unfold ret in H; now inv_result].
  destruct (Skip br); [unfold ret in H; now inv_result |].
  unfold bind at 1 in H.
  destruct (Request.GetApi br w) as [[[a br1] w1]|] eqn:Hapi; [| discriminate].
  destruct (GetApi_inv _ _ _ _ _ Hapi) as (-> & (_ & _ & Hrd1 & _)).
  unfold bind at 1 in H. rewrite putBase_run in H by (now rewrite Hrd1).
  destruct (String.eqb (ApiIdent a) ""); [unfold ret in H; now inv_result |].
  unfold bind at 1 in H. unfold deref in H.
  destruct (heap w1 !! HttpRequest br) as [rq|]; [| discriminate].
  unfold bind at 1 in H.
  destruct (Request.GetEnvironment br w1) as [[[e br2] w2]|] eqn:Hge; [| discriminate].
  destruct (GetEnvironment_inv _ _ _ _ _ Hge) as (-> & (_ & _ & Hrd2 & _) & _ & _).
  unfold bind at 1 in H. rewrite putBase_run in H by (now rewrite Hrd2, Hrd1).
  destruct (Helpers.isValidResponse rq resp); unfold_m; inv_result; simpl; congruence.
Qed.

(** The skip flag is written by the preflight short-circuit only: a
    session that is flagged after the call of a filter, and was not before,
    is the session of an [OPTIONS] request that [PreflightCorsSupport] has
    just answered. *)
Lemma flag_written_by_preflight_only (r : positive) (ctx : ProxyCtx) (resp : option Response)
    (w w' : World) (s : Z) :
  flagged w' s ->
  ~ flagged w s ->
  (forall out, Helpers.SetupRequest r ctx w <> Ok (out, w'))
  /\ (forall out, Helpers.CleanRequest url_Parse r ctx w <> Ok (out, w'))
  /\ (forall out, Helpers.PostflightCorsSupport resp ctx w <> Ok (out, w'))
  /\ (forall out, Helpers.SetupResponse resp ctx w <> Ok (out, w'))
  /\ (forall out, Helpers.SaveStopLightRequest resp ctx w <> Ok (out, w'))
  /\ (forall out, Helpers.Cleanup resp ctx w <> Ok (out, w'))
  /\ (forall out, Helpers.PreflightCorsSupport r ctx w = Ok (out, w') ->
        s = Session ctx
        /\ exists rq rsp,
             heap w !! r = Some rq /\ Method rq = "OPTIONS" /\ out = (r, Some rsp)).
Proof.
  intros (br' & Hs' & Hskip') Hnot.
  assert (Hsame : requestData w' = requestData w -> False).
  { intros Hrd. apply Hnot. exists br'. now rewrite <- Hrd. }
  split.
  { intros out H. unfold Helpers.SetupRequest, Request.NewBaseRequest in H.
    unfold_m. repeat step_result. simpl in Hs'.
    destruct (decide (s = Session ctx)) as [->|Hne].
    - rewrite lookup_insert_eq in Hs'. injection Hs' as <-. discriminate.
    - rewrite lookup_insert_ne in Hs' by congruence. apply Hnot. now exists br'. }
  split; [intros out H; apply Hsame; eapply CleanRequest_keeps_table; eassumption |].
  split; [intros out H; apply Hsame; eapply PostflightCorsSupport_keeps_table; eassumption |].
  split; [intros out H; apply Hsame; now rewrite (SetupResponse_keeps_world _ _ _ _ _ H) |].
  split; [intros out H; apply Hsame; eapply SaveStopLightRequest_keeps_table; eassumption |].
  split.
  { intros out H. unfold Helpers.Cleanup in H. unfold_m. repeat step_result.
    simpl in Hs'. apply Hnot. exists br'. split; [| exact Hskip'].
    destruct (decide (s = Session ctx)) as [->|Hne].
    - now rewrite lookup_delete_eq in Hs'.
    - now rewrite lookup_delete_ne in Hs' by congruence. }
  intros out H.
  destruct (heap w !! r) as [rq|] eqn:Hrq;
    [| unfold Helpers.PreflightCorsSupport in H; unfold_m; now rewrite Hrq in H].
  destruct (String.eqb_spec (Method rq) "OPTIONS") as [Hm|Hm].
  - destruct (PreflightCorsSupport_response r ctx w w' rq out Hrq Hm H)
      as (rsp & br & -> & _ & _ & Hs & Hs1 & _).
    split; [| now exists rq, rsp].
    destruct (decide (s = Session ctx)) as [->|Hne]; [reflexivity | exfalso].
    unfold Helpers.PreflightCorsSupport in H. unfold_m. rewrite Hrq, Hm in H.
    change (String.eqb "OPTIONS" "OPTIONS") with true in H. cbv beta iota in H.
    rewrite Hs in H. inv_result. simpl in Hs'.
    rewrite lookup_insert_ne in Hs' by congruence. apply Hnot. now exists br'.
  - exfalso. apply Hsame. eapply PreflightCorsSupport_keeps_table; eassumption.
Qed.

End Table.



(** [PostflightCorsSupport] itself does not read the flag: on a flagged
    wrapper of a [GET] with a response that has no CORS header, a state that
    no filter produces (Lemma [flag_written_by_preflight_only]), it would
    add the values. *)
Lemma PostflightCorsSupport_ignores_skip :
  Skip (Demo.base Demo.widgets true) = true
  /\ exists rsp' w',
       Helpers.PostflightCorsSupport (Some (mkResponse 200 ∅ "")) Demo.ctx
         (Demo.worldWith Demo.store Demo.widgets true)
       = Ok (Some rsp', w')
       /\ Get (RespHeader (mkResponse 200 ∅ "")) "Access-Control-Allow-Origin" = ""
       /\ Get (RespHeader rsp') "Access-Control-Allow-Origin" = "*"
       /\ RespHeader rsp' <> RespHeader (mkResponse 200 ∅ "").
Proof.
  split; [reflexivity |]. eexists _, _. split; [vm_compute; reflexivity |].
  split; [reflexivity |]. split; [reflexivity |].
  intros Heq. apply (f_equal (fun h => Get h "Access-Control-Allow-Origin")) in Heq.
  vm_compute in Heq. discriminate.
Qed.

(** The preflight exchange, filter by filter: the response of the
    short-circuit leaves the three post-response filters with the headers it
    had, nothing is captured, and the context is marked. *)
Example preflight_exchange :
  let rq := Demo.request "OPTIONS" "/acme/widgets"
              {["Access-Control-Request-Headers" := ["X-Token"]]} in
  let w0 := Demo.world Demo.store rq in
  exists rsp w,
    bind (Helpers.SetupRequest 1 Demo.ctx) (fun _ =>
    bind (Helpers.PreflightCorsSupport 1 Demo.ctx) (fun out =>
    bind (Helpers.PostflightCorsSupport (snd out) Demo.ctx) (fun r1 =>
    bind (Helpers.SetupResponse r1 Demo.ctx) (fun r2 =>
    bind (Helpers.SaveStopLightRequest r2 Demo.ctx) (fun r3 =>
    ret (snd out, r3)))))) w0
    = Ok ((Some rsp, Some rsp), w)
    /\ Get (RespHeader rsp) "Access-Control-Allow-Headers" = "X-Token"
    /\ Get (RespHeader rsp) "X-Forwarded-For" = ""
    /\ spawned w = []
    /\ (Skip <$> requestData w !! 7) = Some true.
Proof. eexists _, _. split; [vm_compute; reflexivity |]. repeat split. Qed.

(** ** The relevance decision: [isValidResponse] *)

Lemma Contains_skip (c : ascii) (s sub : string) :
  HasPrefix (String c s) sub = false ->
  Contains (String c s) sub = Contains s sub.
Proof.
  intros H. unfold Contains. rewrite Index_unfold, H.
  now destruct (Index s sub).
Qed.

Lemma Contains_append_r (s t sub : string) :
  Contains t sub = true -> Contains (s +:+ t) sub = true.
Proof.
  intros H. induction s as [|c s IH]; [exact H |].
  rewrite append_cons. unfold Contains in *. rewrite Index_unfold.
  destruct (HasPrefix (String c (s +:+ t)) sub); [reflexivity |].
  now destruct (Index (s +:+ t) sub).
Qed.

(** The accept type ["application/json"] mentions [json], and it adds no
    [html] to what follows it. *)
Lemma Contains_json_accept (ct : string) :
  Contains ("application/json" +:+ ct) "json" = true.
Proof. reflexivity. Qed.

Lemma Contains_html_accept (ct : string) :
  Contains ("application/json" +:+ ct) "html" = Contains ct "html".
Proof.
  rewrite !append_cons, append_nil.
  now rewrite !Contains_skip by reflexivity.
Qed.

Lemma validStatusCode_200 :
  (200 =? 304) || bool_decide (byteAt (Itoa 200) 0 = Some "2"%char) = true.
Proof. reflexivity. Qed.

(** [strconv.Itoa] is never empty: the index of [isValidResponse] is in
    range. *)
Lemma Itoa_nonempty (n : Z) : exists c, byteAt (Itoa n) 0 = Some c.
Proof.
  unfold Itoa, byteAt, NilZero.string_of_int, NilZero.string_of_uint.
  destruct (Z.to_int n) as [d|d]; [| simpl; eauto].
  destruct d; simpl; eauto.
Qed.

Lemma isValidResponse_helpers_get_200 (rq : Request) (rsp : Response) :
  Get (ReqHeader rq) "X-StopLight-Ignore" <> "true" ->
  Method rq = "GET" ->
  StatusCode rsp = 200 ->
  Helpers.isValidResponse rq (Some rsp)
  = negb (String.eqb (Get (ReqHeader rq) "X-StopLight-Api") "")
    || negb (String.eqb (Get (ReqHeader rq) "X-Requested-With") "")
    || Contains (Get (RespHeader rsp) "Content-Type") "json"
    || Contains (Get (RespHeader rsp) "Content-Type") "xml".
Proof.
  intros Hign Hm Hst. unfold Helpers.isValidResponse.
  apply String.eqb_neq in Hign. rewrite Hign, Hm, Hst, validStatusCode_200.
  change (String.eqb "GET" "GET") with true. cbn [negb].
  now rewrite !orb_false_r.
Qed.

(** C3, as amended. For a [GET] with status 200, a resolved tenant, no skip
    flag and no ignore directive.
    In helpers.go the decision reads the headers [X-StopLight-Api] and
    [X-Requested-With] of the request and the content type of the response,
    never [Accept]: the exchange is capturable exactly when one of the two
    headers is there or the content type mentions [json] or [xml]. So a
    response of content type [text/html] is not capturable when the request
    has neither header, and a request that accepts [application/json] is
    capturable when the content type of the response mentions [json] or
    [xml].
    In the revision with the dashboard directive (part_001) a response of
    content type [text/html] is not capturable when the request carries
    neither the dashboard directive nor [X-Requested-With], and a request
    that accepts [application/json] is capturable when the content type of
    the response does not mention [html]. *)
Theorem isValidResponse_get_200 (br br1 : BaseRequest) (rsp : Response) (w w1 : World)
    (rq : Request) (a : Api) :
  Skip br = false ->
  heap w !! HttpRequest br = Some rq ->
  Get (ReqHeader rq) "X-StopLight-Ignore" <> "true" ->
  Request.GetApi br w = Ok ((a, br1), w1) ->
  ApiIdent a <> "" ->
  Method rq = "GET" ->
  StatusCode rsp = 200 ->
  Helpers.isValidResponse rq (Some rsp)
  = negb (String.eqb (Get (ReqHeader rq) "X-StopLight-Api") "")
    || negb (String.eqb (Get (ReqHeader rq) "X-Requested-With") "")
    || Contains (Get (RespHeader rsp) "Content-Type") "json"
    || Contains (Get (RespHeader rsp) "Content-Type") "xml"
  /\ (Get (ReqHeader rq) "X-StopLight-Api" = "" ->
      Get (ReqHeader rq) "X-Requested-With" = "" ->
      Get (RespHeader rsp) "Content-Type" = "text/html" ->
      Helpers.isValidResponse rq (Some rsp) = false)
  /\ (Get (ReqHeader rq) "Accept" = "application/json" ->
      Contains (Get (RespHeader rsp) "Content-Type") "json" = true
      \/ Contains (Get (RespHeader rsp) "Content-Type") "xml" = true ->
      Helpers.isValidResponse rq (Some rsp) = true)
  /\ (Get (ReqHeader rq) "X-StopLight-Dashboard" <> "true" ->
      Get (ReqHeader rq) "X-Requested-With" = "" ->
      Get (RespHeader rsp) "Content-Type" = "text/html" ->
      exists w', HelpersDashboard.isValidResponse (Some br) (Some rsp) w
                 = Ok ((false, Some br1), w'))
  /\ (Get (ReqHeader rq) "Accept" = "application/json" ->
      Contains (Get (RespHeader rsp) "Content-Type") "html" = false ->
      exists w', HelpersDashboard.isValidResponse (Some br) (Some rsp) w
                 = Ok ((true, Some br1), w')).
Proof.
  intros Hskip Hrq Hign Hapi Ha Hm Hst.
  pose proof (isValidResponse_helpers_get_200 rq rsp Hign Hm Hst) as Hh.
  split; [exact Hh |].
  split; [intros H1 H2 H3; rewrite Hh, H1, H2, H3; reflexivity |].
  split; [intros _ [H|H]; rewrite Hh, H; now rewrite ?orb_true_r |].
  destruct (GetApi_inv _ _ _ _ _ Hapi) as (-> & _ & Hheap & _).
  assert (Hrq1 : heap w1 !! HttpRequest br = Some rq) by (now rewrite Hheap).
  apply String.eqb_neq in Hign. apply String.eqb_neq in Ha.
  assert (Hrun :
             HelpersDashboard.isValidResponse (Some br) (Some rsp) w
             = if String.eqb (Get (ReqHeader rq) "X-StopLight-Dashboard") "true"
               then Ok ((true, Some br), w1)
               else bind (deref (HttpRequest br))
                      (fun req =>
                         bind (Println (Get (ReqHeader req) "X-Requested-With"))
                           (fun _ =>
                              ret (negb (String.eqb (Method req) "GET")
                                   || negb (String.eqb (Get (ReqHeader req) "X-Requested-With") "")
                                   || negb ((StatusCode rsp =? 304)
                                            || bool_decide
                                                 (byteAt (Itoa (StatusCode rsp)) 0
                                                  = Some "2"%char))
                                   || ((Contains (Get (ReqHeader req) "Accept"
                                                  +:+ Get (RespHeader rsp) "Content-Type") "json"
                                        || Contains (Get (ReqHeader req) "Accept"
                                                     +:+ Get (RespHeader rsp) "Content-Type") "xml")
                                       && negb (Contains (Get (ReqHeader req) "Accept"
                                                          +:+ Get (RespHeader rsp) "Content-Type")
                                                  "html")),
                                   Some br))) w1).
  { unfold HelpersDashboard.isValidResponse. rewrite Hskip.
    unfold bind at 1. unfold deref at 1. rewrite Hrq, Hign.
    rewrite (bind_ok _ _ _ _ _ Hapi), Ha.
    now destruct (String.eqb (Get (ReqHeader rq) "X-StopLight-Dashboard") "true"). }
  rewrite Hrun. clear Hrun.
  unfold bind, deref, Println, modify, ret. rewrite Hrq1, Hm, Hst, validStatusCode_200.
  split.
  - intros Hdash Hajax Hct. apply String.eqb_neq in Hdash. rewrite Hdash, Hajax, Hct.
    rewrite (Contains_append_r _ "text/html" "html" eq_refl).
    rewrite andb_false_r. eexists. reflexivity.
  - intros Hacc Hhtml. rewrite Hacc, Contains_json_accept, Contains_html_accept, Hhtml.
    destruct (String.eqb (Get (ReqHeader rq) "X-StopLight-Dashboard") "true");
      [eexists; reflexivity |].
    rewrite !orb_true_r. eexists. reflexivity.
Qed.

Lemma isValidResponse_get_200_witness :
  (Helpers.isValidResponse Demo.widgets (Some Demo.htmlResponse) = false
   /\ exists w', HelpersDashboard.isValidResponse (Some (Demo.base Demo.widgets false))
                   (Some Demo.htmlResponse) (Demo.world Demo.store Demo.widgets)
                 = Ok ((false, Some (Demo.base Demo.widgets false)), w'))
  /\ (Helpers.isValidResponse Demo.jsonWidgets (Some Demo.jsonResponse) = true
      /\ exists w', HelpersDashboard.isValidResponse (Some (Demo.base Demo.jsonWidgets false))
                      (Some Demo.jsonResponse) (Demo.world Demo.store Demo.jsonWidgets)
                    = Ok ((true, Some (Demo.base Demo.jsonWidgets false)), w')).
Proof.
  split.
  - destruct (isValidResponse_get_200 (Demo.base Demo.widgets false)
                (Demo.base Demo.widgets false) Demo.htmlResponse
                (Demo.world Demo.store Demo.widgets)
                (Demo.resolved (Demo.world Demo.store Demo.widgets))
                Demo.widgets (mkApi "a1") eq_refl eq_refl
                ltac:(discriminate) eq_refl ltac:(discriminate) eq_refl eq_refl)
      as (_ & H1 & _ & H2 & _).
    split; [exact (H1 eq_refl eq_refl eq_refl) |].
    apply H2; [discriminate | reflexivity | reflexivity].
  - destruct (isValidResponse_get_200 (Demo.base Demo.jsonWidgets false)
                (Demo.base Demo.jsonWidgets false) Demo.jsonResponse
                (Demo.world Demo.store Demo.jsonWidgets)
                (Demo.resolved (Demo.world Demo.store Demo.jsonWidgets))
                Demo.jsonWidgets (mkApi "a1") eq_refl eq_refl
                ltac:(discriminate) eq_refl ltac:(discriminate) eq_refl eq_refl)
      as (_ & _ & H1 & _ & H2).
    split; [exact (H1 eq_refl (or_introl eq_refl)) |].
    exact (H2 eq_refl eq_refl).
Defined.

(** Exchanges with a resolved tenant, no skip flag and no ignore
    directive, all [GET] with status 200. In the revision with the dashboard
    directive, with content type [text/html]: the one of a script is
    capturable, and the one of a client that accepts [application/json] is
    not. In helpers.go: the page asked for by a script is capturable, and
    the plain text sent to a client that accepts [application/json] is
    not. *)
Lemma isValidResponse_html_cases :
  (Skip (Demo.base Demo.ajaxWidgets false) = false
   /\ Method Demo.ajaxWidgets = "GET"
   /\ Get (ReqHeader Demo.ajaxWidgets) "X-StopLight-Ignore" = ""
   /\ StatusCode Demo.htmlResponse = 200
   /\ Get (RespHeader Demo.htmlResponse) "Content-Type" = "text/html"
   /\ Request.GetApi (Demo.base Demo.ajaxWidgets false)
           (Demo.world Demo.store Demo.ajaxWidgets)
         = Ok ((mkApi "a1", Demo.base Demo.ajaxWidgets false),
               Demo.resolved (Demo.world Demo.store Demo.ajaxWidgets))
   /\ (exists w', HelpersDashboard.isValidResponse (Some (Demo.base Demo.ajaxWidgets false))
                    (Some Demo.htmlResponse) (Demo.world Demo.store Demo.ajaxWidgets)
                  = Ok ((true, Some (Demo.base Demo.ajaxWidgets false)), w'))
   /\ Helpers.isValidResponse Demo.ajaxWidgets (Some Demo.htmlResponse) = true)
  /\ (Skip (Demo.base Demo.jsonWidgets false) = false
      /\ Method Demo.jsonWidgets = "GET"
      /\ Get (ReqHeader Demo.jsonWidgets) "X-StopLight-Ignore" = ""
      /\ Get (ReqHeader Demo.jsonWidgets) "Accept" = "application/json"
      /\ StatusCode Sample.plainResponse = 200
      /\ Request.GetApi (Demo.base Demo.jsonWidgets false)
           (Demo.world Demo.store Demo.jsonWidgets)
         = Ok ((mkApi "a1", Demo.base Demo.jsonWidgets false),
               Demo.resolved (Demo.world Demo.store Demo.jsonWidgets))
      /\ (exists w', HelpersDashboard.isValidResponse (Some (Demo.base Demo.jsonWidgets false))
                       (Some Demo.htmlResponse) (Demo.world Demo.store Demo.jsonWidgets)
                     = Ok ((false, Some (Demo.base Demo.jsonWidgets false)), w'))
      /\ Helpers.isValidResponse Demo.jsonWidgets (Some Sample.plainResponse) = false).
Proof.
  repeat split; try (eexists; vm_compute; reflexivity).
Qed.

(** The revision of helpers.go decides on the content type alone: with a
    resolved API, a [GET] with status 200 whose request accepts
    [application/json] is not capturable when the response does not say
    [json] or [xml]; a page load is not capturable either. *)
Example isValidResponse_content_type_only :
  Helpers.isValidResponse Demo.jsonWidgets (Some (mkResponse 200 ∅ "{}")) = false
  /\ Helpers.isValidResponse Demo.jsonWidgets (Some Demo.jsonResponse) = true
  /\ Helpers.isValidResponse Demo.widgets (Some Demo.htmlResponse) = false.
Proof. repeat split. Qed.

(** ** Further facts on the revisions and on whole exchanges *)

Lemma Del_chain_twice (h : Header) (k1 k2 k3 k4 k5 : string) :
  Del (Del (Del (Del (Del (Del (Del (Del (Del (Del h k1) k2) k3) k4) k5) k1) k2) k3) k4) k5
  = Del (Del (Del (Del (Del h k1) k2) k3) k4) k5.
Proof.
  unfold Del. apply map_eq. intros i. rewrite !lookup_delete.
  repeat case_decide; reflexivity.
Qed.

(** [Cleanup] of the [proxyHelper] revision is idempotent in the same way. *)
Lemma ProxyHelper_Cleanup_idempotent (resp resp' r1 : option Response) (ctx : ProxyCtx)
    (w w1 : World) :
  ProxyHelper.Cleanup resp ctx w = Ok (r1, w1) ->
  requestData w1 !! Session ctx = None
  /\ ProxyHelper.Cleanup resp' ctx w1 = Ok (resp', w1)
  /\ (requestData w !! Session ctx = None -> requestData w1 = requestData w).
Proof.
  unfold ProxyHelper.Cleanup. unfold_m.
  destruct (heap w !! Req ctx) as [creq|] eqn:Hreq; [| discriminate].
  intros H. inv_result. simpl.
  split; [apply lookup_delete_eq |]. split.
  - rewrite lookup_insert_eq. simpl. rewrite Del_chain_twice.
    unfold setRequestData, setHeap. simpl.
    now rewrite insert_insert_eq, delete_delete_eq.
  - intros Hnone. now apply delete_id.
Qed.

Lemma HelpersDashboard_Cleanup_idempotent (resp resp' r1 : option Response) (ctx : ProxyCtx)
    (w w1 : World) :
  HelpersDashboard.Cleanup resp ctx w = Ok (r1, w1) ->
  requestData w1 !! Session ctx = None
  /\ HelpersDashboard.Cleanup resp' ctx w1 = Ok (resp', w1)
  /\ (requestData w !! Session ctx = None -> requestData w1 = requestData w).
Proof.
  unfold HelpersDashboard.Cleanup. unfold_m.
  destruct (heap w !! Req ctx) as [creq|] eqn:Hreq; [| discriminate].
  intros H. inv_result. simpl.
  split; [apply lookup_delete_eq |]. split.
  - rewrite lookup_insert_eq. simpl. rewrite Del_chain_twice.
    unfold setRequestData, setHeap. simpl.
    now rewrite insert_insert_eq, delete_delete_eq.
  - intros Hnone. now apply delete_id.
Qed.

(** A request for [/acme/beta/x], with both environments running. Before
    [CleanRequest] the environment of the request is [acme]; after it has
    retargeted the request, the next [GetEnvironment] reads the rewritten
    path and answers [beta]. *)
Example GetEnvironment_after_CleanRequest :
  let rq := Demo.request "GET" "/acme/beta/x" ∅ in
  exists br w,
    bind (Helpers.SetupRequest 1 Demo.ctx) (fun _ =>
    bind (lookupSession 7) (fun data =>
    match data with
    | None => panic nilDeref
    | Some br =>
        bind (Request.GetEnvironment br) (fun '(e1, br) =>
        bind (Helpers.CleanRequest Demo.parse 1 Demo.ctx) (fun _ =>
        bind (Request.GetEnvironment br) (fun '(e2, br) =>
        ret (Slug e1, Slug e2, br))))
    end)) (Demo.world Demo.store rq)
    = Ok (("acme", "beta", br), w)
    /\ env br = None
    /\ (Path ∘ Url_ <$> heap w !! 1%positive) = Some "/beta/x"
    /\ queries w = [EnvBySlug "acme"; EnvBySlug "acme"; EnvBySlug "acme"; EnvBySlug "beta"].
Proof. eexists _, _. split; [vm_compute; reflexivity |]. repeat split. Qed.

(** The exchange of the end-to-end case of the specification: [GET
    /acme/widgets] is retargeted to [http://api.internal:9000/widgets], and a
    JSON response starts one capture goroutine, which stores one record
    attributed to [acme] and hands it to the hub. *)
Example acme_widgets_exchange :
  exists rsp w rec,
    bind (Helpers.SetupRequest 1 Demo.ctx) (fun _ =>
    bind (Helpers.PreflightCorsSupport 1 Demo.ctx) (fun _ =>
    bind (Helpers.CleanRequest Demo.parse 1 Demo.ctx) (fun _ =>
    bind (Helpers.PostflightCorsSupport (Some Demo.jsonResponse) Demo.ctx) (fun r1 =>
    bind (Helpers.SetupResponse r1 Demo.ctx) (fun r2 =>
    bind (Helpers.SaveStopLightRequest r2 Demo.ctx) (fun r3 =>
    bind (gets spawned) (fun ts =>
    bind (Helpers.Cleanup r3 Demo.ctx) (fun r4 =>
    bind (match ts with [t] => runTask t | _ => panic "no goroutine" end) (fun _ =>
    ret r4))))))))) (Demo.world Demo.store Demo.widgets)
    = Ok (Some rsp, w)
    /\ (Url_ <$> heap w !! 1%positive) = Some (mkURL "http" "" "api.internal:9000" "/widgets" "" false "")
    /\ Get (RespHeader rsp) "X-Forwarded-For" = "10.0.0.1:4711"
    /\ Get (RespHeader rsp) "X-StopLight-Request" = "true"
    /\ requests (db w) = [rec]
    /\ Slug (SLEnv rec) = "acme"
    /\ map EvName (broadcasts w) = ["request.create"]
    /\ requestData w = ∅.
Proof.
  eexists _, _, _. split; [vm_compute; reflexivity |].
  repeat split.
Qed.

(** In the revision with the cache, [GetEnvironment] leaves [br.env] nil as
    well: a later call goes through the path look-up again, which the cache
    answers. *)
Lemma GetEnvironment_cached_keeps_nil (br br' : BaseRequest) (w w' : World) (e : Environment) :
  env br = None ->
  RequestCached.GetEnvironment br w = Ok ((e, br'), w') ->
  br' = br /\ env br' = None.
Proof.
  intros Henv H. unfold RequestCached.GetEnvironment in H. rewrite Henv in H.
  unfold bind at 1 in H.
  destruct (RequestCached.requestEnvFromPath br w) as [[e1 w1]|]; [| discriminate].
  destruct (String.eqb (EnvId e1) "").
  - unfold bind at 1 in H.
    destruct (RequestCached.requestEnvFromHost br w1) as [[e2 w2]|]; [| discriminate].
    unfold ret in H. inv_result. now split.
  - unfold ret in H. inv_result. now split.
Qed.

Example GetEnvironment_cached_twice :
  exists br w,
    bind (RequestCached.GetEnvironment (Demo.base Demo.widgets false)) (fun '(e1, br) =>
    bind (gets queries) (fun q1 =>
    bind (RequestCached.GetEnvironment br) (fun '(e2, br) =>
    ret (Slug e1, q1, Slug e2, br)))) (Demo.world Demo.store Demo.widgets)
    = Ok (("acme", [EnvBySlug "acme"], "acme", br), w)
    /\ env br = None
    /\ queries w = [EnvBySlug "acme"]
    /\ cache w = [("acme", CEnvironment Demo.acme)].
Proof. eexists _, _. split; [vm_compute; reflexivity |]. repeat split. Qed.

(** * Further properties of the code *)

(** ** Segments of a path *)

Lemma HasPrefix_slash (c : ascii) (s : string) :
  HasPrefix (String c s) "/" = Ascii.eqb c "/"%char.
Proof. simpl. now destruct (Ascii.eqb c "/"%char). Qed.

Lemma Contains_slash_cons (c : ascii) (s : string) :
  Contains (String c s) "/" = false <-> c <> "/"%char /\ Contains s "/" = false.
Proof.
  unfold Contains. rewrite Index_unfold, HasPrefix_slash.
  destruct (Ascii.eqb_spec c "/"%char) as [->|Hc].
  - split; [discriminate | intros [H _]; congruence].
  - destruct (Index s "/"); simpl; split; try discriminate; auto.
    intros [_ H]; discriminate.
Qed.

Lemma Contains_slash_append (s t : string) :
  Contains s "/" = false -> Contains t "/" = false -> Contains (s +:+ t) "/" = false.
Proof.
  intros Hs Ht. induction s as [|c s IH]; [exact Ht |].
  rewrite append_cons. apply Contains_slash_cons in Hs as [Hc Hs].
  apply Contains_slash_cons. auto.
Qed.

Lemma append_assoc (s t u : string) : (s +:+ t) +:+ u = s +:+ t +:+ u.
Proof.
  induction s as [|c s IH]; [reflexivity |].
  now rewrite !append_cons, IH.
Qed.

(** Splitting at ["/"]: a piece without ["/"] is collected whole. *)
Lemma splitFrom_segment (s : string) : forall cur rest,
  Contains s "/" = false ->
  splitFrom (s +:+ String "/"%char rest) "/" O cur
  = (cur +:+ s) :: splitFrom rest "/" O "".
Proof.
  induction s as [|c s IH]; intros cur rest Hs.
  - rewrite append_nil, append_empty_r. reflexivity.
  - apply Contains_slash_cons in Hs as [Hc Hs].
    rewrite append_cons. simpl splitFrom.
    apply Ascii.eqb_neq in Hc. rewrite Hc.
    rewrite IH by exact Hs. now rewrite append_assoc.
Qed.

Lemma splitFrom_last (s : string) : forall cur,
  Contains s "/" = false -> splitFrom s "/" O cur = [cur +:+ s].
Proof.
  induction s as [|c s IH]; intros cur Hs.
  - now rewrite append_empty_r.
  - apply Contains_slash_cons in Hs as [Hc Hs]. simpl splitFrom.
    apply Ascii.eqb_neq in Hc. rewrite Hc.
    rewrite IH by exact Hs. now rewrite append_assoc.
Qed.

Lemma splitFrom_pieces (s : string) : forall cur,
  Contains cur "/" = false ->
  Forall (fun p => Contains p "/" = false) (splitFrom s "/" O cur).
Proof.
  induction s as [|c s IH]; intros cur Hcur; simpl splitFrom.
  - now constructor.
  - destruct (Ascii.eqb c "/"%char) eqn:Hc.
    + constructor; [exact Hcur | now apply IH].
    + apply IH. apply Contains_slash_append; [exact Hcur |].
      apply Contains_slash_cons. split; [now apply Ascii.eqb_neq | reflexivity].
Qed.

Lemma slugFromUrl_rooted (s : string) :
  Contains s "/" = false -> Request.slugFromUrl ("/" +:+ s) = Ok s.
Proof.
  intros Hs. unfold Request.slugFromUrl, Split, byteAt.
  change ("/" +:+ s) with (String "/"%char s). simpl.
  now rewrite splitFrom_last by exact Hs.
Qed.

Lemma slugFromUrl_rooted_more (s rest : string) :
  Contains s "/" = false -> Request.slugFromUrl ("/" +:+ s +:+ "/" +:+ rest) = Ok s.
Proof.
  intros Hs. unfold Request.slugFromUrl, Split, byteAt.
  change ("/" +:+ s +:+ "/" +:+ rest) with (String "/"%char (s +:+ String "/"%char rest)).
  simpl. now rewrite splitFrom_segment by exact Hs.
Qed.

Lemma slugFromUrl_bare (s : string) :
  s <> "" -> Contains s "/" = false -> Request.slugFromUrl s = Ok s.
Proof.
  intros Hne Hs. unfold Request.slugFromUrl, Split, byteAt.
  rewrite splitFrom_last by exact Hs.
  destruct s as [|c s]; [congruence |].
  apply Contains_slash_cons in Hs as [Hc _]. apply Ascii.eqb_neq in Hc.
  simpl. now rewrite Hc.
Qed.

Lemma slugFromUrl_bare_more (s rest : string) :
  s <> "" -> Contains s "/" = false -> Request.slugFromUrl (s +:+ "/" +:+ rest) = Ok s.
Proof.
  intros Hne Hs. unfold Request.slugFromUrl, Split, byteAt.
  change (s +:+ "/" +:+ rest) with (s +:+ String "/"%char rest).
  rewrite splitFrom_segment by exact Hs.
  destruct s as [|c s]; [congruence |].
  apply Contains_slash_cons in Hs as [Hc _]. apply Ascii.eqb_neq in Hc.
  rewrite append_cons. simpl. now rewrite Hc.
Qed.

(** X1. The slug of a path is its first segment: for a segment [s] without
    ["/"], the paths [/s] and [/s/rest], and [s] and [s/rest] when [s] is not
    empty, all have the slug [s]. *)
Theorem slugFromUrl_first_segment (s rest : string) :
  Contains s "/" = false ->
  Request.slugFromUrl ("/" +:+ s) = Ok s
  /\ Request.slugFromUrl ("/" +:+ s +:+ "/" +:+ rest) = Ok s
  /\ (s <> "" ->
      Request.slugFromUrl s = Ok s /\ Request.slugFromUrl (s +:+ "/" +:+ rest) = Ok s).
Proof.
  intros Hs. split; [now apply slugFromUrl_rooted |].
  split; [now apply slugFromUrl_rooted_more |].
  intros Hne. split; [now apply slugFromUrl_bare | now apply slugFromUrl_bare_more].
Qed.

Lemma slugFromUrl_first_segment_witness :
  Request.slugFromUrl ("/" +:+ "foo-bar") = Ok "foo-bar"
  /\ Request.slugFromUrl ("/" +:+ "foo-bar" +:+ "/" +:+ "fee/") = Ok "foo-bar"
  /\ ("foo-bar" <> "" ->
      Request.slugFromUrl "foo-bar" = Ok "foo-bar"
      /\ Request.slugFromUrl ("foo-bar" +:+ "/" +:+ "fee/") = Ok "foo-bar").
Proof. apply (slugFromUrl_first_segment "foo-bar" "fee/"). reflexivity. Defined.

(** X2. A slug that [slugFromUrl] returns never contains ["/"]. *)
Theorem slugFromUrl_no_slash (url slug : string) :
  Request.slugFromUrl url = Ok slug -> Contains slug "/" = false.
Proof.
  unfold Request.slugFromUrl, Split. intros H.
  assert (Hall := splitFrom_pieces url "" eq_refl).
  rewrite Forall_forall in Hall.
  destruct (byteAt url 0) as [c|]; [| discriminate].
  destruct (Ascii.eqb c "/"%char).
  - destruct (splitFrom url "/" O "" !! 1%nat) as [p|] eqn:Hp; [| discriminate].
    inv_result. apply Hall. eapply list_elem_of_lookup_2. exact Hp.
  - destruct (splitFrom url "/" O "" !! 0%nat) as [p|] eqn:Hp; [| discriminate].
    inv_result. apply Hall. eapply list_elem_of_lookup_2. exact Hp.
Qed.

Lemma slugFromUrl_no_slash_witness : Contains "foo" "/" = false.
Proof. apply (slugFromUrl_no_slash "/foo/bar/" "foo"). reflexivity. Defined.

(** ** More on [urlWithoutEnvironment] *)

Lemma len_zero (s : string) : len s = 0 <-> s = "".
Proof.
  unfold len. destruct s; simpl; split; try reflexivity; try discriminate; lia.
Qed.

(** X3. [urlWithoutEnvironment] never returns the empty path, whatever the
    slug and the path. *)
Theorem urlWithoutEnvironment_nonempty (e : Environment) (url : string) :
  Helpers.urlWithoutEnvironment e url <> "".
Proof.
  unfold Helpers.urlWithoutEnvironment.
  destruct (Replace1 url (Slug e) "") as [|a [|b s]] eqn:Hn.
  - discriminate.
  - discriminate.
  - destruct ((1 <? len (String a (String b s)))
              && bool_decide (byteAt (String a (String b s)) 1 = Some "/"%char)).
    + unfold TrimPrefix. simpl. destruct (Ascii.eqb a "/"%char); discriminate.
    + destruct (len (String a (String b s)) =? 0); discriminate.
Qed.

Lemma byteAt_1_cons (c : ascii) (s : string) : byteAt (String c s) 1 = byteAt s 0.
Proof. reflexivity. Qed.

Lemma HasPrefix_slash_byte (s : string) :
  HasPrefix s "/" = false -> byteAt s 0 <> Some "/"%char.
Proof.
  destruct s as [|c s]; [discriminate |].
  rewrite HasPrefix_slash. intros Hc%Ascii.eqb_neq. unfold byteAt. simpl. congruence.
Qed.

(** X4. Whatever follows the slug segment is kept: for every slug and every
    [rest] that does not begin with ["/"], the paths [slug/rest] and
    [/slug/rest] both become [/rest]. *)
Theorem urlWithoutEnvironment_keeps_rest (e : Environment) (rest : string) :
  HasPrefix rest "/" = false ->
  Helpers.urlWithoutEnvironment e (Slug e +:+ "/" +:+ rest) = "/" +:+ rest
  /\ Helpers.urlWithoutEnvironment e ("/" +:+ Slug e +:+ "/" +:+ rest) = "/" +:+ rest.
Proof.
  intros Hrest. unfold Helpers.urlWithoutEnvironment. split.
  - rewrite Replace1_slug_prefix by discriminate.
    change ("/" +:+ rest) with (String "/"%char rest). rewrite byteAt_1_cons.
    rewrite bool_decide_eq_false_2 by now apply HasPrefix_slash_byte.
    rewrite andb_false_r. unfold len. simpl String.length.
    destruct (Z.eqb_spec (Z.of_nat (S (String.length rest))) 0); [lia | reflexivity].
  - rewrite Replace1_slash_slug.
    change ("/" +:+ "/" +:+ rest) with (String "/"%char (String "/"%char rest)).
    unfold len, byteAt. simpl String.length. simpl String.get.
    rewrite bool_decide_eq_true_2 by reflexivity.
    destruct (Z.ltb_spec 1 (Z.of_nat (S (S (String.length rest))))); [reflexivity | lia].
Qed.

Lemma urlWithoutEnvironment_keeps_rest_witness :
  Helpers.urlWithoutEnvironment Demo.acme ("acme" +:+ "/" +:+ "widgets/7/parts") = "/" +:+ "widgets/7/parts"
  /\ Helpers.urlWithoutEnvironment Demo.acme ("/" +:+ "acme" +:+ "/" +:+ "widgets/7/parts")
     = "/" +:+ "widgets/7/parts".
Proof. apply (urlWithoutEnvironment_keeps_rest Demo.acme "widgets/7/parts"). reflexivity. Defined.

(** ** The look-up key of [requestEnvFromPath] *)



(** ** What the tenant look-ups answer *)

Lemma find_running (f : Environment -> bool) (l : list Environment) (e : Environment) :
  List.find (fun e => f e && Bool.eqb (Running e) true) l = Some e ->
  In e l /\ f e = true /\ Running e = true.
Proof.
  intros H. apply List.find_some in H as [Hin Hp].
  apply andb_true_iff in Hp as [Hf Hr]. apply Bool.eqb_prop in Hr. auto.
Qed.

(** X6. [GetEnvironment] answers the zero environment or a row of the store
    that is running, and whose slug is the slug of the request URI or whose
    upstream host is the host of the request URL: an environment that is not
    running never resolves. *)
Theorem GetEnvironment_zero_or_running (br br' : BaseRequest) (w w' : World)
    (e : Environment) (rq : Request) :
  env br = None ->
  heap w !! HttpRequest br = Some rq ->
  Request.GetEnvironment br w = Ok ((e, br'), w') ->
  e = zeroEnvironment
  \/ (In e (environments (db w)) /\ Running e = true
      /\ (Request.slugFromUrl (RequestURI (Url_ rq)) = Ok (Slug e)
          \/ Url e = UHost (Url_ rq))).
Proof.
  intros Henv Hrq H.
  destruct (slugFromUrl_RequestURI (Url_ rq)) as [slug Hslug].
  rewrite (GetEnvironment_nil _ _ _ _ Henv Hrq Hslug) in H. inv_result.
  unfold pathThenHost.
  destruct (Request.firstBySlug slug (db w)) as [e1|] eqn:H1; simpl.
  - unfold Request.firstBySlug in H1. apply find_running in H1 as (Hin & Hs & Hr).
    apply String.eqb_eq in Hs.
    destruct (String.eqb (EnvId e1) "").
    + destruct (Request.firstByUrl (UHost (Url_ rq)) (db w)) as [e2|] eqn:H2; simpl; auto.
      unfold Request.firstByUrl in H2. apply find_running in H2 as (Hin2 & Hu & Hr2).
      apply String.eqb_eq in Hu. right. auto.
    + right. rewrite Hs. auto.
  - destruct (Request.firstByUrl (UHost (Url_ rq)) (db w)) as [e2|] eqn:H2; simpl; auto.
    unfold Request.firstByUrl in H2. apply find_running in H2 as (Hin2 & Hu & Hr2).
    apply String.eqb_eq in Hu. right. auto.
Qed.

Lemma GetEnvironment_zero_or_running_witness :
  Demo.acme = zeroEnvironment
  \/ (In Demo.acme (environments (db (Demo.world Demo.store Demo.widgets)))
      /\ Running Demo.acme = true
      /\ (Request.slugFromUrl (RequestURI (Url_ Demo.widgets)) = Ok (Slug Demo.acme)
          \/ Url Demo.acme = UHost (Url_ Demo.widgets))).
Proof.
  apply (GetEnvironment_zero_or_running (Demo.base Demo.widgets false)
           (Demo.base Demo.widgets false) (Demo.world Demo.store Demo.widgets)
           (setQueries (Demo.world Demo.store Demo.widgets) [EnvBySlug "acme"])
           Demo.acme Demo.widgets);
    reflexivity.
Defined.

(** ** The cache in front of the project look-up *)

Lemma cacheFind_head (key : string) (v : CacheVal) (c : list (string * CacheVal)) :
  cacheFind key ((key, v) :: c) = Some v.
Proof. unfold cacheFind. simpl. now rewrite String.eqb_refl. Qed.

(** X7. With the project named by the [X-StopLight-Project] header and not
    yet in the cache, [GetProject] asks the store once, by that identifier,
    and looks up no environment; what the store answers, the zero project
    of a miss included, is cached: the next call returns the same project
    without asking the store. *)
Theorem GetProject_header_then_cache (br : BaseRequest) (w : World) (id : string) :
  project br = None ->
  Get (ReqHeaders br) "X-StopLight-Project" = id ->
  id <> "" ->
  cacheFind id (cache w) = None ->
  exists w1 w2,
    Request.GetProject br w
    = Ok ((default zeroProject (Request.firstProject id (db w)), br), w1)
    /\ queries w1 = queries w ++ [ProjectById id]
    /\ Request.GetProject br w1
       = Ok ((default zeroProject (Request.firstProject id (db w)), br), w2)
    /\ queries w2 = queries w1.
Proof.
  intros Hp Hh Hne Hc.
  assert (Hrun : forall w0,
             Request.GetProject br w0
             = match cacheFind id (cache w0) with
               | Some (CProject p) =>
                   Ok ((p, br), setCache w0 ((id, CProject p) :: cacheRemove id (cache w0)))
               | Some _ => Panic "interface conversion"
               | None =>
                   Ok ((default zeroProject (Request.firstProject id (db w0)), br),
                       setCache (setQueries w0 (queries w0 ++ [ProjectById id]))
                         (List.firstn cacheSize
                            ((id, CProject (default zeroProject (Request.firstProject id (db w0))))
                             :: cacheRemove id (cache w0))))
               end).
  { intros w0. unfold Request.GetProject. rewrite Hp, Hh.
    rewrite (eqb_empty_false _ Hne). unfold_m. rewrite !(eqb_empty_false _ Hne).
    change (negb false) with true. cbv beta iota.
    destruct (cacheFind id (cache w0)) as [[| |]|]; reflexivity. }
  eexists _, _. split; [rewrite Hrun, Hc; reflexivity |].
  split; [reflexivity |].
  split.
  - rewrite Hrun. simpl cache.
    change (List.firstn cacheSize) with (@List.firstn (string * CacheVal) (S 127)).
    simpl List.firstn. rewrite cacheFind_head. reflexivity.
  - reflexivity.
Qed.

Lemma GetProject_header_then_cache_witness :
  exists w1 w2,
    Request.GetProject
      (Demo.base (Demo.request "GET" "/x" {["X-Stoplight-Project" := ["p9"]]}) false)
      (Demo.world Demo.store Demo.widgets)
    = Ok ((default zeroProject (Request.firstProject "p9" (db (Demo.world Demo.store Demo.widgets))),
           Demo.base (Demo.request "GET" "/x" {["X-Stoplight-Project" := ["p9"]]}) false), w1)
    /\ queries w1 = queries (Demo.world Demo.store Demo.widgets) ++ [ProjectById "p9"]
    /\ Request.GetProject
         (Demo.base (Demo.request "GET" "/x" {["X-Stoplight-Project" := ["p9"]]}) false) w1
       = Ok ((default zeroProject (Request.firstProject "p9" (db (Demo.world Demo.store Demo.widgets))),
              Demo.base (Demo.request "GET" "/x" {["X-Stoplight-Project" := ["p9"]]}) false), w2)
    /\ queries w2 = queries w1.
Proof.
  apply (GetProject_header_then_cache
           (Demo.base (Demo.request "GET" "/x" {["X-Stoplight-Project" := ["p9"]]}) false)
           (Demo.world Demo.store Demo.widgets) "p9");
    try reflexivity. discriminate.
Defined.

(** ** The identifier of the API look-up *)




(** ** The user of a request *)

(** X9. [GetUser] keeps a user that was found: the next call returns it
    without a look-up. A look-up that finds no user leaves [br.user] nil, and
    the next call asks again. *)
Theorem GetUser_keeps_found_user (br br1 : BaseRequest) (w w1 : World) (u : option User) :
  user br = None ->
  Request.GetUser br w = Ok ((u, br1), w1) ->
  queries w1 = queries w ++ [UserByToken (Get (ReqHeaders br) "X-StopLight-Authorization")]
  /\ match u with
     | Some v => Request.GetUser br1 w1 = Ok ((Some v, br1), w1)
     | None =>
         exists w2,
           Request.GetUser br1 w1 = Ok ((None, br1), w2)
           /\ queries w2
              = queries w1 ++ [UserByToken (Get (ReqHeaders br) "X-StopLight-Authorization")]
     end.
Proof.
  intros Hu H. unfold Request.GetUser in *. rewrite Hu in H. unfold_m.
  injection H as Hfound <- <-. split; [reflexivity |].
  destruct u as [v|].
  - simpl. now rewrite Hfound.
  - eexists. unfold setUser, setQueries. cbn. rewrite Hfound. cbn. rewrite Hfound.
    split; reflexivity.
Qed.

Lemma GetUser_keeps_found_user_witness :
  queries (setQueries (Demo.world Demo.store Demo.widgets) [UserByToken ""])
  = queries (Demo.world Demo.store Demo.widgets)
    ++ [UserByToken (Get (ReqHeaders (Demo.base Demo.widgets false)) "X-StopLight-Authorization")]
  /\ exists w2,
       Request.GetUser (Demo.base Demo.widgets false)
         (setQueries (Demo.world Demo.store Demo.widgets) [UserByToken ""])
       = Ok ((None, Demo.base Demo.widgets false), w2)
       /\ queries w2
          = queries (setQueries (Demo.world Demo.store Demo.widgets) [UserByToken ""])
            ++ [UserByToken (Get (ReqHeaders (Demo.base Demo.widgets false))
                               "X-StopLight-Authorization")].
Proof.
  apply (GetUser_keeps_found_user (Demo.base Demo.widgets false) (Demo.base Demo.widgets false)
           (Demo.world Demo.store Demo.widgets)
           (setQueries (Demo.world Demo.store Demo.widgets) [UserByToken ""]) None);
    reflexivity.
Defined.

(** ** The attempt log and the user-data bag *)

Section BagFacts.

Import RequestState.

Context {V : Type} (nilValue : V).
Implicit Types st : Fields V.

(** X10. [GetLastAttempt] never indexes out of range: it answers nil on the
    empty log, and after [AddAttempt] it answers the attempt just added,
    which is also the last entry of [GetAttempts]. *)
Theorem GetLastAttempt_in_range st (a : Attempt) :
  (exists last, GetLastAttempt V st = Ok last)
  /\ (Attempts V st = [] -> GetLastAttempt V st = Ok None)
  /\ GetLastAttempt V (AddAttempt V st a) = Ok a
  /\ GetAttempts V (AddAttempt V st a) = GetAttempts V st ++ [a].
Proof.
  unfold GetLastAttempt, AddAttempt, GetAttempts. simpl. repeat split.
  - destruct (Attempts V st) as [|x l] eqn:Hl using rev_ind; [simpl; eauto |].
    rewrite length_app. simpl length.
    replace (length l + 1 - 1)%nat with (length l) by lia.
    replace (Nat.eqb (length l + 1) 0) with false by (symmetry; apply Nat.eqb_neq; lia).
    rewrite lookup_app_r by lia. rewrite Nat.sub_diag. simpl. eauto.
  - now intros ->.
  - rewrite length_app. simpl length.
    replace (length (Attempts V st) + 1 - 1)%nat with (length (Attempts V st)) by lia.
    replace (Nat.eqb (length (Attempts V st) + 1) 0) with false
      by (symmetry; apply Nat.eqb_neq; lia).
    rewrite lookup_app_r by lia. now rewrite Nat.sub_diag.
Qed.

Lemma SetUserData_free st (key : string) (baton : V) :
  userDataMutex V st = mkRWMutex false 0 false ->
  SetUserData V st key baton
  = Returns V unit tt
      (mkFields V (Attempts V st) (mkRWMutex false 0 false)
         (Some (<[key := baton]> (default ∅ (userData V st))))).
Proof.
  intros Hm. unfold SetUserData, Lock. rewrite Hm. simpl.
  unfold deferUnlock, setMutex. simpl. now destruct (userData V st).
Qed.

Lemma GetUserData_free st (key : string) :
  userDataMutex V st = mkRWMutex false 0 false ->
  GetUserData V nilValue st key
  = Returns V (V * bool)
      (match userData V st ≫= (.!! key) with
       | Some i => (i, true)
       | None => (nilValue, false)
       end) st.
Proof.
  intros Hm. unfold GetUserData, RLock. rewrite Hm. simpl.
  destruct st as [att m bag]. simpl in *. subst m.
  destruct bag as [bag|]; simpl; [| reflexivity].
  destruct (bag !! key); reflexivity.
Qed.

Lemma DeleteUserData_free st (key : string) :
  userDataMutex V st = mkRWMutex false 0 false ->
  DeleteUserData V st key
  = Returns V unit tt
      (mkFields V (Attempts V st) (mkRWMutex false 0 false) (delete key <$> userData V st)).
Proof.
  intros Hm. unfold DeleteUserData, Lock. rewrite Hm. simpl.
  unfold deferUnlock, setMutex. simpl. now destruct (userData V st).
Qed.

(** X11. On a free mutex [SetUserData] returns with the mutex free again and
    the log untouched; [GetUserData] then answers the value with [true] for
    that key, and what it answered before for every other key. The bag is
    made on the first [SetUserData]. *)
Theorem SetUserData_then_GetUserData st (key : string) (baton : V) :
  userDataMutex V st = mkRWMutex false 0 false ->
  exists st',
    SetUserData V st key baton = Returns V unit tt st'
    /\ userDataMutex V st' = mkRWMutex false 0 false
    /\ Attempts V st' = Attempts V st
    /\ GetUserData V nilValue st' key = Returns V (V * bool) (baton, true) st'
    /\ forall other a,
         other <> key ->
         GetUserData V nilValue st other = Returns V (V * bool) a st ->
         GetUserData V nilValue st' other = Returns V (V * bool) a st'.
Proof.
  intros Hm. eexists. split; [now apply SetUserData_free |].
  split; [reflexivity |]. split; [reflexivity |]. split.
  - rewrite GetUserData_free by reflexivity. simpl. now rewrite lookup_insert_eq.
  - intros other a Hne. rewrite !GetUserData_free by (reflexivity || exact Hm).
    simpl. rewrite lookup_insert_ne by congruence.
    intros H. injection H as <-. f_equal.
    destruct (userData V st) as [bag|]; simpl; [reflexivity |].
    now rewrite lookup_empty.
Qed.

(** X12. On a free mutex [DeleteUserData] returns with the mutex free again;
    [GetUserData] then answers nil and [false] for the key, and what it
    answered before for every other key. On a bag that was never made the
    deletion changes nothing. *)
Theorem DeleteUserData_then_GetUserData st (key : string) :
  userDataMutex V st = mkRWMutex false 0 false ->
  exists st',
    DeleteUserData V st key = Returns V unit tt st'
    /\ userDataMutex V st' = mkRWMutex false 0 false
    /\ GetUserData V nilValue st' key = Returns V (V * bool) (nilValue, false) st'
    /\ (userData V st = None -> st' = st)
    /\ forall other a,
         other <> key ->
         GetUserData V nilValue st other = Returns V (V * bool) a st ->
         GetUserData V nilValue st' other = Returns V (V * bool) a st'.
Proof.
  intros Hm. eexists. split; [now apply DeleteUserData_free |].
  split; [reflexivity |]. split; [| split].
  - rewrite GetUserData_free by reflexivity. simpl.
    destruct (userData V st) as [bag|]; simpl; [| reflexivity].
    now rewrite lookup_delete_eq.
  - intros Hnil. destruct st as [att m bag]. simpl in *. now subst.
  - intros other a Hne. rewrite !GetUserData_free by (reflexivity || exact Hm).
    simpl. intros H. injection H as <-. f_equal.
    destruct (userData V st) as [bag|]; simpl; [| reflexivity].
    now rewrite lookup_delete_ne by congruence.
Qed.

End BagFacts.

Lemma GetLastAttempt_in_range_witness :
  (exists last, RequestState.GetLastAttempt Z (RequestState.newFields Z) = Ok last)
  /\ (RequestState.Attempts Z (RequestState.newFields Z) = [] ->
      RequestState.GetLastAttempt Z (RequestState.newFields Z) = Ok None)
  /\ RequestState.GetLastAttempt Z
       (RequestState.AddAttempt Z (RequestState.newFields Z)
          (Some (RequestState.mkBaseAttempt None 5 None)))
     = Ok (Some (RequestState.mkBaseAttempt None 5 None))
  /\ RequestState.GetAttempts Z
       (RequestState.AddAttempt Z (RequestState.newFields Z)
          (Some (RequestState.mkBaseAttempt None 5 None)))
     = RequestState.GetAttempts Z (RequestState.newFields Z)
       ++ [Some (RequestState.mkBaseAttempt None 5 None)].
Proof.
  apply (GetLastAttempt_in_range (V:=Z) (RequestState.newFields Z)
           (Some (RequestState.mkBaseAttempt None 5 None))).
Defined.

Lemma SetUserData_then_GetUserData_witness :
  exists st',
    RequestState.SetUserData Z (RequestState.newFields Z) "retries" 3
    = RequestState.Returns Z unit tt st'
    /\ RequestState.userDataMutex Z st' = RequestState.mkRWMutex false 0 false
    /\ RequestState.Attempts Z st' = RequestState.Attempts Z (RequestState.newFields Z)
    /\ RequestState.GetUserData Z 0 st' "retries" = RequestState.Returns Z (Z * bool) (3, true) st'
    /\ forall other a,
         other <> "retries" ->
         RequestState.GetUserData Z 0 (RequestState.newFields Z) other
         = RequestState.Returns Z (Z * bool) a (RequestState.newFields Z) ->
         RequestState.GetUserData Z 0 st' other = RequestState.Returns Z (Z * bool) a st'.
Proof.
  apply (SetUserData_then_GetUserData 0 (RequestState.newFields Z) "retries" 3). reflexivity.
Defined.

Lemma DeleteUserData_then_GetUserData_witness :
  exists st',
    RequestState.DeleteUserData Z (RequestState.newFields Z) "retries"
    = RequestState.Returns Z unit tt st'
    /\ RequestState.userDataMutex Z st' = RequestState.mkRWMutex false 0 false
    /\ RequestState.GetUserData Z 0 st' "retries"
       = RequestState.Returns Z (Z * bool) (0, false) st'
    /\ (RequestState.userData Z (RequestState.newFields Z) = None ->
        st' = RequestState.newFields Z)
    /\ forall other a,
         other <> "retries" ->
         RequestState.GetUserData Z 0 (RequestState.newFields Z) other
         = RequestState.Returns Z (Z * bool) a (RequestState.newFields Z) ->
         RequestState.GetUserData Z 0 st' other = RequestState.Returns Z (Z * bool) a st'.
Proof.
  apply (DeleteUserData_then_GetUserData 0 (RequestState.newFields Z) "retries"). reflexivity.
Defined.

(** ** The filters and the session table *)

(** X14. [SetupRequest] puts a new wrapper under the session of the context:
    the headers and the body of the request as they are then, the skip flag
    unset, no tenant resolved. A wrapper already there is replaced; the
    other sessions, the request and the store are left alone. *)
Theorem SetupRequest_installs (r : positive) (ctx : ProxyCtx) (w : World) (rq : Request) :
  heap w !! r = Some rq ->
  exists w',
    Helpers.SetupRequest r ctx w = Ok ((r, None), w')
    /\ requestData w' !! Session ctx
       = Some (mkBaseRequest r (ReqHeader rq) (Session ctx) (ReqBody rq) false
                 None None None None)
    /\ (forall s, s <> Session ctx -> requestData w' !! s = requestData w !! s)
    /\ frame (setRequestData w' (requestData w)) w
    /\ queries w' = queries w.
Proof.
  intros Hrq. unfold Helpers.SetupRequest, Request.NewBaseRequest. unfold_m. rewrite Hrq.
  eexists. split; [reflexivity |]. simpl. split; [apply lookup_insert_eq |].
  split; [intros s Hs; now apply lookup_insert_ne |].
  split; [now repeat split | reflexivity].
Qed.

Lemma SetupRequest_installs_witness :
  exists w',
    Helpers.SetupRequest 1 Demo.ctx (Demo.worldWith Demo.store Demo.widgets true)
    = Ok ((1%positive, None), w')
    /\ requestData w' !! Session Demo.ctx
       = Some (mkBaseRequest 1 (ReqHeader Demo.widgets) (Session Demo.ctx)
                 (ReqBody Demo.widgets) false None None None None)
    /\ (forall s, s <> Session Demo.ctx ->
                  requestData w' !! s
                  = requestData (Demo.worldWith Demo.store Demo.widgets true) !! s)
    /\ frame (setRequestData w' (requestData (Demo.worldWith Demo.store Demo.widgets true)))
         (Demo.worldWith Demo.store Demo.widgets true)
    /\ queries w' = queries (Demo.worldWith Demo.store Demo.widgets true).
Proof.
  apply (SetupRequest_installs 1 Demo.ctx (Demo.worldWith Demo.store Demo.widgets true)
           Demo.widgets).
  reflexivity.
Defined.

(** X15. A session that is not in the table: the filters after the response
    return the response as it is and change nothing; [PreflightCorsSupport]
    and [CleanRequest], which go through the pointer of the table without a
    nil check, panic. *)
Theorem absent_session (resp : option Response) (r : positive) (ctx : ProxyCtx) (w : World)
    (rq : Request) (url_Parse : string -> option URL) :
  requestData w !! Session ctx = None ->
  heap w !! r = Some rq ->
  Helpers.PostflightCorsSupport resp ctx w = Ok (resp, w)
  /\ Helpers.SetupResponse resp ctx w = Ok (resp, w)
  /\ Helpers.SaveStopLightRequest resp ctx w = Ok (resp, w)
  /\ HelpersDashboard.SaveStopLightRequest resp ctx w = Ok (resp, w)
  /\ Helpers.PreflightCorsSupport r ctx w = Panic nilDeref
  /\ Helpers.CleanRequest url_Parse r ctx w = Panic nilDeref.
Proof.
  intros Hs Hrq.
  unfold Helpers.PostflightCorsSupport, Helpers.SetupResponse, Helpers.SaveStopLightRequest,
    HelpersDashboard.SaveStopLightRequest, HelpersDashboard.isValidResponse,
    Helpers.PreflightCorsSupport, Helpers.CleanRequest.
  unfold_m. rewrite Hs, Hrq.
  repeat split; try (now destruct resp).
  destruct (String.eqb (Method rq) "OPTIONS"); cbv beta; now rewrite Hs.
Qed.

Lemma absent_session_witness :
  Helpers.PostflightCorsSupport (Some Demo.jsonResponse) Demo.ctx
    (Demo.world Demo.store Demo.widgets)
  = Ok (Some Demo.jsonResponse, Demo.world Demo.store Demo.widgets)
  /\ Helpers.SetupResponse (Some Demo.jsonResponse) Demo.ctx (Demo.world Demo.store Demo.widgets)
     = Ok (Some Demo.jsonResponse, Demo.world Demo.store Demo.widgets)
  /\ Helpers.SaveStopLightRequest (Some Demo.jsonResponse) Demo.ctx
       (Demo.world Demo.store Demo.widgets)
     = Ok (Some Demo.jsonResponse, Demo.world Demo.store Demo.widgets)
  /\ HelpersDashboard.SaveStopLightRequest (Some Demo.jsonResponse) Demo.ctx
       (Demo.world Demo.store Demo.widgets)
     = Ok (Some Demo.jsonResponse, Demo.world Demo.store Demo.widgets)
  /\ Helpers.PreflightCorsSupport 1 Demo.ctx (Demo.world Demo.store Demo.widgets)
     = Panic nilDeref
  /\ Helpers.CleanRequest Demo.parse 1 Demo.ctx (Demo.world Demo.store Demo.widgets)
     = Panic nilDeref.
Proof.
  apply (absent_session (Some Demo.jsonResponse) 1 Demo.ctx (Demo.world Demo.store Demo.widgets)
           Demo.widgets Demo.parse);
    reflexivity.
Defined.

Lemma Get_Set_eq (h : Header) (k v : string) : Get (Set_ h k v) k = v.
Proof. unfold Get, Set_. now rewrite lookup_insert_eq. Qed.

Lemma Get_Set_ne (h : Header) (k k' v : string) :
  CanonicalMIMEHeaderKey k <> CanonicalMIMEHeaderKey k' ->
  Get (Set_ h k v) k' = Get h k'.
Proof. intros Hne. unfold Get, Set_. now rewrite lookup_insert_ne. Qed.

Lemma lookup_Set_ne (h : Header) (k v key : string) :
  key <> CanonicalMIMEHeaderKey k -> Set_ h k v !! key = h !! key.
Proof. intros Hne. unfold Set_. now rewrite lookup_insert_ne by congruence. Qed.

(** X16. On an [OPTIONS] request [PreflightCorsSupport] answers at once: a
    response of status 200 with the five CORS headers, the allowed headers
    being the ones the request asks for. It sets the skip flag of the
    session and does nothing else: no look-up, no change to the request. *)
Theorem PreflightCorsSupport_options (r : positive) (ctx : ProxyCtx) (w : World)
    (rq : Request) (br : BaseRequest) :
  heap w !! r = Some rq ->
  Method rq = "OPTIONS" ->
  requestData w !! Session ctx = Some br ->
  exists rsp,
    Helpers.PreflightCorsSupport r ctx w
    = Ok ((r, Some rsp),
          setRequestData w (<[Session ctx := setSkip br true]> (requestData w)))
    /\ StatusCode rsp = 200
    /\ Get (RespHeader rsp) "Access-Control-Allow-Credentials" = "true"
    /\ Get (RespHeader rsp) "Access-Control-Allow-Headers"
       = Get (ReqHeader rq) "Access-Control-Request-Headers"
    /\ Get (RespHeader rsp) "Access-Control-Allow-Methods" = Helpers.allowedCorsMethods
    /\ Get (RespHeader rsp) "Access-Control-Allow-Origin" = "*"
    /\ Get (RespHeader rsp) "Access-Control-Expose-Headers" = "Content-Length".
Proof.
  intros Hrq Hm Hs. unfold Helpers.PreflightCorsSupport. unfold_m.
  rewrite Hrq, Hm. change (String.eqb "OPTIONS" "OPTIONS") with true. cbv beta iota.
  rewrite Hs. eexists. split; [reflexivity |]. split; [reflexivity |].
  simpl RespHeader.
  repeat split;
    repeat first [ apply Get_Set_eq
                 | rewrite Get_Set_ne by (vm_compute; discriminate) ].
Qed.

Lemma PreflightCorsSupport_options_witness :
  exists rsp,
    Helpers.PreflightCorsSupport 1 Demo.ctx
      (Demo.worldWith Demo.store (Demo.request "OPTIONS" "/acme/widgets" ∅) false)
    = Ok ((1%positive, Some rsp),
          setRequestData
            (Demo.worldWith Demo.store (Demo.request "OPTIONS" "/acme/widgets" ∅) false)
            (<[Session Demo.ctx :=
                 setSkip (Demo.base (Demo.request "OPTIONS" "/acme/widgets" ∅) false) true]>
               (requestData
                  (Demo.worldWith Demo.store (Demo.request "OPTIONS" "/acme/widgets" ∅) false))))
    /\ StatusCode rsp = 200
    /\ Get (RespHeader rsp) "Access-Control-Allow-Credentials" = "true"
    /\ Get (RespHeader rsp) "Access-Control-Allow-Headers"
       = Get (ReqHeader (Demo.request "OPTIONS" "/acme/widgets" ∅))
           "Access-Control-Request-Headers"
    /\ Get (RespHeader rsp) "Access-Control-Allow-Methods" = Helpers.allowedCorsMethods
    /\ Get (RespHeader rsp) "Access-Control-Allow-Origin" = "*"
    /\ Get (RespHeader rsp) "Access-Control-Expose-Headers" = "Content-Length".
Proof.
  apply (PreflightCorsSupport_options 1 Demo.ctx
           (Demo.worldWith Demo.store (Demo.request "OPTIONS" "/acme/widgets" ∅) false)
           (Demo.request "OPTIONS" "/acme/widgets" ∅)
           (Demo.base (Demo.request "OPTIONS" "/acme/widgets" ∅) false));
    reflexivity.
Defined.

(** X17. On a request that is not [OPTIONS], [PreflightCorsSupport] returns
    no response. Without a resolved environment nothing is changed; with one,
    the five CORS headers are set on the request itself, the allowed headers
    being the ones it asks for, and every other header is left as it is. *)
Theorem PreflightCorsSupport_request (r : positive) (ctx : ProxyCtx) (w w1 : World)
    (rq : Request) (br br' : BaseRequest) (e : Environment) :
  heap w !! r = Some rq ->
  Method rq <> "OPTIONS" ->
  requestData w !! Session ctx = Some br ->
  Request.GetEnvironment br w = Ok ((e, br'), w1) ->
  (Slug e = "" -> Helpers.PreflightCorsSupport r ctx w = Ok ((r, None), w1))
  /\ (Slug e <> "" ->
      exists h,
        Helpers.PreflightCorsSupport r ctx w
        = Ok ((r, None), setHeap w1 (<[r := setReqHeader rq h]> (heap w1)))
        /\ Get h "Access-Control-Allow-Credentials" = "true"
        /\ Get h "Access-Control-Allow-Headers"
           = Get (ReqHeader rq) "Access-Control-Request-Headers"
        /\ Get h "Access-Control-Allow-Methods" = Helpers.allowedCorsMethods
        /\ Get h "Access-Control-Allow-Origin" = "*"
        /\ Get h "Access-Control-Expose-Headers" = "Content-Length"
        /\ forall key, key ∉ corsKeys -> h !! key = ReqHeader rq !! key).
Proof.
  intros Hrq Hm Hs Hge.
  assert (Hrun :
    Helpers.PreflightCorsSupport r ctx w
    = if String.eqb (Slug e) ""
      then Ok ((r, None), w1)
      else Ok ((r, None),
               setHeap w1
                 (<[r := setReqHeader rq
                           (Set_ (Set_ (Set_ (Set_ (Set_ (ReqHeader rq)
                              "Access-Control-Allow-Credentials" "true")
                              "Access-Control-Allow-Headers"
                              (Get (Set_ (ReqHeader rq) "Access-Control-Allow-Credentials" "true")
                                 "Access-Control-Request-Headers"))
                              "Access-Control-Allow-Methods" Helpers.allowedCorsMethods)
                              "Access-Control-Allow-Origin" "*")
                              "Access-Control-Expose-Headers" "Content-Length")]>
                    (heap w1)))).
  { unfold Helpers.PreflightCorsSupport.
    unfold bind at 1. unfold deref at 1. rewrite Hrq.
    apply String.eqb_neq in Hm. rewrite Hm.
    unfold bind at 1. unfold lookupSession, gets. rewrite Hs.
    rewrite (bind_ok _ _ _ _ _ Hge).
    destruct (GetEnvironment_inv _ _ _ _ _ Hge) as (-> & Hfr & _ & _).
    assert (Hw : setRequestData w1 (<[Session ctx := br]> (requestData w1)) = w1).
    { apply putBase_same. destruct Hfr as (_ & _ & -> & _). exact Hs. }
    unfold bind at 1. unfold putBase, modify. rewrite Hw.
    now destruct (String.eqb (Slug e) ""). }
  rewrite Hrun. split.
  - intros ->. reflexivity.
  - intros Hne. rewrite (eqb_empty_false _ Hne).
    eexists. split; [reflexivity |].
    do 5 (split; [repeat first [ rewrite Get_Set_eq
                               | rewrite Get_Set_ne by (vm_compute; discriminate) ];
                  reflexivity |]).
    intros key Hkey. unfold corsKeys in Hkey.
    rewrite !lookup_Set_ne; [reflexivity | | | | |];
      vm_compute CanonicalMIMEHeaderKey; intros ->; apply Hkey; set_solver.
Qed.

Lemma PreflightCorsSupport_request_witness :
  exists h,
    Helpers.PreflightCorsSupport 1 Demo.ctx (Demo.worldWith Demo.store Demo.jsonWidgets false)
    = Ok ((1%positive, None),
          setHeap (setQueries (Demo.worldWith Demo.store Demo.jsonWidgets false)
                     [EnvBySlug "acme"])
            (<[1%positive := setReqHeader Demo.jsonWidgets h]>
               (heap (setQueries (Demo.worldWith Demo.store Demo.jsonWidgets false)
                        [EnvBySlug "acme"]))))
    /\ Get h "Access-Control-Allow-Credentials" = "true"
    /\ Get h "Access-Control-Allow-Headers"
       = Get (ReqHeader Demo.jsonWidgets) "Access-Control-Request-Headers"
    /\ Get h "Access-Control-Allow-Methods" = Helpers.allowedCorsMethods
    /\ Get h "Access-Control-Allow-Origin" = "*"
    /\ Get h "Access-Control-Expose-Headers" = "Content-Length"
    /\ forall key, key ∉ corsKeys -> h !! key = ReqHeader Demo.jsonWidgets !! key.
Proof.
  refine (proj2 (PreflightCorsSupport_request 1 Demo.ctx
                   (Demo.worldWith Demo.store Demo.jsonWidgets false)
                   (setQueries (Demo.worldWith Demo.store Demo.jsonWidgets false)
                      [EnvBySlug "acme"])
                   Demo.jsonWidgets (Demo.base Demo.jsonWidgets false)
                   (Demo.base Demo.jsonWidgets false) Demo.acme eq_refl _ eq_refl eq_refl) _);
    discriminate.
Defined.

(** ** Headers of the response and of the request *)

(** X18. [SetupResponse], on a session whose skip flag is unset, appends the
    address of the client to [X-Forwarded-For] (separated by [", "]) when
    the response has one, and sets it otherwise; it sets the marker
    [X-StopLight-Request] and leaves the status, the body, every other
    header and the whole state as they are. *)
Theorem SetupResponse_forwarded_for (rsp : Response) (ctx : ProxyCtx) (w : World)
    (br : BaseRequest) (creq : Request) :
  requestData w !! Session ctx = Some br ->
  Skip br = false ->
  heap w !! Req ctx = Some creq ->
  exists h,
    Helpers.SetupResponse (Some rsp) ctx w
    = Ok (Some (mkResponse (StatusCode rsp) h (RespBody rsp)), w)
    /\ Get h "X-Forwarded-For"
       = (if String.eqb (Get (RespHeader rsp) "X-Forwarded-For") ""
          then RemoteAddr creq
          else Get (RespHeader rsp) "X-Forwarded-For" +:+ ", " +:+ RemoteAddr creq)
    /\ Get h "X-StopLight-Request" = "true"
    /\ forall key, key <> "X-Forwarded-For" -> key <> "X-Stoplight-Request" ->
                   h !! key = RespHeader rsp !! key.
Proof.
  intros Hs Hskip Hreq. unfold Helpers.SetupResponse. unfold_m.
  rewrite Hs, Hskip, Hreq. eexists. split; [reflexivity |].
  split; [| split].
  - rewrite Get_Set_ne by (vm_compute; discriminate). rewrite Get_Set_eq.
    now destruct (String.eqb (Get (RespHeader rsp) "X-Forwarded-For") "").
  - apply Get_Set_eq.
  - intros key H1 H2. now rewrite !lookup_Set_ne.
Qed.

Lemma SetupResponse_forwarded_for_witness :
  exists h,
    Helpers.SetupResponse (Some Sample.forwarded) Demo.ctx
      (Demo.worldWith Demo.store Demo.widgets false)
    = Ok (Some (mkResponse (StatusCode Sample.forwarded) h (RespBody Sample.forwarded)),
          Demo.worldWith Demo.store Demo.widgets false)
    /\ Get h "X-Forwarded-For"
       = (if String.eqb (Get (RespHeader Sample.forwarded) "X-Forwarded-For") ""
          then RemoteAddr Demo.widgets
          else Get (RespHeader Sample.forwarded) "X-Forwarded-For"
               +:+ ", " +:+ RemoteAddr Demo.widgets)
    /\ Get h "X-StopLight-Request" = "true"
    /\ forall key, key <> "X-Forwarded-For" -> key <> "X-Stoplight-Request" ->
                   h !! key = RespHeader Sample.forwarded !! key.
Proof.
  apply (SetupResponse_forwarded_for Sample.forwarded Demo.ctx
           (Demo.worldWith Demo.store Demo.widgets false)
           (Demo.base Demo.widgets false) Demo.widgets);
    reflexivity.
Defined.

Lemma Get_Del_eq (h : Header) (k : string) : Get (Del h k) k = "".
Proof. unfold Get, Del. now rewrite lookup_delete_eq. Qed.

Lemma Get_Del_ne (h : Header) (k k' : string) :
  CanonicalMIMEHeaderKey k <> CanonicalMIMEHeaderKey k' ->
  Get (Del h k) k' = Get h k'.
Proof. intros Hne. unfold Get, Del. now rewrite lookup_delete_ne. Qed.

Lemma lookup_Del_ne (h : Header) (k key : string) :
  key <> CanonicalMIMEHeaderKey k -> Del h k !! key = h !! key.
Proof. intros Hne. unfold Del. now rewrite lookup_delete_ne by congruence. Qed.

(** X19. [Cleanup] takes the two control headers [X-StopLight-Url-Host] and
    [X-StopLight-Api] off the request of the context and removes the session
    of the context from the table. Every other header of the request and
    every other session stay as they are, and the response is returned
    untouched. *)
Theorem Cleanup_scrubs (resp : option Response) (ctx : ProxyCtx) (w : World) (creq : Request) :
  heap w !! Req ctx = Some creq ->
  exists w' h,
    Helpers.Cleanup resp ctx w = Ok (resp, w')
    /\ heap w' !! Req ctx = Some (setReqHeader creq h)
    /\ Get h "X-StopLight-Url-Host" = ""
    /\ Get h "X-StopLight-Api" = ""
    /\ (forall key, key <> "X-Stoplight-Url-Host" -> key <> "X-Stoplight-Api" ->
                    h !! key = ReqHeader creq !! key)
    /\ requestData w' !! Session ctx = None
    /\ (forall s, s <> Session ctx -> requestData w' !! s = requestData w !! s)
    /\ (forall p, p <> Req ctx -> heap w' !! p = heap w !! p).
Proof.
  intros Hreq. unfold Helpers.Cleanup. unfold_m. rewrite Hreq.
  eexists _, _. split; [reflexivity |]. simpl.
  split; [apply lookup_insert_eq |].
  split; [rewrite Get_Del_ne by (vm_compute; discriminate); apply Get_Del_eq |].
  split; [apply Get_Del_eq |].
  split; [intros key H1 H2; now rewrite !lookup_Del_ne |].
  split; [apply lookup_delete_eq |].
  split; [intros s Hs; now apply lookup_delete_ne |].
  intros p Hp. now apply lookup_insert_ne.
Qed.

Lemma Cleanup_scrubs_witness :
  exists w' h,
    Helpers.Cleanup None Demo.ctx (Demo.worldWith Demo.store Sample.controlled false)
    = Ok (None, w')
    /\ heap w' !! Req Demo.ctx = Some (setReqHeader Sample.controlled h)
    /\ Get h "X-StopLight-Url-Host" = ""
    /\ Get h "X-StopLight-Api" = ""
    /\ (forall key, key <> "X-Stoplight-Url-Host" -> key <> "X-Stoplight-Api" ->
                    h !! key = ReqHeader Sample.controlled !! key)
    /\ requestData w' !! Session Demo.ctx = None
    /\ (forall s, s <> Session Demo.ctx ->
                  requestData w' !! s
                  = requestData (Demo.worldWith Demo.store Sample.controlled false) !! s)
    /\ (forall p, p <> Req Demo.ctx ->
                  heap w' !! p = heap (Demo.worldWith Demo.store Sample.controlled false) !! p).
Proof.
  apply (Cleanup_scrubs None Demo.ctx (Demo.worldWith Demo.store Sample.controlled false)
           Sample.controlled).
  reflexivity.
Defined.

(** ** Retargeting the request: [CleanRequest] *)

(** What [CleanRequest] does to the request at [r], given the target [u]. *)
Lemma CleanRequest_run (url_Parse : string -> option URL) (r : positive) (ctx : ProxyCtx)
    (w : World) (br : BaseRequest) (rq : Request) (slug : string) :
  requestData w !! Session ctx = Some br ->
  env br = None ->
  HttpRequest br = r ->
  heap w !! r = Some rq ->
  Request.slugFromUrl (RequestURI (Url_ rq)) = Ok slug ->
  Helpers.CleanRequest url_Parse r ctx w
  = match
      (if String.eqb (Get (ReqHeaders br) "X-StopLight-Url-Host") ""
       then if String.eqb (Slug (pathThenHost (db w) slug (UHost (Url_ rq)))) ""
            then Some (Url_ rq)
            else url_Parse
                   ((if Ssl (pathThenHost (db w) slug (UHost (Url_ rq)))
                     then "https://" else "http://")
                    +:+ Url (pathThenHost (db w) slug (UHost (Url_ rq))))
       else url_Parse (Get (ReqHeaders br) "X-StopLight-Url-Host"))
    with
    | None => Panic nilDeref
    | Some u =>
        Ok ((r, None),
            setHeap
              (setQueries w
                 (queries w ++ lookupsOf (db w) slug (UHost (Url_ rq))
                  ++ (if String.eqb (Get (ReqHeaders br) "X-StopLight-Url-Host") ""
                      then lookupsOf (db w) slug (UHost (Url_ rq)) else [])))
              (<[r := mkRequest (Method rq)
                        (mkURL (Scheme u) (Opaque (Url_ rq)) (UHost u)
                           (Helpers.urlWithoutEnvironment
                              (pathThenHost (db w) slug (UHost (Url_ rq))) (Path (Url_ rq)))
                           (RawPath (Url_ rq)) (ForceQuery (Url_ rq)) (RawQuery (Url_ rq)))
                        (ReqHeader rq) (UHost u) (RemoteAddr rq) "" (ReqBody rq)]>
                 (heap w)))
    end.
Proof.
  intros Hs Henv <- Hrq Hslug. unfold Helpers.CleanRequest.
  unfold bind at 1. unfold lookupSession, gets. rewrite Hs.
  rewrite (bind_ok _ _ _ _ _ (GetEnvironment_nil br w rq slug Henv Hrq Hslug)).
  set (e := pathThenHost (db w) slug (UHost (Url_ rq))).
  set (qs := lookupsOf (db w) slug (UHost (Url_ rq))).
  set (w1 := setQueries w (queries w ++ qs)).
  assert (Hge1 : Request.GetEnvironment br w1
                 = Ok ((e, br), setQueries w (queries w ++ qs ++ qs))).
  { rewrite (GetEnvironment_nil br w1 rq slug Henv Hrq Hslug).
    unfold w1, setQueries. simpl. now rewrite <- app_assoc. }
  unfold Request.GetOrigin.
  destruct (String.eqb (Get (ReqHeaders br) "X-StopLight-Url-Host") "").
  - rewrite (bind_ok _ _ w1 (setQueries w (queries w ++ qs ++ qs))
               (if String.eqb (Slug e) "" then Some (Url_ rq)
                else url_Parse ((if Ssl e then "https://" else "http://") +:+ Url e), br)).
    2:{ rewrite (bind_ok _ _ _ _ _ Hge1).
        destruct (String.eqb (Slug e) ""); [| now destruct (Ssl e)].
        unfold_m. simpl. now rewrite Hrq. }
    unfold_m. simpl. rewrite Hrq. rewrite insert_id by exact Hs.
    destruct (if String.eqb (Slug e) "" then Some (Url_ rq) else _) as [u|]; reflexivity.
  - rewrite (bind_ok _ _ w1 w1
               (url_Parse (Get (ReqHeaders br) "X-StopLight-Url-Host"), br)) by reflexivity.
    unfold_m. simpl. rewrite Hrq. rewrite insert_id by exact Hs. rewrite app_nil_r.
    destruct (url_Parse _) as [u|]; reflexivity.
Qed.

(** X20. [CleanRequest] drops the error of [url.Parse]: when the target, the
    override header or the URL built from the environment, does not parse,
    the nil URL is dereferenced and the filter panics. *)
Theorem CleanRequest_unparsable_target (url_Parse : string -> option URL) (r : positive)
    (ctx : ProxyCtx) (w : World) (br : BaseRequest) (rq : Request) (slug : string) :
  requestData w !! Session ctx = Some br ->
  env br = None ->
  HttpRequest br = r ->
  heap w !! r = Some rq ->
  Request.slugFromUrl (RequestURI (Url_ rq)) = Ok slug ->
  (Get (ReqHeaders br) "X-StopLight-Url-Host" <> "" ->
   url_Parse (Get (ReqHeaders br) "X-StopLight-Url-Host") = None ->
   Helpers.CleanRequest url_Parse r ctx w = Panic nilDeref)
  /\ (Get (ReqHeaders br) "X-StopLight-Url-Host" = "" ->
      Slug (pathThenHost (db w) slug (UHost (Url_ rq))) <> "" ->
      url_Parse ((if Ssl (pathThenHost (db w) slug (UHost (Url_ rq)))
                  then "https://" else "http://")
                 +:+ Url (pathThenHost (db w) slug (UHost (Url_ rq)))) = None ->
      Helpers.CleanRequest url_Parse r ctx w = Panic nilDeref).
Proof.
  intros Hs Henv Hr Hrq Hslug.
  rewrite (CleanRequest_run url_Parse r ctx w br rq slug Hs Henv Hr Hrq Hslug). split.
  - intros Hh Hp. now rewrite (eqb_empty_false _ Hh), Hp.
  - intros Hh He Hp. now rewrite Hh, String.eqb_refl, (eqb_empty_false _ He), Hp.
Qed.

Lemma urlWithoutEnvironment_no_slug (e : Environment) (p : string) :
  Slug e = "" -> p <> "" -> byteAt p 1 <> Some "/"%char ->
  Helpers.urlWithoutEnvironment e p = p.
Proof.
  intros He Hp Hb. unfold Helpers.urlWithoutEnvironment. rewrite He.
  change (Replace1 p "" "") with p.
  rewrite bool_decide_eq_false_2 by exact Hb. rewrite andb_false_r.
  destruct (Z.eqb_spec (len p) 0) as [H0|]; [| reflexivity].
  now apply len_zero in H0.
Qed.

(** X21. Pass-through: without an override header and without a resolved
    environment, [CleanRequest] keeps the URL of the request (for a path
    that is not empty and whose second byte is not ["/"]), the method, the
    headers and the body; it sets [Host] to the host of the URL and empties
    [RequestURI]. *)
Theorem CleanRequest_pass_through (url_Parse : string -> option URL) (r : positive)
    (ctx : ProxyCtx) (w : World) (br : BaseRequest) (rq : Request) (slug : string) :
  requestData w !! Session ctx = Some br ->
  env br = None ->
  HttpRequest br = r ->
  heap w !! r = Some rq ->
  Request.slugFromUrl (RequestURI (Url_ rq)) = Ok slug ->
  Get (ReqHeaders br) "X-StopLight-Url-Host" = "" ->
  Slug (pathThenHost (db w) slug (UHost (Url_ rq))) = "" ->
  Path (Url_ rq) <> "" ->
  byteAt (Path (Url_ rq)) 1 <> Some "/"%char ->
  exists w',
    Helpers.CleanRequest url_Parse r ctx w = Ok ((r, None), w')
    /\ heap w' !! r
       = Some (mkRequest (Method rq) (Url_ rq) (ReqHeader rq) (UHost (Url_ rq))
                 (RemoteAddr rq) "" (ReqBody rq))
    /\ requestData w' = requestData w.
Proof.
  intros Hs Henv Hr Hrq Hslug Hh He Hp Hb.
  rewrite (CleanRequest_run url_Parse r ctx w br rq slug Hs Henv Hr Hrq Hslug).
  rewrite Hh, He, !String.eqb_refl.
  rewrite (urlWithoutEnvironment_no_slug _ _ He Hp Hb).
  eexists. split; [reflexivity |]. simpl. rewrite lookup_insert_eq.
  split; [| reflexivity]. now destruct rq as [m [sc op ho pa rp fq qu] h hst ra uri b].
Qed.

Lemma CleanRequest_pass_through_witness :
  exists w',
    Helpers.CleanRequest Demo.parse 1 Demo.ctx (Demo.worldWith Demo.store Sample.nobody false)
    = Ok ((1%positive, None), w')
    /\ heap w' !! 1%positive
       = Some (mkRequest (Method Sample.nobody) (Url_ Sample.nobody) (ReqHeader Sample.nobody)
                 (UHost (Url_ Sample.nobody)) (RemoteAddr Sample.nobody) ""
                 (ReqBody Sample.nobody))
    /\ requestData w' = requestData (Demo.worldWith Demo.store Sample.nobody false).
Proof.
  apply (CleanRequest_pass_through Demo.parse 1 Demo.ctx
           (Demo.worldWith Demo.store Sample.nobody false)
           (Demo.base Sample.nobody false) Sample.nobody "nobody");
    try reflexivity; discriminate.
Defined.

Lemma urlWithoutEnvironment_rooted_rest (e : Environment) (rest : string) :
  HasPrefix rest "/" = false ->
  Helpers.urlWithoutEnvironment e ("/" +:+ Slug e +:+ "/" +:+ rest) = "/" +:+ rest.
Proof.
  intros Hrest. unfold Helpers.urlWithoutEnvironment. rewrite Replace1_slash_slug.
  change ("/" +:+ "/" +:+ rest) with (String "/"%char (String "/"%char rest)).
  unfold len, byteAt. simpl String.length. simpl String.get.
  rewrite bool_decide_eq_true_2 by reflexivity.
  destruct (Z.ltb_spec 1 (Z.of_nat (S (S (String.length rest))))); [reflexivity | lia].
Qed.

(** X22. Retargeting: with a resolved environment and a path
    [/slug/rest], [CleanRequest] gives the request the scheme and the host of
    the target (the override header when there is one, otherwise
    [https://] or [http://] and the upstream host of the environment), the
    path [/rest], the same query, and the host of the target as [Host]; the
    other fields of the URL, the method, the headers and the body stay, and
    so does the session table. *)
Theorem CleanRequest_retargets (url_Parse : string -> option URL) (r : positive)
    (ctx : ProxyCtx) (w : World) (br : BaseRequest) (rq : Request) (slug rest : string)
    (u : URL) :
  requestData w !! Session ctx = Some br ->
  env br = None ->
  HttpRequest br = r ->
  heap w !! r = Some rq ->
  Request.slugFromUrl (RequestURI (Url_ rq)) = Ok slug ->
  Slug (pathThenHost (db w) slug (UHost (Url_ rq))) <> "" ->
  Path (Url_ rq) = "/" +:+ Slug (pathThenHost (db w) slug (UHost (Url_ rq))) +:+ "/" +:+ rest ->
  HasPrefix rest "/" = false ->
  (if String.eqb (Get (ReqHeaders br) "X-StopLight-Url-Host") ""
   then url_Parse ((if Ssl (pathThenHost (db w) slug (UHost (Url_ rq)))
                    then "https://" else "http://")
                   +:+ Url (pathThenHost (db w) slug (UHost (Url_ rq))))
   else url_Parse (Get (ReqHeaders br) "X-StopLight-Url-Host")) = Some u ->
  exists w',
    Helpers.CleanRequest url_Parse r ctx w = Ok ((r, None), w')
    /\ heap w' !! r
       = Some (mkRequest (Method rq)
                 (mkURL (Scheme u) (Opaque (Url_ rq)) (UHost u) ("/" +:+ rest)
                    (RawPath (Url_ rq)) (ForceQuery (Url_ rq)) (RawQuery (Url_ rq)))
                 (ReqHeader rq) (UHost u) (RemoteAddr rq) "" (ReqBody rq))
    /\ requestData w' = requestData w.
Proof.
  intros Hs Henv Hr Hrq Hslug He Hp Hrest Hu.
  rewrite (CleanRequest_run url_Parse r ctx w br rq slug Hs Henv Hr Hrq Hslug).
  rewrite (eqb_empty_false _ He), Hu, Hp.
  rewrite (urlWithoutEnvironment_rooted_rest _ _ Hrest).
  eexists. split; [reflexivity |]. simpl. now rewrite lookup_insert_eq.
Qed.

Lemma CleanRequest_unparsable_target_witness :
  Helpers.CleanRequest Demo.parse 1 Demo.ctx (Demo.worldWith Demo.store Sample.badOverride false)
  = Panic nilDeref
  /\ Helpers.CleanRequest (fun _ => None) 1 Demo.ctx
       (Demo.worldWith Demo.store Demo.widgets false)
     = Panic nilDeref.
Proof.
  split.
  - apply (proj1 (CleanRequest_unparsable_target Demo.parse 1 Demo.ctx
                    (Demo.worldWith Demo.store Sample.badOverride false)
                    (Demo.base Sample.badOverride false) Sample.badOverride "acme"
                    eq_refl eq_refl eq_refl eq_refl eq_refl));
      [vm_compute; discriminate | reflexivity].
  - apply (proj2 (CleanRequest_unparsable_target (fun _ => None) 1 Demo.ctx
                    (Demo.worldWith Demo.store Demo.widgets false)
                    (Demo.base Demo.widgets false) Demo.widgets "acme"
                    eq_refl eq_refl eq_refl eq_refl eq_refl));
      [reflexivity | discriminate | reflexivity].
Defined.

Lemma CleanRequest_retargets_witness :
  exists w',
    Helpers.CleanRequest Demo.parse 1 Demo.ctx (Demo.worldWith Demo.store Sample.widgetsQuery false)
    = Ok ((1%positive, None), w')
    /\ heap w' !! 1%positive
       = Some (mkRequest (Method Sample.widgetsQuery)
                 (mkURL (Scheme (mkURL "http" "" "api.internal:9000" "" "" false ""))
                    (Opaque (Url_ Sample.widgetsQuery))
                    (UHost (mkURL "http" "" "api.internal:9000" "" "" false ""))
                    ("/" +:+ "widgets") (RawPath (Url_ Sample.widgetsQuery))
                    (ForceQuery (Url_ Sample.widgetsQuery))
                    (RawQuery (Url_ Sample.widgetsQuery)))
                 (ReqHeader Sample.widgetsQuery)
                 (UHost (mkURL "http" "" "api.internal:9000" "" "" false ""))
                 (RemoteAddr Sample.widgetsQuery) "" (ReqBody Sample.widgetsQuery))
    /\ requestData w' = requestData (Demo.worldWith Demo.store Sample.widgetsQuery false).
Proof.
  apply (CleanRequest_retargets Demo.parse 1 Demo.ctx
           (Demo.worldWith Demo.store Sample.widgetsQuery false)
           (Demo.base Sample.widgetsQuery false) Sample.widgetsQuery "acme" "widgets"
           (mkURL "http" "" "api.internal:9000" "" "" false ""));
    try reflexivity. discriminate.
Defined.

(** ** The relevance decision of helpers.go and the start of the capture *)

Lemma first_digit_range :
  forallb (fun k => Bool.eqb
                      (bool_decide (byteAt (Itoa (Z.of_nat k + 100)) 0 = Some "2"%char))
                      ((200 <=? Z.of_nat k + 100) && (Z.of_nat k + 100 <=? 299)))
    (seq 0 500) = true.
Proof. vm_compute. reflexivity. Qed.

(** For the status codes of HTTP, the decimal form starts with ["2"] on the
    codes 200 to 299 and on no other. *)
Lemma first_digit_2xx (n : Z) :
  100 <= n <= 599 ->
  bool_decide (byteAt (Itoa n) 0 = Some "2"%char) = (200 <=? n) && (n <=? 299).
Proof.
  intros Hn. assert (H := first_digit_range).
  rewrite List.forallb_forall in H.
  specialize (H (Z.to_nat (n - 100))).
  replace (Z.of_nat (Z.to_nat (n - 100)) + 100) with n in H by lia.
  apply Bool.eqb_prop, H. apply in_seq. lia.
Qed.

(** X23. For a [GET] that is no script request, carries no
    [X-StopLight-Api] header and no ignore directive, and whose response
    does not say [json] or [xml], the decision is made by the status alone:
    capturable exactly when the status is neither 304 nor one of 200 to 299. *)
Theorem isValidResponse_by_status (req : Request) (rsp : Response) :
  Get (ReqHeader req) "X-StopLight-Ignore" <> "true" ->
  Method req = "GET" ->
  Get (ReqHeader req) "X-Requested-With" = "" ->
  Get (ReqHeader req) "X-StopLight-Api" = "" ->
  Contains (Get (RespHeader rsp) "Content-Type") "json" = false ->
  Contains (Get (RespHeader rsp) "Content-Type") "xml" = false ->
  100 <= StatusCode rsp <= 599 ->
  Helpers.isValidResponse req (Some rsp)
  = negb ((StatusCode rsp =? 304) || ((200 <=? StatusCode rsp) && (StatusCode rsp <=? 299))).
Proof.
  intros Hi Hm Ha Hs Hj Hx Hn. unfold Helpers.isValidResponse.
  apply String.eqb_neq in Hi. rewrite Hi, Hm, Ha, Hs, Hj, Hx.
  rewrite (first_digit_2xx _ Hn). simpl. now rewrite !orb_false_r.
Qed.

Lemma isValidResponse_by_status_witness :
  Helpers.isValidResponse Demo.widgets (Some (mkResponse 404 ∅ "not found"))
  = negb ((StatusCode (mkResponse 404 ∅ "not found") =? 304)
          || ((200 <=? StatusCode (mkResponse 404 ∅ "not found"))
              && (StatusCode (mkResponse 404 ∅ "not found") <=? 299))).
Proof.
  apply (isValidResponse_by_status Demo.widgets (mkResponse 404 ∅ "not found"));
    try reflexivity; try discriminate. simpl. lia.
Defined.

(** What [SaveStopLightRequest] does once the API of the request is known. *)
Lemma SaveStopLightRequest_run (resp : option Response) (ctx : ProxyCtx) (w w1 : World)
    (br br' : BaseRequest) (a : Api) (rq : Request) :
  requestData w !! Session ctx = Some br ->
  Skip br = false ->
  Request.GetApi br w = Ok ((a, br'), w1) ->
  ApiIdent a <> "" ->
  heap w !! HttpRequest br = Some rq ->
  exists e w2,
    frame w w2
    /\ Helpers.SaveStopLightRequest resp ctx w
       = if Helpers.isValidResponse rq resp
         then Ok (Some (default (NewResponse (Req ctx) ContentTypeText StatusServiceUnavailable
                                   "Service not available. Is the server running?") resp),
                  setSpawned w2
                    (spawned w2
                     ++ [CaptureTask br e
                           (default (NewResponse (Req ctx) ContentTypeText
                                       StatusServiceUnavailable
                                       "Service not available. Is the server running?") resp)
                           (RespBody
                              (default (NewResponse (Req ctx) ContentTypeText
                                          StatusServiceUnavailable
                                          "Service not available. Is the server running?")
                                 resp))]))
         else Ok (resp, w2).
Proof.
  intros Hs Hskip Hapi Ha Hrq. unfold Helpers.SaveStopLightRequest.
  unfold bind at 1. unfold lookupSession, gets. rewrite Hs, Hskip.
  rewrite (bind_ok _ _ _ _ _ Hapi).
  destruct (GetApi_inv _ _ _ _ _ Hapi) as (-> & Hf1).
  assert (Hw1 : setRequestData w1 (<[Session ctx := br]> (requestData w1)) = w1).
  { apply putBase_same. destruct Hf1 as (_ & _ & -> & _). exact Hs. }
  assert (Hrq1 : heap w1 !! HttpRequest br = Some rq).
  { destruct Hf1 as (_ & -> & _). exact Hrq. }
  unfold bind at 1. unfold putBase, modify. rewrite Hw1.
  rewrite (eqb_empty_false _ Ha).
  unfold bind at 1. unfold deref. rewrite Hrq1.
  destruct (GetEnvironment_returns br w1 rq Hrq1) as (e & w2 & Hge & Hf2).
  rewrite (bind_ok _ _ _ _ _ Hge).
  assert (Hw2 : setRequestData w2 (<[Session ctx := br]> (requestData w2)) = w2).
  { apply putBase_same. destruct Hf2 as (_ & _ & -> & _).
    destruct Hf1 as (_ & _ & -> & _). exact Hs. }
  unfold bind at 1. unfold putBase, modify. rewrite Hw2.
  exists e, w2. split; [eapply frame_trans; eassumption |].
  destruct (Helpers.isValidResponse rq resp); [| reflexivity].
  unfold_m. now destruct resp.
Qed.

(** X24. [SaveStopLightRequest] captures nothing, and returns the response as
    it is, when no API is resolved for the request or when the request
    carries the ignore directive: no goroutine is started, nothing is stored,
    logged or broadcast. *)
Theorem SaveStopLightRequest_not_captured (resp : option Response) (ctx : ProxyCtx)
    (w w1 : World) (br br' : BaseRequest) (a : Api) (rq : Request) :
  requestData w !! Session ctx = Some br ->
  Skip br = false ->
  Request.GetApi br w = Ok ((a, br'), w1) ->
  heap w !! HttpRequest br = Some rq ->
  ApiIdent a = "" \/ Get (ReqHeader rq) "X-StopLight-Ignore" = "true" ->
  exists w', Helpers.SaveStopLightRequest resp ctx w = Ok (resp, w') /\ frame w w'.
Proof.
  intros Hs Hskip Hapi Hrq Hor.
  destruct (decide (ApiIdent a = "")) as [Ha|Ha].
  - unfold Helpers.SaveStopLightRequest.
    unfold bind at 1. unfold lookupSession, gets. rewrite Hs, Hskip.
    rewrite (bind_ok _ _ _ _ _ Hapi).
    destruct (GetApi_inv _ _ _ _ _ Hapi) as (-> & Hf1).
    unfold bind at 1. unfold putBase, modify.
    rewrite putBase_same by (destruct Hf1 as (_ & _ & -> & _); exact Hs).
    rewrite Ha. exists w1. split; [reflexivity | exact Hf1].
  - destruct Hor as [Hno|Hign]; [congruence |].
    destruct (SaveStopLightRequest_run resp ctx w w1 br br' a rq Hs Hskip Hapi Ha Hrq)
      as (e & w2 & Hf & Hrun).
    exists w2. split; [| exact Hf]. rewrite Hrun.
    unfold Helpers.isValidResponse. now rewrite Hign.
Qed.

Lemma SaveStopLightRequest_not_captured_witness :
  exists w',
    Helpers.SaveStopLightRequest (Some Demo.jsonResponse) Demo.ctx
      (Demo.worldWith Demo.store Sample.nobody false)
    = Ok (Some Demo.jsonResponse, w')
    /\ frame (Demo.worldWith Demo.store Sample.nobody false) w'.
Proof.
  apply (SaveStopLightRequest_not_captured (Some Demo.jsonResponse) Demo.ctx
           (Demo.worldWith Demo.store Sample.nobody false)
           (setQueries (Demo.worldWith Demo.store Sample.nobody false)
              [EnvBySlug "nobody"; EnvByHost "proxy.local"])
           (Demo.base Sample.nobody false) (Demo.base Sample.nobody false)
           zeroApi Sample.nobody);
    try reflexivity. now left.
Defined.

(** X25. An exchange without a response (the upstream failed): with an API
    resolved and no ignore directive, [SaveStopLightRequest] hands the client
    a response of status 503 with a fixed body, and starts one goroutine
    that captures this response; nothing is stored or broadcast yet. *)
Theorem SaveStopLightRequest_upstream_failure (ctx : ProxyCtx) (w w1 : World)
    (br br' : BaseRequest) (a : Api) (rq : Request) :
  requestData w !! Session ctx = Some br ->
  Skip br = false ->
  Request.GetApi br w = Ok ((a, br'), w1) ->
  ApiIdent a <> "" ->
  heap w !! HttpRequest br = Some rq ->
  Get (ReqHeader rq) "X-StopLight-Ignore" <> "true" ->
  exists rsp e w2,
    Helpers.SaveStopLightRequest None ctx w
    = Ok (Some rsp, setSpawned w2 (spawned w2 ++ [CaptureTask br e rsp (RespBody rsp)]))
    /\ frame w w2
    /\ StatusCode rsp = 503
    /\ RespBody rsp = "Service not available. Is the server running?".
Proof.
  intros Hs Hskip Hapi Ha Hrq Hign.
  destruct (SaveStopLightRequest_run None ctx w w1 br br' a rq Hs Hskip Hapi Ha Hrq)
    as (e & w2 & Hf & Hrun).
  eexists _, e, w2. rewrite Hrun. unfold Helpers.isValidResponse.
  apply String.eqb_neq in Hign. rewrite Hign.
  split; [reflexivity |]. split; [exact Hf |]. split; reflexivity.
Qed.

Lemma SaveStopLightRequest_upstream_failure_witness :
  exists rsp e w2,
    Helpers.SaveStopLightRequest None Demo.ctx (Demo.worldWith Demo.store Demo.widgets false)
    = Ok (Some rsp,
          setSpawned w2
            (spawned w2 ++ [CaptureTask (Demo.base Demo.widgets false) e rsp (RespBody rsp)]))
    /\ frame (Demo.worldWith Demo.store Demo.widgets false) w2
    /\ StatusCode rsp = 503
    /\ RespBody rsp = "Service not available. Is the server running?".
Proof.
  apply (SaveStopLightRequest_upstream_failure Demo.ctx
           (Demo.worldWith Demo.store Demo.widgets false)
           (Demo.resolved (Demo.worldWith Demo.store Demo.widgets false))
           (Demo.base Demo.widgets false) (Demo.base Demo.widgets false)
           (mkApi "a1") Demo.widgets);
    try reflexivity; discriminate.
Defined.

(** ** The directives of the later revision *)

(** X26. In the revision with the dashboard directive the decision is taken
    in this order: no wrapper or a set skip flag, not capturable; the ignore
    directive, not capturable, before any look-up; the dashboard directive,
    capturable, even without a tenant; no API resolved, not capturable, even
    without a response; an API resolved and no response, capturable. *)
Theorem isValidResponse_directives (br br1 : BaseRequest) (resp : option Response)
    (w w1 : World) (rq : Request) (a : Api) :
  heap w !! HttpRequest br = Some rq ->
  Request.GetApi br w = Ok ((a, br1), w1) ->
  HelpersDashboard.isValidResponse None resp w = Ok ((false, None), w)
  /\ (Skip br = true ->
      HelpersDashboard.isValidResponse (Some br) resp w = Ok ((false, Some br), w))
  /\ (Skip br = false ->
      (Get (ReqHeader rq) "X-StopLight-Ignore" = "true" ->
       HelpersDashboard.isValidResponse (Some br) resp w = Ok ((false, Some br), w))
      /\ (Get (ReqHeader rq) "X-StopLight-Ignore" <> "true" ->
          (Get (ReqHeader rq) "X-StopLight-Dashboard" = "true" ->
           HelpersDashboard.isValidResponse (Some br) resp w = Ok ((true, Some br1), w1))
          /\ (Get (ReqHeader rq) "X-StopLight-Dashboard" <> "true" ->
              (ApiIdent a = "" ->
               HelpersDashboard.isValidResponse (Some br) resp w = Ok ((false, Some br1), w1))
              /\ (ApiIdent a <> "" ->
                  HelpersDashboard.isValidResponse (Some br) None w
                  = Ok ((true, Some br1), w1))))).
Proof.
  intros Hrq Hapi.
  split; [reflexivity |].
  split; [intros Hskip; unfold HelpersDashboard.isValidResponse; now rewrite Hskip |].
  intros Hskip. split.
  { intros Hign. unfold HelpersDashboard.isValidResponse. rewrite Hskip.
    unfold bind at 1. unfold deref at 1. now rewrite Hrq, Hign. }
  intros Hign%String.eqb_neq.
  split.
  { intros Hd. unfold HelpersDashboard.isValidResponse. rewrite Hskip.
    unfold bind at 1. unfold deref at 1. rewrite Hrq, Hign.
    rewrite (bind_ok _ _ _ _ _ Hapi). now rewrite Hd. }
  intros Hd%String.eqb_neq. split.
  { intros Ha. unfold HelpersDashboard.isValidResponse. rewrite Hskip.
    unfold bind at 1. unfold deref at 1. rewrite Hrq, Hign.
    rewrite (bind_ok _ _ _ _ _ Hapi). now rewrite Hd, Ha. }
  intros Ha%String.eqb_neq. unfold HelpersDashboard.isValidResponse. rewrite Hskip.
  unfold bind at 1. unfold deref at 1. rewrite Hrq, Hign.
  rewrite (bind_ok _ _ _ _ _ Hapi). now rewrite Hd, Ha.
Qed.

Lemma isValidResponse_directives_witness :
  HelpersDashboard.isValidResponse (Some (Demo.base Sample.dashboard false))
    (Some Demo.htmlResponse) (Demo.world Demo.store Sample.dashboard)
  = Ok ((true, Some (Demo.base Sample.dashboard false)),
        Sample.unresolved (Demo.world Demo.store Sample.dashboard))
  /\ HelpersDashboard.isValidResponse (Some (Demo.base Sample.nobody false))
       None (Demo.world Demo.store Sample.nobody)
     = Ok ((false, Some (Demo.base Sample.nobody false)),
           Sample.unresolved (Demo.world Demo.store Sample.nobody))
  /\ HelpersDashboard.isValidResponse (Some (Demo.base Demo.widgets false))
       None (Demo.world Demo.store Demo.widgets)
     = Ok ((true, Some (Demo.base Demo.widgets false)),
           Demo.resolved (Demo.world Demo.store Demo.widgets)).
Proof.
  split; [| split].
  - refine (proj1 (proj2 (proj2 (proj2
              (isValidResponse_directives (Demo.base Sample.dashboard false)
                 (Demo.base Sample.dashboard false) (Some Demo.htmlResponse)
                 (Demo.world Demo.store Sample.dashboard)
                 (Sample.unresolved (Demo.world Demo.store Sample.dashboard))
                 Sample.dashboard zeroApi eq_refl eq_refl)) eq_refl) _) eq_refl).
    vm_compute. discriminate.
  - refine (proj1 (proj2 (proj2 (proj2 (proj2
              (isValidResponse_directives (Demo.base Sample.nobody false)
                 (Demo.base Sample.nobody false) None
                 (Demo.world Demo.store Sample.nobody)
                 (Sample.unresolved (Demo.world Demo.store Sample.nobody))
                 Sample.nobody zeroApi eq_refl eq_refl)) eq_refl) _) _) eq_refl);
      vm_compute; discriminate.
  - refine (proj2 (proj2 (proj2 (proj2 (proj2
              (isValidResponse_directives (Demo.base Demo.widgets false)
                 (Demo.base Demo.widgets false) None
                 (Demo.world Demo.store Demo.widgets)
                 (Demo.resolved (Demo.world Demo.store Demo.widgets))
                 Demo.widgets (mkApi "a1") eq_refl eq_refl)) eq_refl) _) _) _);
      vm_compute; discriminate.
Defined.

(** X27. A capture without tenant context: when the no-context header was
    ["true"], the goroutine of the later revision looks up the user only; the
    record it stores carries the zero API and the zero environment, and the
    event tells whether the request came from the dashboard. *)
Theorem capture_without_context (br br1 : BaseRequest) (dash : bool) (resp : Response)
    (respBody : string) (w w1 : World) (u : option User) (rq : Request) :
  Request.GetUser br w = Ok ((u, br1), w1) ->
  heap w !! HttpRequest br = Some rq ->
  CreateError (db w) (NewRequest u zeroApi zeroEnvironment rq (Body br) resp respBody) = None ->
  exists w',
    HelpersDashboard.capture br "true" dash resp respBody w = Ok (tt, w')
    /\ requests (db w')
       = requests (db w) ++ [NewRequest u zeroApi zeroEnvironment rq (Body br) resp respBody]
    /\ broadcasts w'
       = broadcasts w
         ++ [mkEvent "request.create" "request"
               (NewRequest u zeroApi zeroEnvironment rq (Body br) resp respBody) dash]
    /\ queries w' = queries w1
    /\ logs w' = logs w.
Proof.
  intros Hu Hrq Hc. unfold HelpersDashboard.capture.
  rewrite (bind_ok _ _ _ _ _ Hu).
  destruct (GetUser_inv _ _ _ _ _ Hu) as (Hp & Hb & Hdb & Hheap & _ & Hlogs & Hbr & _).
  change (String.eqb "true" "true") with true. cbv iota.
  unfold_m. cbv beta iota. rewrite Hp, Hheap, Hrq. cbv beta iota.
  rewrite Hb, Hdb, Hc.
  eexists. split; [reflexivity |]. simpl. now rewrite Hbr, Hlogs.
Qed.

Lemma capture_without_context_witness :
  exists w',
    HelpersDashboard.capture (Demo.base Sample.noContext false) "true" false
      Demo.jsonResponse "{}" (Demo.world Demo.store Sample.noContext)
    = Ok (tt, w')
    /\ requests (db w')
       = requests (db (Demo.world Demo.store Sample.noContext))
         ++ [NewRequest None zeroApi zeroEnvironment Sample.noContext
               (Body (Demo.base Sample.noContext false)) Demo.jsonResponse "{}"]
    /\ broadcasts w'
       = broadcasts (Demo.world Demo.store Sample.noContext)
         ++ [mkEvent "request.create" "request"
               (NewRequest None zeroApi zeroEnvironment Sample.noContext
                  (Body (Demo.base Sample.noContext false)) Demo.jsonResponse "{}") false]
    /\ queries w' = queries (setQueries (Demo.world Demo.store Sample.noContext) [UserByToken ""])
    /\ logs w' = logs (Demo.world Demo.store Sample.noContext).
Proof.
  apply (capture_without_context (Demo.base Sample.noContext false)
           (Demo.base Sample.noContext false) false Demo.jsonResponse "{}"
           (Demo.world Demo.store Sample.noContext)
           (setQueries (Demo.world Demo.store Sample.noContext) [UserByToken ""])
           None Sample.noContext);
    reflexivity.
Defined.

(** ** The first revision of the filters *)

(** X28. In the first revision [SaveStopLightRequest] ends the session by
    itself: when the skip flag is unset the session is deleted from the
    table on return, captured or not; when it is set the session stays and
    nothing at all is changed. A goroutine is started exactly when the flag
    is unset, the exchange is valid and an environment is resolved; its
    closure holds the wrapper, that environment and the response that is
    returned. Without a goroutine the response is returned as it came. *)
Theorem SaveStopLightRequest_first_session (resp : option Response) (ctx : ProxyCtx)
    (w w1 : World) (br br' : BaseRequest) (e : Environment) (rq : Request) :
  requestData w !! Session ctx = Some br ->
  heap w !! HttpRequest br = Some rq ->
  Request.GetEnvironment br w = Ok ((e, br'), w1) ->
  exists out started w',
    HelpersFirst.SaveStopLightRequest resp ctx w = Ok ((out, started), w')
    /\ requestData w'
       = (if Skip br then requestData w else delete (Session ctx) (requestData w))
    /\ (Skip br = true -> w' = w)
    /\ db w' = db w /\ heap w' = heap w /\ logs w' = logs w
    /\ broadcasts w' = broadcasts w /\ spawned w' = spawned w
    /\ (started = None -> out = resp)
    /\ (forall c, started = Some c ->
          HelpersFirst.capBase c = br
          /\ HelpersFirst.capEnv c = e
          /\ out = Some (HelpersFirst.capResp c)
          /\ HelpersFirst.capRespBody c = RespBody (HelpersFirst.capResp c)
          /\ (forall rsp, resp = Some rsp -> HelpersFirst.capResp c = rsp))
    /\ (is_Some started
        <-> Skip br = false /\ HelpersFirst.isValidResponse rq resp = true /\ Slug e <> "").
Proof.
  intros Hs Hrq Hge. unfold HelpersFirst.SaveStopLightRequest.
  unfold bind at 1. unfold lookupSession, gets. rewrite Hs.
  destruct (Skip br) eqn:Hskip.
  - exists resp, None, w. split; [reflexivity |].
    do 8 (split; [first [ reflexivity | discriminate ] |]).
    split; [intros c [=] |].
    split; [intros [c [=]] | intros (H & _); discriminate].
  - unfold bind at 1. unfold deref. rewrite Hrq.
    rewrite (bind_ok _ _ _ _ _ Hge).
    destruct (GetEnvironment_inv _ _ _ _ _ Hge)
      as (-> & (Hdb & Hheap & Hrd & Hlogs & Hbr & Hsp) & _ & _).
    destruct (HelpersFirst.isValidResponse rq resp) eqn:Hv;
      destruct (String.eqb_spec (Slug e) "") as [Hslug|Hslug]; cbn [andb negb]; unfold_m.
    all: eexists _, _, _; split; [reflexivity |]; simpl; rewrite Hrd.
    all: do 7 (split; [first [ reflexivity | assumption | discriminate ] |]).
    + split; [reflexivity |]. split; [intros c [=] |].
      split; [intros [c [=]] | intros (_ & _ & H); now destruct H].
    + split; [discriminate |].
      split; [intros c [= <-]; cbn; repeat split; now intros rsp -> |].
      split; [intros _; now repeat split | intros _; now eexists].
    + split; [reflexivity |]. split; [intros c [=] |].
      split; [intros [c [=]] | intros (_ & H & _); discriminate].
    + split; [reflexivity |]. split; [intros c [=] |].
      split; [intros [c [=]] | intros (_ & H & _); discriminate].
Qed.

Lemma SaveStopLightRequest_first_session_witness :
  exists out started w',
    HelpersFirst.SaveStopLightRequest (Some Demo.jsonResponse) Demo.ctx
      (Demo.worldWith Demo.store Demo.widgets false)
    = Ok ((out, started), w')
    /\ requestData w'
       = (if Skip (Demo.base Demo.widgets false)
          then requestData (Demo.worldWith Demo.store Demo.widgets false)
          else delete (Session Demo.ctx)
                 (requestData (Demo.worldWith Demo.store Demo.widgets false)))
    /\ (Skip (Demo.base Demo.widgets false) = true ->
        w' = Demo.worldWith Demo.store Demo.widgets false)
    /\ db w' = db (Demo.worldWith Demo.store Demo.widgets false)
    /\ heap w' = heap (Demo.worldWith Demo.store Demo.widgets false)
    /\ logs w' = logs (Demo.worldWith Demo.store Demo.widgets false)
    /\ broadcasts w' = broadcasts (Demo.worldWith Demo.store Demo.widgets false)
    /\ spawned w' = spawned (Demo.worldWith Demo.store Demo.widgets false)
    /\ (started = None -> out = Some Demo.jsonResponse)
    /\ (forall c, started = Some c ->
          HelpersFirst.capBase c = Demo.base Demo.widgets false
          /\ HelpersFirst.capEnv c = Demo.acme
          /\ out = Some (HelpersFirst.capResp c)
          /\ HelpersFirst.capRespBody c = RespBody (HelpersFirst.capResp c)
          /\ (forall rsp, Some Demo.jsonResponse = Some rsp -> HelpersFirst.capResp c = rsp))
    /\ (is_Some started
        <-> Skip (Demo.base Demo.widgets false) = false
            /\ HelpersFirst.isValidResponse Demo.widgets (Some Demo.jsonResponse) = true
            /\ Slug Demo.acme <> "").
Proof.
  apply (SaveStopLightRequest_first_session (Some Demo.jsonResponse) Demo.ctx
           (Demo.worldWith Demo.store Demo.widgets false)
           (setQueries (Demo.worldWith Demo.store Demo.widgets false) [EnvBySlug "acme"])
           (Demo.base Demo.widgets false) (Demo.base Demo.widgets false)
           Demo.acme Demo.widgets);
    reflexivity.
Defined.

(** X29. In the first revision [PostflightCorsSupport] honours the skip
    flag: on a skipped session it returns the response as it is, without a
    look-up and without any change of state. In every case it leaves the
    status, the body and every header but the CORS ones as they are, and it
    changes nothing but the trace of look-ups; with the flag unset, an
    environment resolved and a response at hand, it sets the four
    [Access-Control-Allow-*] headers, the allowed headers being the ones
    the request of the context asks for. *)
Theorem PostflightCorsSupport_first_cors_only (resp : option Response) (ctx : ProxyCtx)
    (w w1 : World) (br br' : BaseRequest) (e : Environment) (creq : Request) :
  requestData w !! Session ctx = Some br ->
  Request.GetEnvironment br w = Ok ((e, br'), w1) ->
  heap w !! Req ctx = Some creq ->
  exists out w',
    HelpersFirst.PostflightCorsSupport resp ctx w = Ok (out, w')
    /\ frame w w'
    /\ (Skip br = true -> out = resp /\ w' = w)
    /\ (Slug e = "" -> out = resp)
    /\ (resp = None -> out = None)
    /\ (forall rsp, resp = Some rsp ->
        exists h,
          out = Some (mkResponse (StatusCode rsp) h (RespBody rsp))
          /\ (forall key, key ∉ corsKeys -> h !! key = RespHeader rsp !! key)
          /\ (Skip br = false -> Slug e <> "" ->
              Get h "Access-Control-Allow-Credentials" = "true"
              /\ Get h "Access-Control-Allow-Headers"
                 = Get (ReqHeader creq) "Access-Control-Request-Headers"
              /\ Get h "Access-Control-Allow-Methods"
                 = "GET, POST, OPTIONS, DELETE, PUT, PATCH"
              /\ Get h "Access-Control-Allow-Origin" = "*")).
Proof.
  intros Hs Hge Hreq. unfold HelpersFirst.PostflightCorsSupport.
  unfold bind at 1. unfold lookupSession, gets. rewrite Hs.
  destruct (Skip br) eqn:Hskip.
  - exists resp, w. split; [reflexivity |]. split; [apply frame_refl |].
    split; [now intros _ |]. split; [now intros _ |]. split; [now intros -> |].
    intros rsp ->. exists (RespHeader rsp).
    split; [now destruct rsp |]. split; [reflexivity | discriminate].
  - rewrite (bind_ok _ _ _ _ _ Hge).
    destruct (GetEnvironment_inv _ _ _ _ _ Hge) as (-> & Hfr & _ & _).
    assert (Hw : setRequestData w1 (<[Session ctx := br]> (requestData w1)) = w1).
    { apply putBase_same. destruct Hfr as (_ & _ & -> & _). exact Hs. }
    assert (Hreq' : heap w1 !! Req ctx = Some creq).
    { destruct Hfr as (_ & -> & _). exact Hreq. }
    unfold bind at 1. unfold putBase, modify. rewrite Hw.
    destruct (String.eqb_spec (Slug e) "") as [Hslug|Hslug].
    + exists resp, w1. split; [reflexivity |]. split; [exact Hfr |].
      split; [discriminate |]. split; [now intros _ |]. split; [now intros -> |].
      intros rsp ->. exists (RespHeader rsp).
      split; [now destruct rsp |]. split; [reflexivity |]. intros _ H. now destruct H.
    + destruct resp as [rsp|].
      * unfold_m. rewrite Hreq'. eexists _, w1. split; [reflexivity |].
        split; [exact Hfr |]. split; [discriminate |].
        split; [intros H; now destruct Hslug |]. split; [discriminate |].
        intros rsp' [= <-]. eexists. split; [reflexivity |].
        split.
        { intros key Hkey. unfold corsKeys in Hkey.
          rewrite !lookup_Set_ne; [reflexivity | | | |];
            vm_compute CanonicalMIMEHeaderKey; intros ->; apply Hkey; set_solver. }
        intros _ _.
        do 3 (split; [repeat first [ rewrite Get_Set_eq
                                   | rewrite Get_Set_ne by (vm_compute; discriminate) ];
                      reflexivity |]).
        apply Get_Set_eq.
      * exists None, w1. split; [reflexivity |]. split; [exact Hfr |].
        split; [discriminate |]. split; [now intros _ |]. split; [now intros _ |].
        intros rsp [=].
Qed.

Lemma PostflightCorsSupport_first_cors_only_witness :
  exists out w',
    HelpersFirst.PostflightCorsSupport (Some Demo.jsonResponse) Demo.ctx
      (Demo.worldWith Demo.store Demo.widgets false)
    = Ok (out, w')
    /\ frame (Demo.worldWith Demo.store Demo.widgets false) w'
    /\ (Skip (Demo.base Demo.widgets false) = true ->
        out = Some Demo.jsonResponse /\ w' = Demo.worldWith Demo.store Demo.widgets false)
    /\ (Slug Demo.acme = "" -> out = Some Demo.jsonResponse)
    /\ (Some Demo.jsonResponse = None -> out = None)
    /\ (forall rsp, Some Demo.jsonResponse = Some rsp ->
        exists h,
          out = Some (mkResponse (StatusCode rsp) h (RespBody rsp))
          /\ (forall key, key ∉ corsKeys -> h !! key = RespHeader rsp !! key)
          /\ (Skip (Demo.base Demo.widgets false) = false -> Slug Demo.acme <> "" ->
              Get h "Access-Control-Allow-Credentials" = "true"
              /\ Get h "Access-Control-Allow-Headers"
                 = Get (ReqHeader Demo.widgets) "Access-Control-Request-Headers"
              /\ Get h "Access-Control-Allow-Methods"
                 = "GET, POST, OPTIONS, DELETE, PUT, PATCH"
              /\ Get h "Access-Control-Allow-Origin" = "*")).
Proof.
  apply (PostflightCorsSupport_first_cors_only (Some Demo.jsonResponse) Demo.ctx
           (Demo.worldWith Demo.store Demo.widgets false)
           (setQueries (Demo.worldWith Demo.store Demo.widgets false) [EnvBySlug "acme"])
           (Demo.base Demo.widgets false) (Demo.base Demo.widgets false)
           Demo.acme Demo.widgets);
    reflexivity.
Defined.

(** ** The cache in front of the environment look-up *)

(** X30. In the revision with the cache, what [requestEnvFromPath] answers
    for a request stays its answer: a second look-up for the same request
    returns the same environment from the cache, a miss included, without a
    query to the store and whatever the store has become in the meantime. *)
Theorem requestEnvFromPath_cached_again (br : BaseRequest) (w w1 : World)
    (e : Environment) (d' : DB) :
  RequestCached.requestEnvFromPath br w = Ok (e, w1) ->
  exists w2,
    RequestCached.requestEnvFromPath br (setDb w1 d') = Ok (e, w2)
    /\ queries w2 = queries w1
    /\ db w2 = d'.
Proof.
  intros H. unfold RequestCached.requestEnvFromPath in *.
  unfold bind at 1 in H. unfold deref in H.
  destruct (heap w !! HttpRequest br) as [rq|] eqn:Hrq; [| discriminate].
  destruct (slugFromUrl_RequestURI (Url_ rq)) as [slug Hslug].
  assert (Hheap : heap w1 = heap w /\ cacheFind slug (cache w1) = Some (CEnvironment e)).
  { unfold_m. rewrite Hslug in H.
    destruct (cacheFind slug (cache w)) as [[e0| |]|] eqn:Hc; inv_result; simpl.
    all: split; [reflexivity | apply cacheFind_head]. }
  destruct Hheap as (Hheap & Hhit).
  unfold_m. destruct w1; simpl in *. rewrite Hheap, Hrq. cbv beta iota.
  rewrite Hslug. cbv beta iota. simpl. rewrite Hhit.
  eexists. split; [reflexivity |]. now split.
Qed.

Lemma requestEnvFromPath_cached_again_witness :
  exists w2,
    RequestCached.requestEnvFromPath (Demo.base Demo.widgets false)
      (setDb (setCache (setQueries (Demo.world Demo.store Demo.widgets) [EnvBySlug "acme"])
                [("acme", CEnvironment Demo.acme)])
         (mkDB [] [] [] [] (fun _ => None) (fun _ => None)))
    = Ok (Demo.acme, w2)
    /\ queries w2
       = queries (setCache (setQueries (Demo.world Demo.store Demo.widgets) [EnvBySlug "acme"])
                    [("acme", CEnvironment Demo.acme)])
    /\ db w2 = mkDB [] [] [] [] (fun _ => None) (fun _ => None).
Proof.
  apply (requestEnvFromPath_cached_again (Demo.base Demo.widgets false)
           (Demo.world Demo.store Demo.widgets)
           (setCache (setQueries (Demo.world Demo.store Demo.widgets) [EnvBySlug "acme"])
              [("acme", CEnvironment Demo.acme)])
           Demo.acme (mkDB [] [] [] [] (fun _ => None) (fun _ => None))).
  reflexivity.
Defined.
